(** * mac-mcp: the tool registry, the handlers and the dispatcher of
      [src/index.js], embedded as Rocq functions

    The server wraps operating-system utilities: every handler issues shell
    commands through [execAsync], reshapes their textual output and returns a
    JSON record.  The embedding keeps that structure.

    - Strings are sequences of code units below 256 ([string]).
    - JavaScript numbers are IEEE 754 binary64 values ([spec_float] at
      precision 53 and maximal exponent 1024).
    - The outside world is an oracle from the commands issued so far and the
      next command to the outcome of that command; a handler is a function in
      a state monad over the list of commands issued.
    - Tool arguments are the typed view of the JSON argument object that the
      declared input schemas describe. *)

From Stdlib Require Import String Ascii List ZArith Bool Lia DecimalString.
From Stdlib Require Import Floats.SpecFloat.
Import ListNotations.

Local Open Scope string_scope.
Local Open Scope Z_scope.

#[local] Set Warnings "-register-all".

(** ** Strings *)

Module Str.

Definition dquote : string := String "034"%char "".
Definition newline : string := String "010"%char "".
Definition tab : string := String "009"%char "".

(** White space and line terminators of ECMAScript among the code units
    below 256: TAB, LF, VT, FF, CR, SP and NBSP.  [String.prototype.trim],
    the class [\s] and the prefix skipped by [parseInt] and [parseFloat]
    all use this set. *)
Definition isWhite (c : ascii) : bool :=
  let n := nat_of_ascii c in
  ((9 <=? n) && (n <=? 13))%nat || (n =? 32)%nat || (n =? 160)%nat.

(** Line terminators, which [.] does not match. *)
Definition isLineTerminator (c : ascii) : bool :=
  let n := nat_of_ascii c in (n =? 10)%nat || (n =? 13)%nat.

Definition isDigit (c : ascii) : bool :=
  let n := nat_of_ascii c in ((48 <=? n) && (n <=? 57))%nat.

Definition digitVal (c : ascii) : Z := Z.of_nat (nat_of_ascii c) - 48.

Fixpoint trimStart (s : string) : string :=
  match s with
  | String c r => if isWhite c then trimStart r else s
  | EmptyString => EmptyString
  end.

(** [trimEnd] keeps a character when it is not white space or when
    something is kept after it. *)
Fixpoint trimEnd (s : string) : string :=
  match s with
  | EmptyString => EmptyString
  | String c r =>
      match trimEnd r with
      | EmptyString => if isWhite c then EmptyString else String c EmptyString
      | r' => String c r'
      end
  end.

Definition trim (s : string) : string := trimEnd (trimStart s).

(** [s.split(/\s+/)]: the pieces between maximal runs of white space.
    [inSep] tells that the previous character belonged to a separator. *)
Fixpoint splitWsFrom (inSep : bool) (s : string) : list string :=
  match s with
  | EmptyString => [EmptyString]
  | String c r =>
      if isWhite c then
        if inSep then splitWsFrom true r else EmptyString :: splitWsFrom true r
      else
        match splitWsFrom false r with
        | p :: ps => String c p :: ps
        | [] => [String c EmptyString]
        end
  end.

Definition splitWs (s : string) : list string := splitWsFrom false s.

(** [s.split(sep)] for a separator of one character. *)
Fixpoint splitOn (sep : ascii) (s : string) : list string :=
  match s with
  | EmptyString => [EmptyString]
  | String c r =>
      if Ascii.eqb c sep then EmptyString :: splitOn sep r
      else
        match splitOn sep r with
        | p :: ps => String c p :: ps
        | [] => [String c EmptyString]
        end
  end.

Definition lines (s : string) : list string := splitOn "010"%char s.

(** [xs.join(sep)] on strings. *)
Fixpoint join (sep : string) (xs : list string) : string :=
  match xs with
  | [] => EmptyString
  | [x] => x
  | x :: r => x ++ sep ++ join sep r
  end.

(** [stripPrefix p s] is the rest of [s] after the prefix [p]. *)
Fixpoint stripPrefix (p s : string) : option string :=
  match p, s with
  | EmptyString, _ => Some s
  | String a p', String b s' => if Ascii.eqb a b then stripPrefix p' s' else None
  | String _ _, EmptyString => None
  end.

Definition startsWith (p s : string) : bool :=
  match stripPrefix p s with
  | Some _ => true
  | None => false
  end.

(** [s.includes(p)]. *)
Fixpoint includes (p s : string) : bool :=
  match stripPrefix p s with
  | Some _ => true
  | None => match s with
            | EmptyString => false
            | String _ r => includes p r
            end
  end.

(** The expansion of a replacement text ([GetSubstitution]) for a pattern
    that is a string: [$$] is a dollar sign, [$&] the matched text, [$`]
    the text before the match and [$'] the text after it; a string pattern
    has no captures, so every other [$] stands for itself. *)
Fixpoint substitution (matched before after rep : string) : string :=
  match rep with
  | EmptyString => EmptyString
  | String c r =>
      if Ascii.eqb c "$"%char then
        match r with
        | String d r' =>
            if Ascii.eqb d "$"%char then String "$"%char (substitution matched before after r')
            else if Ascii.eqb d "&"%char then matched ++ substitution matched before after r'
            else if Ascii.eqb d "`"%char then before ++ substitution matched before after r'
            else if Ascii.eqb d "'"%char then after ++ substitution matched before after r'
            else String c (substitution matched before after r)
        | EmptyString => String c EmptyString
        end
      else String c (substitution matched before after r)
  end.

(** [s.replace(p, rep)] for a string pattern: the first occurrence only.
    [before] accumulates the text already passed. *)
Fixpoint replaceFrom (before : string) (p rep s : string) : option string :=
  match stripPrefix p s with
  | Some rest =>
      Some (substitution p before rest rep ++ rest)
  | None =>
      match s with
      | EmptyString => None
      | String c r =>
          match replaceFrom (before ++ String c EmptyString) p rep r with
          | Some r' => Some (String c r')
          | None => None
          end
      end
  end.

Definition replace (p rep s : string) : string :=
  match replaceFrom EmptyString p rep s with
  | Some r => r
  | None => s
  end.

(** [s.replace(/\n/g, rep)] for a replacement text without [$]. *)
Fixpoint replaceNewlines (rep s : string) : string :=
  match s with
  | EmptyString => EmptyString
  | String c r =>
      if Ascii.eqb c "010"%char then rep ++ replaceNewlines rep r
      else String c (replaceNewlines rep r)
  end.

(** The longest prefix of characters satisfying [f], and the rest. *)
Fixpoint span (f : ascii -> bool) (s : string) : string * string :=
  match s with
  | EmptyString => (EmptyString, EmptyString)
  | String c r =>
      if f c then let '(a, b) := span f r in (String c a, b)
      else (EmptyString, s)
  end.

(** The first suffix of [s], from the left, on which [f] succeeds: how a
    regular expression without the sticky flag looks for its match. *)
Fixpoint firstMatch {A : Type} (f : string -> option A) (s : string) : option A :=
  match f s with
  | Some a => Some a
  | None => match s with
            | EmptyString => None
            | String _ r => firstMatch f r
            end
  end.

End Str.

(** ** Numbers

    A JavaScript number is a binary64 value.  Arithmetic is that of
    [SpecFloat]; the conversions between numbers and strings are written
    with exact integer arithmetic and rounded once, to nearest even. *)

Module Num.

Definition number : Type := spec_float.

Definition prec : Z := 53.
Definition emax : Z := 1024.

Definition NaN : number := S754_nan.
Definition zero : number := S754_zero false.

Definition add : number -> number -> number := SFadd prec emax.
Definition sub : number -> number -> number := SFsub prec emax.
Definition mul : number -> number -> number := SFmul prec emax.
Definition div : number -> number -> number := SFdiv prec emax.

(** [a < b] and [a > b]; both are false when an operand is NaN. *)
Definition lt (a b : number) : bool := SFltb a b.
Definition gt (a b : number) : bool := SFltb b a.

(** The number nearest to the fraction [p / q], for [0 <= p] and [0 < q],
    with the sign [neg]. *)
Definition ofRatio (neg : bool) (p q : Z) : number :=
  if p =? 0 then S754_zero neg
  else
    let '(m, e, l) := SFdiv_core_binary prec emax p 0 q 0 in
    binary_round_aux prec emax neg m e l.

(** The number nearest to [m * 10 ^ e], for [0 <= m]. *)
Definition ofDecimal (neg : bool) (m e : Z) : number :=
  if 0 <=? e then ofRatio neg (m * 10 ^ e) 1 else ofRatio neg m (10 ^ (- e)).

Definition ofZ (z : Z) : number := ofRatio (z <? 0) (Z.abs z) 1.

(** The exact value of a finite number, as a fraction. *)
Definition exact (m : positive) (e : Z) : Z * Z :=
  if 0 <=? e then (Zpos m * 2 ^ e, 1) else (Zpos m, 2 ^ (- e)).

(** [ToBoolean] on numbers: zero and NaN are falsy. *)
Definition truthy (x : number) : bool :=
  match x with
  | S754_zero _ | S754_nan => false
  | _ => true
  end.

(** *** Reading numbers *)

Fixpoint digitsValue (acc : Z) (s : string) : Z :=
  match s with
  | EmptyString => acc
  | String c r => digitsValue (10 * acc + Str.digitVal c) r
  end.

Definition hexVal (c : ascii) : option Z :=
  let n := Z.of_nat (nat_of_ascii c) in
  if (48 <=? n) && (n <=? 57) then Some (n - 48)
  else if (65 <=? n) && (n <=? 70) then Some (n - 55)
  else if (97 <=? n) && (n <=? 102) then Some (n - 87)
  else None.

(** The value of the longest prefix of hexadecimal digits, if not empty. *)
Fixpoint hexPrefix (acc : option Z) (s : string) : option Z :=
  match s with
  | EmptyString => acc
  | String c r =>
      match hexVal c with
      | Some d => hexPrefix (Some (16 * match acc with Some a => a | None => 0 end + d)) r
      | None => acc
      end
  end.

(** An optional sign: [true] for a minus sign. *)
Definition readSign (s : string) : bool * string :=
  match s with
  | String c r =>
      if Ascii.eqb c "-"%char then (true, r)
      else if Ascii.eqb c "+"%char then (false, r)
      else (false, s)
  | EmptyString => (false, s)
  end.

(** [parseInt(s)] without a radix: base 16 after [0x] or [0X], base 10
    otherwise; NaN when no digit follows. *)
Definition parseInt (s : string) : number :=
  let '(neg, s1) := readSign (Str.trimStart s) in
  let hex := match Str.stripPrefix "0x" s1 with
             | Some r => Some r
             | None => Str.stripPrefix "0X" s1
             end in
  match hex with
  | Some r =>
      match hexPrefix None r with
      | Some v => ofRatio neg v 1
      | None => NaN
      end
  | None =>
      let '(ds, _) := Str.span Str.isDigit s1 in
      match ds with
      | EmptyString => NaN
      | _ => ofRatio neg (digitsValue 0 ds) 1
      end
  end.

(** The exponent part [e], [e+] or [e-] followed by digits; 0 and the text
    unchanged when there is none. *)
Definition readExponent (s : string) : Z :=
  match s with
  | String c r =>
      if Ascii.eqb c "e"%char || Ascii.eqb c "E"%char then
        let '(neg, r1) := readSign r in
        let '(ds, _) := Str.span Str.isDigit r1 in
        match ds with
        | EmptyString => 0
        | _ => if neg then - digitsValue 0 ds else digitsValue 0 ds
        end
      else 0
  | EmptyString => 0
  end.

(** [parseFloat(s)]: the longest prefix of the trimmed text that is a
    decimal literal ([StrDecimalLiteral]), or NaN. *)
Definition parseFloat (s : string) : number :=
  let '(neg, s1) := readSign (Str.trimStart s) in
  match Str.stripPrefix "Infinity" s1 with
  | Some _ => S754_infinity neg
  | None =>
      let '(ip, s2) := Str.span Str.isDigit s1 in
      let '(fp, s3) :=
        match s2 with
        | String c r =>
            if Ascii.eqb c "."%char then
              let '(fp, s3) := Str.span Str.isDigit r in
              match ip, fp with
              | EmptyString, EmptyString => (EmptyString, s2)
              | _, _ => (fp, s3)
              end
            else (EmptyString, s2)
        | EmptyString => (EmptyString, s2)
        end in
      match ip, fp with
      | EmptyString, EmptyString => NaN
      | _, _ =>
          ofDecimal neg (digitsValue 0 (ip ++ fp))
                    (readExponent s3 - Z.of_nat (String.length fp))
      end
  end.

(** *** Writing numbers *)

Definition decimal (z : Z) : string := NilZero.string_of_int (Z.to_int z).

Fixpoint zeros (n : nat) : string :=
  match n with O => EmptyString | S k => String "0"%char (zeros k) end.

Definition stripTrailingZeros (s : string) : string :=
  let fix go (s : string) : string :=
    match s with
    | EmptyString => EmptyString
    | String c r =>
        match go r with
        | EmptyString => if Ascii.eqb c "0"%char then EmptyString else String c EmptyString
        | r' => String c r'
        end
    end in
  go s.

(** [10 ^ d <= p / q], for [0 < q]. *)
Definition pow10le (d p q : Z) : bool :=
  if 0 <=? d then 10 ^ d * q <=? p else q <=? p * 10 ^ (- d).

(** The integer [d] with [10 ^ d <= p / q < 10 ^ (d + 1)], for [0 < p]. *)
Definition floorLog10 (p q : Z) : Z :=
  let a := Z.of_nat (String.length (decimal p)) in
  let b := Z.of_nat (String.length (decimal q)) in
  if pow10le (a - b) p q then a - b else a - b - 1.

(** [floor (p / q / 10 ^ t)]. *)
Definition scaledFloor (p q t : Z) : Z :=
  if 0 <=? t then p / (q * 10 ^ t) else (p * 10 ^ (- t)) / q.

(** [compare |p / q - lo * 10 ^ t| |hi * 10 ^ t - p / q|] for
    [lo * 10 ^ t <= p / q <= hi * 10 ^ t]. *)
Definition nearer (p q t lo hi : Z) : comparison :=
  if 0 <=? t then (2 * p ?= (lo + hi) * 10 ^ t * q)
  else (2 * p * 10 ^ (- t) ?= (lo + hi) * q).

(** The shortest decimal [s * 10 ^ t] that reads back as the positive
    finite number [x = p / q]: [k] digits are tried for [k = 1, 2, ...];
    of two candidates the nearer wins, and the even one on a tie. *)
Fixpoint shortest (fuel : nat) (x : number) (p q d k : Z) : Z * Z :=
  let t := d - k + 1 in
  let lo := scaledFloor p q t in
  let hi := lo + 1 in
  let okLo := match SFcompare (ofDecimal false lo t) x with Some Eq => true | _ => false end in
  let okHi := match SFcompare (ofDecimal false hi t) x with Some Eq => true | _ => false end in
  match fuel with
  | O => (lo, t)
  | S fuel' =>
      if okLo && okHi then
        match nearer p q t lo hi with
        | Lt => (lo, t)
        | Gt => (hi, t)
        | Eq => if Z.even lo then (lo, t) else (hi, t)
        end
      else if okLo then (lo, t)
      else if okHi then (hi, t)
      else shortest fuel' x p q d (k + 1)
  end.

(** [Number::toString] in base 10. *)
Definition toString (x : number) : string :=
  match x with
  | S754_nan => "NaN"
  | S754_zero _ => "0"
  | S754_infinity s => if s then "-Infinity" else "Infinity"
  | S754_finite s m e =>
      let '(p, q) := exact m e in
      let '(sd, t) := shortest 17 (S754_finite false m e) p q (floorLog10 p q) 1 in
      let n := Z.of_nat (String.length (decimal sd)) + t in
      let ds := stripTrailingZeros (decimal sd) in
      let k := Z.of_nat (String.length ds) in
      let body :=
        if (k <=? n) && (n <=? 21) then ds ++ zeros (Z.to_nat (n - k))
        else if (0 <? n) && (n <=? 21) then
          substring 0 (Z.to_nat n) ds ++ "." ++ substring (Z.to_nat n) (Z.to_nat (k - n)) ds
        else if (-6 <? n) && (n <=? 0) then "0." ++ zeros (Z.to_nat (- n)) ++ ds
        else
          let ex := (if 0 <=? n - 1 then "+" else "-") ++ decimal (Z.abs (n - 1)) in
          if k =? 1 then ds ++ "e" ++ ex
          else substring 0 1 ds ++ "." ++ substring 1 (Z.to_nat (k - 1)) ds ++ "e" ++ ex in
      if s then "-" ++ body else body
  end.

(** [x.toFixed(f)] for [0 <= f]: the decimal with [f] digits after the
    point nearest to [x], the larger in magnitude on a tie; numbers from
    [10 ^ 21] on are written by [toString]. *)
Definition toFixed (f : Z) (x : number) : string :=
  match x with
  | S754_nan => "NaN"
  | S754_zero _ => if f =? 0 then "0" else "0." ++ zeros (Z.to_nat f)
  | S754_infinity s => if s then "-Infinity" else "Infinity"
  | S754_finite s m e =>
      let '(p, q) := exact m e in
      if 10 ^ 21 * q <=? p then toString x
      else
        let n := (2 * p * 10 ^ f + q) / (2 * q) in
        let ds := decimal n in
        let body :=
          if f =? 0 then ds
          else
            let k := String.length ds in
            let ds' := if (k <=? Z.to_nat f)%nat then zeros (Z.to_nat f + 1 - k) ++ ds else ds in
            let a := (String.length ds' - Z.to_nat f)%nat in
            substring 0 a ds' ++ "." ++ substring a (Z.to_nat f) ds' in
        if s then "-" ++ body else body
  end.

End Num.

(** ** JSON values

    The records the handlers build.  An object keeps its properties in
    insertion order, as [JSON.stringify] prints them. *)

Module Json.

Inductive value : Type :=
| VUndefined
| VNull
| VBool (b : bool)
| VNum (x : Num.number)
| VStr (s : string)
| VArr (items : list value)
| VObj (fields : list (string * value)).

(** [o[k]]. *)
Fixpoint lookup (k : string) (fields : list (string * value)) : value :=
  match fields with
  | [] => VUndefined
  | (k', v) :: r => if String.eqb k k' then v else lookup k r
  end.

Definition get (k : string) (o : value) : value :=
  match o with
  | VObj fields => lookup k fields
  | _ => VUndefined
  end.

(** [o[k] = v]: an existing property keeps its place. *)
Fixpoint assign (k : string) (v : value) (fields : list (string * value))
  : list (string * value) :=
  match fields with
  | [] => [(k, v)]
  | (k', v') :: r =>
      if String.eqb k k' then (k, v) :: r else (k', v') :: assign k v r
  end.

Definition set (k : string) (v : value) (o : value) : value :=
  match o with
  | VObj fields => VObj (assign k v fields)
  | _ => o
  end.

Definition keys (o : value) : list string :=
  match o with
  | VObj fields => map fst fields
  | _ => []
  end.

(** An optional string as a value: [undefined] when absent. *)
Definition ofOption (o : option string) : value :=
  match o with
  | Some s => VStr s
  | None => VUndefined
  end.

(** *** [JSON.stringify(v, null, 2)] *)

Definition hexDigit (n : nat) : ascii :=
  ascii_of_nat (if (n <? 10)%nat then 48 + n else 87 + n).

Definition escapeChar (c : ascii) : string :=
  let n := nat_of_ascii c in
  if (n =? 34)%nat then "\" ++ Str.dquote
  else if (n =? 92)%nat then "\\"
  else if (n =? 8)%nat then "\b"
  else if (n =? 12)%nat then "\f"
  else if (n =? 10)%nat then "\n"
  else if (n =? 13)%nat then "\r"
  else if (n =? 9)%nat then "\t"
  else if (n <? 32)%nat then
    "\u00" ++ String (hexDigit (n / 16)) (String (hexDigit (n mod 16)) EmptyString)
  else String c EmptyString.

Fixpoint escape (s : string) : string :=
  match s with
  | EmptyString => EmptyString
  | String c r => escapeChar c ++ escape r
  end.

Definition quote (s : string) : string := Str.dquote ++ escape s ++ Str.dquote.

Definition bracket (opening closing ind ind' : string) (items : list string) : string :=
  match items with
  | [] => opening ++ closing
  | _ =>
      opening ++ Str.newline ++ ind'
      ++ Str.join ("," ++ Str.newline ++ ind') items
      ++ Str.newline ++ ind ++ closing
  end.

(** [None] stands for the result [undefined]. *)
Fixpoint stringifyAt (ind : string) (v : value) : option string :=
  match v with
  | VUndefined => None
  | VNull => Some "null"
  | VBool b => Some (if b then "true" else "false")
  | VNum x =>
      Some match x with
           | S754_nan | S754_infinity _ => "null"
           | _ => Num.toString x
           end
  | VStr s => Some (quote s)
  | VArr items =>
      let ind' := ind ++ "  " in
      let texts :=
        (fix go (l : list value) : list string :=
           match l with
           | [] => []
           | x :: r =>
               match stringifyAt ind' x with
               | Some t => t
               | None => "null"
               end :: go r
           end) items in
      Some (bracket "[" "]" ind ind' texts)
  | VObj fields =>
      let ind' := ind ++ "  " in
      let texts :=
        (fix go (l : list (string * value)) : list string :=
           match l with
           | [] => []
           | (k, x) :: r =>
               match stringifyAt ind' x with
               | Some t => (quote k ++ ": " ++ t) :: go r
               | None => go r
               end
           end) fields in
      Some (bracket "{" "}" ind ind' texts)
  end.

Definition stringify (v : value) : value :=
  ofOption (stringifyAt EmptyString v).

End Json.

Export Json.

(** ** The command line

    [execAsync] hands a command to the shell and yields its standard output,
    or fails with a message.  What the machine answers is the [shell]: a
    function of the commands run before and of the command.  A computation
    threads the list of the commands issued, oldest first. *)

Module Sh.

Inductive outcome : Type :=
| Stdout (out : string)
| Failure (message : string).

Definition shell : Type := list string -> string -> outcome.

Definition Exec (A : Type) : Type := shell -> list string -> A * list string.

Definition ret {A : Type} (a : A) : Exec A := fun _ h => (a, h).

Definition bind {A B : Type} (m : Exec A) (k : A -> Exec B) : Exec B :=
  fun sh h => let '(a, h') := m sh h in k a sh h'.

Definition execAsync (cmd : string) : Exec outcome :=
  fun sh h => (sh h cmd, (h ++ [cmd])%list).

(** The body of a [try] block: it ends with a value or with the message of
    the error thrown. *)
Definition Try (A : Type) : Type := Exec (A + string).

Definition done {A : Type} (a : A) : Try A := ret (inl a).

Definition andThen {A B : Type} (m : Try A) (k : A -> Try B) : Try B :=
  bind m (fun r => match r with
                   | inl a => k a
                   | inr e => ret (inr e)
                   end).

(** [await execAsync(cmd)] inside a [try] block: the standard output. *)
Definition exec (cmd : string) : Try string :=
  bind (execAsync cmd) (fun o => match o with
                                 | Stdout out => ret (inl out)
                                 | Failure e => ret (inr e)
                                 end).

(** [try { body } catch (e) { handler(e.message) }]. *)
Definition catch {A : Type} (body : Try A) (handler : string -> Exec A) : Exec A :=
  bind body (fun r => match r with
                      | inl a => ret a
                      | inr e => handler e
                      end).

(** A loop over a list that threads an accumulator. *)
Fixpoint foldM {A B : Type} (f : B -> A -> Exec B) (xs : list A) (b : B) : Exec B :=
  match xs with
  | [] => ret b
  | x :: r => bind (f b x) (foldM f r)
  end.

(** The value and the commands issued, starting from nothing. *)
Definition run {A : Type} (m : Exec A) (sh : shell) : A * list string := m sh [].

End Sh.

Export Sh.

Declare Scope exec_scope.
Delimit Scope exec_scope with exec.
Notation "x <- m ;; k" := (bind m (fun x => k))
  (at level 100, m at next level, right associativity) : exec_scope.
Notation "m ;; k" := (bind m (fun _ => k))
  (at level 100, right associativity) : exec_scope.
Notation "x <~ m ;; k" := (andThen m (fun x => k))
  (at level 100, m at next level, right associativity) : exec_scope.
Notation "m ~;; k" := (andThen m (fun _ => k))
  (at level 100, right associativity) : exec_scope.
Local Open Scope exec_scope.

(** ** The tool registry ([tools]) *)

Module Registry.

Record items : Type := {
  itemType : string;
  itemEnum : list string
}.

Record property : Type := {
  propName : string;
  propType : string;
  propItems : option items;
  propEnum : option (list string);
  propDescription : string;
  propDefault : option value
}.

(** Every [inputSchema] has the type ["object"]; a tool is its name, its
    description and the declared properties in order. *)
Record tool : Type := {
  name : string;
  description : string;
  properties : list property
}.

Definition prop (n ty descr : string) (dflt : option value) : property :=
  {| propName := n; propType := ty; propItems := None; propEnum := None;
     propDescription := descr; propDefault := dflt |}.

Definition flag (n descr : string) (dflt : bool) : property :=
  prop n "boolean" descr (Some (VBool dflt)).

Definition num (z : Z) : value := VNum (Num.ofZ z).

Definition cacheTargets : list string :=
  ["go"; "brew"; "npm"; "pip"; "chrome"; "spotify"; "all"].

Definition sortKeys : list string := ["cpu"; "memory"; "name"].

Definition tools : list tool :=
  [ {| name := "mac_disk_usage";
       description := "Analyze disk usage and categorize the largest consumers. Returns a breakdown of disk usage by category with recommendations.";
       properties :=
         [ prop "path" "string" "Path to analyze (default: home directory)" (Some (VStr "~"));
           prop "depth" "number" "Directory depth to analyze (default: 1)" (Some (num 1)) ] |};
    {| name := "mac_go_cache_status";
       description := "Check Go build cache size and location. Provides recommendations for cache management.";
       properties := [] |};
    {| name := "mac_cleanup_caches";
       description := "Clean various system and development caches to free disk space.";
       properties :=
         [ {| propName := "targets"; propType := "array";
              propItems := Some {| itemType := "string"; itemEnum := cacheTargets |};
              propEnum := None;
              propDescription := "Which caches to clean (default: all)";
              propDefault := Some (VArr [VStr "all"]) |};
           flag "dryRun" "Preview what would be cleaned without actually deleting" false ] |};
    {| name := "mac_cleanup_docker";
       description := "Prune unused Docker resources (images, containers, volumes, build cache).";
       properties :=
         [ flag "includeVolumes" "Also prune unused volumes (may cause data loss)" false;
           flag "dryRun" "Preview what would be cleaned" false ] |};
    {| name := "mac_memory_status";
       description := "Show current memory pressure, swap usage, and top memory-consuming processes.";
       properties := [] |};
    {| name := "mac_cleanup_recommendations";
       description := "Analyze system and provide personalized cleanup recommendations based on current disk usage.";
       properties := [] |};
    {| name := "mac_empty_trash";
       description := "Empty the system trash to reclaim disk space.";
       properties := [ flag "dryRun" "Show trash size without emptying" false ] |};
    {| name := "mac_full_cleanup_workflow";
       description := "Run a comprehensive disk cleanup workflow. Analyzes disk usage, cleans all safe caches (Go, Homebrew, npm, pip, browser caches), empties trash, and optionally prunes Docker. Returns before/after disk usage comparison.";
       properties :=
         [ flag "includeDocker" "Include Docker cleanup (prune images/containers)" false;
           flag "includeDockerVolumes" "Also prune Docker volumes (potential data loss)" false;
           flag "dryRun" "Preview what would be cleaned without actually deleting" false ] |};
    {| name := "mac_analyze_library";
       description := "Deep analysis of ~/Library folder which often contains large caches and app data. Identifies major space consumers.";
       properties := [] |};
    {| name := "mac_developer_cleanup";
       description := "Clean developer-specific artifacts: node_modules in inactive projects, old Python versions, Xcode derived data, etc.";
       properties :=
         [ flag "cleanNodeModules" "Find and optionally clean node_modules in projects not modified recently" false;
           flag "cleanXcode" "Clean Xcode derived data and archives" false;
           flag "cleanPyenvOldVersions" "List old Python versions for review" false;
           flag "dryRun" "Preview what would be cleaned" true ] |};
    {| name := "mac_cpu_usage";
       description := "Get real-time CPU utilization including per-core usage, load averages, and top CPU-consuming processes.";
       properties :=
         [ prop "topN" "number" "Number of top processes to show (default: 10)" (Some (num 10)) ] |};
    {| name := "mac_thermal_status";
       description := "Check thermal throttling status and CPU temperature on Apple Silicon Macs.";
       properties := [] |};
    {| name := "mac_battery_health";
       description := "Get battery health information including cycle count, capacity, and charging status.";
       properties := [] |};
    {| name := "mac_system_info";
       description := "Get comprehensive system information including macOS version, hardware specs, and uptime.";
       properties := [] |};
    {| name := "mac_process_list";
       description := "List running processes sorted by resource usage (CPU, memory, or name).";
       properties :=
         [ {| propName := "sortBy"; propType := "string"; propItems := None;
              propEnum := Some sortKeys;
              propDescription := "Sort processes by this metric";
              propDefault := Some (VStr "cpu") |};
           prop "limit" "number" "Max processes to return" (Some (num 20));
           prop "filter" "string" "Filter processes by name (case-insensitive)" None ] |};
    {| name := "mac_kill_process";
       description := "Terminate a process by PID or name. Use with caution.";
       properties :=
         [ prop "pid" "number" "Process ID to kill" None;
           prop "name" "string" "Process name to kill (kills first match)" None;
           flag "force" "Use SIGKILL instead of SIGTERM" false ] |};
    {| name := "mac_startup_items";
       description := "List and manage login items and launch agents that run at startup.";
       properties := [ flag "showDisabled" "Include disabled items" false ] |};
    {| name := "mac_network_status";
       description := "Get network interface status, current connections, and bandwidth usage.";
       properties := [] |} ].

Fixpoint find (n : string) (ts : list tool) : option tool :=
  match ts with
  | [] => None
  | t :: r => if String.eqb n (name t) then Some t else find n r
  end.

End Registry.

(** ** Arguments

    The argument object of a call, read through the declared schemas: each
    property that some tool declares, with the type declared for it, absent
    ([None]) or present.  No two tools declare one name at two types. *)

Module Args.

(** The declared properties, by type: booleans, numbers and strings;
    [targets] is the one array. *)
Inductive flag : Type :=
| DryRun | IncludeVolumes | IncludeDocker | IncludeDockerVolumes | CleanNodeModules
| CleanXcode | CleanPyenvOldVersions | Force | ShowDisabled.

Inductive quantity : Type := Depth | TopN | Limit | Pid.

Inductive text : Type := Path | SortBy | Filter | Name.

Record t : Type := {
  flags : flag -> option bool;
  quantities : quantity -> option Num.number;
  texts : text -> option string;
  targets : option (list string)
}.

(** The empty object [{}]. *)
Definition empty : t :=
  {| flags := fun _ => None; quantities := fun _ => None; texts := fun _ => None;
     targets := None |}.

Definition path (a : t) : option string := texts a Path.
Definition depth (a : t) : option Num.number := quantities a Depth.
Definition dryRun (a : t) : option bool := flags a DryRun.
Definition includeVolumes (a : t) : option bool := flags a IncludeVolumes.
Definition includeDocker (a : t) : option bool := flags a IncludeDocker.
Definition includeDockerVolumes (a : t) : option bool := flags a IncludeDockerVolumes.
Definition cleanNodeModules (a : t) : option bool := flags a CleanNodeModules.
Definition cleanXcode (a : t) : option bool := flags a CleanXcode.
Definition cleanPyenvOldVersions (a : t) : option bool := flags a CleanPyenvOldVersions.
Definition topN (a : t) : option Num.number := quantities a TopN.
Definition sortBy (a : t) : option string := texts a SortBy.
Definition limit (a : t) : option Num.number := quantities a Limit.
Definition filter (a : t) : option string := texts a Filter.
Definition pid (a : t) : option Num.number := quantities a Pid.
Definition name (a : t) : option string := texts a Name.
Definition force (a : t) : option bool := flags a Force.
Definition showDisabled (a : t) : option bool := flags a ShowDisabled.

Definition flagName (f : flag) : string :=
  match f with
  | DryRun => "dryRun"
  | IncludeVolumes => "includeVolumes"
  | IncludeDocker => "includeDocker"
  | IncludeDockerVolumes => "includeDockerVolumes"
  | CleanNodeModules => "cleanNodeModules"
  | CleanXcode => "cleanXcode"
  | CleanPyenvOldVersions => "cleanPyenvOldVersions"
  | Force => "force"
  | ShowDisabled => "showDisabled"
  end.

Definition quantityName (n : quantity) : string :=
  match n with
  | Depth => "depth"
  | TopN => "topN"
  | Limit => "limit"
  | Pid => "pid"
  end.

Definition textName (x : text) : string :=
  match x with
  | Path => "path"
  | SortBy => "sortBy"
  | Filter => "filter"
  | Name => "name"
  end.

Definition asBool (v : value) : option bool :=
  match v with VBool b => Some b | _ => None end.
Definition asString (v : value) : option string :=
  match v with VStr s => Some s | _ => None end.
Definition asNumber (v : value) : option Num.number :=
  match v with VNum x => Some x | _ => None end.
(** The strings among the items of an array.  [targets] is only searched
    for target names with [includes], which finds no item of another type,
    so that such items count for nothing. *)
Fixpoint asStrings (vs : list value) : list string :=
  match vs with
  | [] => []
  | VStr s :: r => s :: asStrings r
  | _ :: r => asStrings r
  end.
Definition asStringArray (v : value) : option (list string) :=
  match v with VArr vs => Some (asStrings vs) | _ => None end.

(** [update name k x f] is [f] with the value [x] at the property [k]. *)
Definition update {K A : Type} (name : K -> string) (k : string) (x : option A)
           (f : K -> option A) : K -> option A :=
  fun k' => match x with
            | Some _ => if String.eqb k (name k') then x else f k'
            | None => f k'
            end.

(** The object [a] with the property [k] set to [v], for the arguments
    of the declared types: a boolean, a number, a string or an array.  A
    value of another type, or a name that no tool declares, is outside
    this view and leaves [a] as it is. *)
Definition put (k : string) (v : value) (a : t) : t :=
  {| flags := update flagName k (asBool v) (flags a);
     quantities := update quantityName k (asNumber v) (quantities a);
     texts := update textName k (asString v) (texts a);
     targets := if String.eqb k "targets" then
                  match asStringArray v with
                  | Some ts => Some ts
                  | None => targets a
                  end
                else targets a |}.

(** The argument object that sets every declared parameter of a tool to
    its declared default. *)
Definition defaults (tl : Registry.tool) : t :=
  fold_left
    (fun a p => match Registry.propDefault p with
                | Some v => put (Registry.propName p) v a
                | None => a
                end)
    (Registry.properties tl) empty.

(** A parameter with a default value in the destructuring pattern. *)
Definition orDefault {A : Type} (o : option A) (d : A) : A :=
  match o with
  | Some x => x
  | None => d
  end.

End Args.

(** ** The handlers *)

Module Handlers.

Section WithEnvironment.

(** [process.env.HOME]; an unset variable prints as ["undefined"]. *)
Variable HOME : option string.

Definition homeText : string :=
  match HOME with
  | Some h => h
  | None => "undefined"
  end.

(** A text between double quotes, inside a command. *)
Definition q (s : string) : string := Str.dquote ++ s ++ Str.dquote.

(** [xs[0]] of a split, which is never empty. *)
Definition first (xs : list string) : string := hd EmptyString xs.

(** [xs[i]], possibly [undefined]. *)
Definition at_ (i : nat) (xs : list string) : value := ofOption (nth_error xs i).

Definition errorRecord (message : string) : Exec value :=
  ret (VObj [("error", VStr message)]).

Definition obj (fields : list (string * value)) : value := VObj fields.

(** *** [handleDiskUsage] *)

Definition handleDiskUsage (a : Args.t) : Exec value :=
  let path := Args.orDefault (Args.path a) "~" in
  let depth := Args.orDefault (Args.depth a) (Num.ofZ 1) in
  catch
    (let expandedPath := Str.replace "~" homeText path in
     stdout <~ exec ("dust -d " ++ Num.toString depth ++ " -n 20 -c " ++ q expandedPath
                     ++ " 2>/dev/null || du -h -d " ++ Num.toString depth ++ " "
                     ++ q expandedPath ++ " 2>/dev/null | sort -hr | head -20") ;;
     dfOutput <~ exec "df -h / | tail -1" ;;
     done (obj [("diskUsage", VStr stdout); ("systemStatus", VStr (Str.trim dfOutput))]))
    errorRecord.

(** *** [handleGoCacheStatus] *)

(** [parseFloat(cacheSize.split(/\s+/)[0].replace("G", "")) || 0]. *)
Definition sizeGB (cacheSize : string) : Num.number :=
  let parsed := Num.parseFloat (Str.replace "G" "" (first (Str.splitWs cacheSize))) in
  if Num.truthy parsed then parsed else Num.zero.

Definition recommendation (sizeGB : Num.number) : string :=
  if Num.gt sizeGB (Num.ofZ 20) then
    "CRITICAL: Cache is very large. Run 'go clean -cache' to reclaim space."
  else if Num.gt sizeGB (Num.ofZ 10) then
    "WARNING: Cache is getting large. Consider cleaning with 'go clean -cache'."
  else "Cache size is reasonable.".

Definition handleGoCacheStatus : Exec value :=
  catch
    (cachePath <~ exec "go env GOCACHE" ;;
     cacheSize <~ exec ("du -sh " ++ q (Str.trim cachePath) ++ " 2>/dev/null || echo "
                        ++ q "Unable to determine size") ;;
     done (obj [("cachePath", VStr (Str.trim cachePath));
                ("cacheSize", VStr (Str.trim cacheSize));
                ("recommendation", VStr (recommendation (sizeGB cacheSize)));
                ("commands",
                 obj [("cleanBuildCache", VStr "go clean -cache");
                      ("cleanTestCache", VStr "go clean -testcache");
                      ("cleanModuleCache",
                       VStr "go clean -modcache (careful: re-downloads all modules)")])]))
    (fun message =>
       ret (obj [("error", VStr message); ("note", VStr "Go may not be installed")])).

(** *** [handleCleanupCaches] *)

(** [targets.includes(t)]. *)
Definition includes (t : string) (targets : list string) : bool :=
  existsb (String.eqb t) targets.

Definition chromeCachePath : string := homeText ++ "/Library/Caches/Google/Chrome".
Definition spotifyCachePath : string := homeText ++ "/Library/Caches/com.spotify.client".

(** The six caches, each with a block of its own in the handler. *)
Inductive cache : Type := Go | Brew | Npm | Pip | Chrome | Spotify.

(** The name of a cache among the targets, and its key in [results]. *)
Definition key (c : cache) : string :=
  match c with
  | Go => "go"
  | Brew => "brew"
  | Npm => "npm"
  | Pip => "pip"
  | Chrome => "chrome"
  | Spotify => "spotify"
  end.

(** The command of a block in a dry run, which measures. *)
Definition measureCommand (c : cache) : string :=
  match c with
  | Go => "du -sh $(go env GOCACHE) 2>/dev/null"
  | Brew => "brew cleanup --dry-run 2>&1 | tail -5"
  | Npm => "npm cache ls 2>/dev/null | wc -l"
  | Pip => "pip cache info 2>/dev/null | grep 'Size'"
  | Chrome => "du -sh " ++ q chromeCachePath ++ " 2>/dev/null"
  | Spotify => "du -sh " ++ q spotifyCachePath ++ " 2>/dev/null"
  end.

(** The command of a block otherwise, which cleans. *)
Definition cleanCommand (c : cache) : string :=
  match c with
  | Go => "go clean -cache"
  | Brew => "brew cleanup --prune=all 2>&1 | tail -3"
  | Npm => "npm cache clean --force 2>/dev/null"
  | Pip => "pip cache purge 2>/dev/null"
  | Chrome => "rm -rf " ++ q chromeCachePath ++ "/* 2>/dev/null"
  | Spotify => "rm -rf " ++ q spotifyCachePath ++ "/* 2>/dev/null"
  end.

(** What a block stores when its command succeeds with the output
    [stdout]. *)
Definition measured (c : cache) (stdout : string) : value :=
  match c with
  | Go | Brew => obj [("wouldClean", VStr (Str.trim stdout))]
  | Npm => obj [("cachedItems", VStr (Str.trim stdout))]
  | Pip => obj [("info", VStr (Str.trim stdout))]
  | Chrome | Spotify => obj [("size", VStr (Str.trim stdout))]
  end.

Definition cleaned (c : cache) (stdout : string) : value :=
  match c with
  | Brew => obj [("status", VStr (Str.trim stdout))]
  | _ => obj [("status", VStr "cleaned")]
  end.

(** One block:
    [try { if (dryRun) { ... } else { ... } } catch (e) { results.c = { error: e.message } }]. *)
Definition cleanCache (c : cache) (dryRun : bool) : Exec value :=
  catch
    (if dryRun then
       stdout <~ exec (measureCommand c) ;;
       done (measured c stdout)
     else
       stdout <~ exec (cleanCommand c) ;;
       done (cleaned c stdout))
    errorRecord.

(** [if (all || targets.includes(c)) { ...; results.c = ... }]. *)
Definition selected (targets : list string) (c : cache) : bool :=
  includes "all" targets || includes (key c) targets.

Definition block (targets : list string) (dryRun : bool) (c : cache)
           (results : list (string * value)) : Exec (list (string * value)) :=
  if selected targets c then
    entry <- cleanCache c dryRun ;;
    ret (assign (key c) entry results)
  else ret results.

Definition handleCleanupCaches (a : Args.t) : Exec value :=
  let targets := Args.orDefault (Args.targets a) ["all"] in
  let dryRun := Args.orDefault (Args.dryRun a) false in
  results <- ret [] ;;
  results <- block targets dryRun Go results ;;
  results <- block targets dryRun Brew results ;;
  results <- block targets dryRun Npm results ;;
  results <- block targets dryRun Pip results ;;
  results <- block targets dryRun Chrome results ;;
  results <- block targets dryRun Spotify results ;;
  ret (obj [("dryRun", VBool dryRun); ("results", obj results)]).

(** *** [handleDockerCleanup] *)

Definition handleDockerCleanup (a : Args.t) : Exec value :=
  let includeVolumes := Args.orDefault (Args.includeVolumes a) false in
  let dryRun := Args.orDefault (Args.dryRun a) false in
  catch
    (dfBefore <~ exec "docker system df 2>/dev/null" ;;
     if dryRun then
       done (obj [("currentUsage", VStr dfBefore);
                  ("note", VStr "Run with dryRun=false to clean")])
     else
       pruneOutput <~ exec "docker system prune -af 2>/dev/null" ;;
       volumeOutput <~ (if includeVolumes then exec "docker volume prune -f 2>/dev/null"
                        else done EmptyString) ;;
       dfAfter <~ exec "docker system df 2>/dev/null" ;;
       done (obj [("before", VStr dfBefore); ("after", VStr dfAfter);
                  ("pruneResult", VStr pruneOutput);
                  ("volumeResult",
                   VStr match volumeOutput with
                        | EmptyString => "skipped"
                        | _ => volumeOutput
                        end)]))
    (fun message =>
       ret (obj [("error", VStr message); ("note", VStr "Docker may not be running")])).

(** *** [handleMemoryStatus] *)

(** [line.match(/^(.+):\s+(\d+)/)]: the two groups.  The first group is
    greedy, so the last colon that is followed by white space and a digit
    ends it; [pre] is the text before the current position. *)
Fixpoint statMatch (pre s : string) : option (string * string) :=
  match s with
  | EmptyString => None
  | String c r =>
      let later :=
        if Str.isLineTerminator c then None
        else statMatch (pre ++ String c EmptyString) r in
      match later with
      | Some m => Some m
      | None =>
          if Ascii.eqb c ":"%char then
            match pre with
            | EmptyString => None
            | _ =>
                let '(ws, r1) := Str.span Str.isWhite r in
                let '(ds, _) := Str.span Str.isDigit r1 in
                match ws, ds with
                | String _ _, String _ _ => Some (pre, ds)
                | _, _ => None
                end
            end
          else None
      end
  end.

Definition pageSize : Num.number := Num.ofZ 16384.

(** The [forEach] over the lines of [vm_stat]: the later line wins. *)
Fixpoint vmStats (ls : list string) (stats : list (string * Num.number))
  : list (string * Num.number) :=
  match ls with
  | [] => stats
  | line :: r =>
      match statMatch EmptyString line with
      | Some (k, digits) =>
          vmStats r
            ((Str.trim k,
              Num.div (Num.mul (Num.parseInt digits) pageSize)
                      (Num.ofZ (1024 * 1024 * 1024)))
             :: filter (fun kv => negb (String.eqb (fst kv) (Str.trim k))) stats)
      | None => vmStats r stats
      end
  end.

(** [stats[k]?.toFixed(2) || "N/A"]. *)
Definition statGB (k : string) (stats : list (string * Num.number)) : value :=
  match find (fun kv => String.eqb (fst kv) k) stats with
  | Some (_, x) => VStr (Num.toFixed 2 x)
  | None => VStr "N/A"
  end.

Definition handleMemoryStatus : Exec value :=
  catch
    (vmStat <~ exec "vm_stat" ;;
     memPressure <~ exec "memory_pressure 2>/dev/null || echo 'memory_pressure command not available'" ;;
     topProcesses <~ exec "ps aux --sort=-%mem | head -10" ;;
     let stats := vmStats (Str.lines vmStat) [] in
     done (obj [("memoryPressure", VStr (Str.trim memPressure));
                ("topProcesses", VStr topProcesses);
                ("vmStats",
                 obj [("freeGB", statGB "Pages free" stats);
                      ("activeGB", statGB "Pages active" stats);
                      ("inactiveGB", statGB "Pages inactive" stats);
                      ("wiredGB", statGB "Pages wired down" stats);
                      ("compressedGB", statGB "Pages occupied by compressor" stats)])]))
    errorRecord.

(** *** [handleCleanupRecommendations] *)

(** [parseInt(stdout.split(/\s+/)[0]) / 1024 / 1024]. *)
Definition kilobytesToGB (stdout : string) : Num.number :=
  Num.div (Num.div (Num.parseInt (first (Str.splitWs stdout))) (Num.ofZ 1024)) (Num.ofZ 1024).

(** Each check appends to [recommendations] or leaves it; a failure is
    swallowed by [catch (e) {}]. *)
Definition checkDisk (recs : list value) : Exec (list value) :=
  catch
    (stdout <~ exec "df -h / | tail -1" ;;
     let parts := Str.splitWs (Str.trim stdout) in
     let text := match nth_error parts 4 with
                 | Some p => match Str.replace "%" "" p with
                             | EmptyString => "0"
                             | t => t
                             end
                 | None => "0"
                 end in
     let usedPercent := Num.parseInt text in
     if Num.gt usedPercent (Num.ofZ 90) then
       done (recs ++ [obj [("priority", VStr "HIGH");
                           ("message", VStr ("Disk " ++ Num.toString usedPercent
                                             ++ "% full - immediate cleanup needed"))]])%list
     else if Num.gt usedPercent (Num.ofZ 80) then
       done (recs ++ [obj [("priority", VStr "MEDIUM");
                           ("message", VStr ("Disk " ++ Num.toString usedPercent
                                             ++ "% full - consider cleanup"))]])%list
     else done recs)
    (fun _ => ret recs).

Definition sized (priority target command : string) (gb : Num.number) : value :=
  obj [("priority", VStr priority); ("target", VStr target);
       ("sizeGB", VStr (Num.toFixed 1 gb)); ("command", VStr command)].

Definition checkGoCache (recs : list value) : Exec (list value) :=
  catch
    (cachePath <~ exec "go env GOCACHE" ;;
     stdout <~ exec ("du -s " ++ q (Str.trim cachePath) ++ " 2>/dev/null") ;;
     let gb := kilobytesToGB stdout in
     if Num.gt gb (Num.ofZ 10) then
       done (recs ++ [sized "HIGH" "go-cache" "go clean -cache" gb])%list
     else done recs)
    (fun _ => ret recs).

Definition checkTrash (recs : list value) : Exec (list value) :=
  catch
    (stdout <~ exec "du -s ~/.Trash 2>/dev/null" ;;
     let gb := kilobytesToGB stdout in
     if Num.gt gb (Num.ofZ 1) then
       done (recs ++ [sized "LOW" "trash" "rm -rf ~/.Trash/*" gb])%list
     else done recs)
    (fun _ => ret recs).

Definition checkDocker (recs : list value) : Exec (list value) :=
  catch
    (stdout <~ exec "docker system df --format '{{.Size}}' 2>/dev/null | head -1" ;;
     if Str.includes "GB" stdout then
       done (recs ++ [obj [("priority", VStr "MEDIUM"); ("target", VStr "docker");
                           ("size", VStr (Str.trim stdout));
                           ("command", VStr "docker system prune -a")]])%list
     else done recs)
    (fun _ => ret recs).

Definition checkHomebrew (recs : list value) : Exec (list value) :=
  catch
    (stdout <~ exec "du -s ~/Library/Caches/Homebrew 2>/dev/null" ;;
     let gb := kilobytesToGB stdout in
     if Num.gt gb (Num.ofZ 1) then
       done (recs ++ [sized "LOW" "homebrew-cache" "brew cleanup --prune=all" gb])%list
     else done recs)
    (fun _ => ret recs).

Definition handleCleanupRecommendations : Exec value :=
  recs <- checkDisk [] ;;
  recs <- checkGoCache recs ;;
  recs <- checkTrash recs ;;
  recs <- checkDocker recs ;;
  recs <- checkHomebrew recs ;;
  ret (obj [("recommendations",
             VArr match recs with
                  | [] => [obj [("message", VStr "No immediate cleanup needed")]]
                  | _ => recs
                  end)]).

(** *** [handleEmptyTrash] *)

Definition handleEmptyTrash (a : Args.t) : Exec value :=
  let dryRun := Args.orDefault (Args.dryRun a) false in
  catch
    (size <~ exec "du -sh ~/.Trash 2>/dev/null" ;;
     if dryRun then
       done (obj [("trashSize", VStr (Str.trim size));
                  ("note", VStr "Run with dryRun=false to empty")])
     else
       exec "rm -rf ~/.Trash/* 2>/dev/null" ~;;
       done (obj [("status", VStr "emptied"); ("previousSize", VStr (Str.trim size))]))
    errorRecord.

(** *** [handleFullCleanupWorkflow] *)

(** The [workflow] object; [before] and [after] are [undefined] until
    they are assigned. *)
Record workflow : Type := {
  steps : list value;
  totalRecovered : string;
  wfDryRun : bool;
  before : value;
  after : value
}.

Definition workflowJson (w : workflow) : value :=
  obj [("steps", VArr (steps w)); ("totalRecovered", VStr (totalRecovered w));
       ("dryRun", VBool (wfDryRun w)); ("before", before w); ("after", after w)].

(** [workflow.steps.push(step)]. *)
Definition push (step : value) (w : workflow) : workflow :=
  {| steps := (steps w ++ [step])%list; totalRecovered := totalRecovered w;
     wfDryRun := wfDryRun w; before := before w; after := after w |}.

Definition setBefore (v : value) (w : workflow) : workflow :=
  {| steps := steps w; totalRecovered := totalRecovered w;
     wfDryRun := wfDryRun w; before := v; after := after w |}.

Definition setAfter (v : value) (w : workflow) : workflow :=
  {| steps := steps w; totalRecovered := totalRecovered w;
     wfDryRun := wfDryRun w; before := before w; after := v |}.

Definition setTotalRecovered (s : string) (w : workflow) : workflow :=
  {| steps := steps w; totalRecovered := s;
     wfDryRun := wfDryRun w; before := before w; after := after w |}.

Definition diskStatusCommand : string := "df -h / | tail -1".

(** [{ used: parts[2], available: parts[3], percentUsed: parts[4] }]. *)
Definition diskStatus (stdout : string) : value :=
  let parts := Str.splitWs (Str.trim stdout) in
  obj [("used", at_ 2 parts); ("available", at_ 3 parts); ("percentUsed", at_ 4 parts)].

(** [text.trim().split(/\s+/)[0]]. *)
Definition sizeField (stdout : string) : value :=
  VStr (first (Str.splitWs (Str.trim stdout))).

(** [dryRun ? "would clean" : "cleaned"]. *)
Definition statusOf (dryRun : bool) : value :=
  VStr (if dryRun then "would clean" else "cleaned").

(** [if (!dryRun) await execAsync(cmd)]. *)
Definition unlessDry (dryRun : bool) (cmd : string) : Try unit :=
  if negb dryRun then (exec cmd ~;; done tt) else done tt.

Definition skipped (name : string) (more : list (string * value)) : value :=
  obj ([("name", VStr name); ("status", VStr "skipped")] ++ more)%list.

(** Step 1. *)
Definition captureBefore : Exec value :=
  catch (stdout <~ exec diskStatusCommand ;; done (diskStatus stdout)) errorRecord.

(** Step 2. *)
Definition trashStep (dryRun : bool) : Exec value :=
  catch
    (trashSize <~ exec "du -sh ~/.Trash 2>/dev/null" ;;
     unlessDry dryRun "rm -rf ~/.Trash/* 2>/dev/null" ~;;
     done (obj [("name", VStr "Empty Trash"); ("size", sizeField trashSize);
                ("status", statusOf dryRun)]))
    (fun message => ret (skipped "Empty Trash" [("error", VStr message)])).

(** Step 3. *)
Definition goStep (dryRun : bool) : Exec value :=
  catch
    (cachePath <~ exec "go env GOCACHE" ;;
     cacheSize <~ exec ("du -sh " ++ q (Str.trim cachePath) ++ " 2>/dev/null") ;;
     unlessDry dryRun "go clean -cache" ~;;
     done (obj [("name", VStr "Go Build Cache"); ("size", sizeField cacheSize);
                ("status", statusOf dryRun)]))
    (fun _ => ret (skipped "Go Build Cache"
                     [("note", VStr "Go not installed or cache empty")])).

(** Step 4. *)
Definition brewStep (dryRun : bool) : Exec value :=
  catch
    (brewSize <~ exec "du -sh ~/Library/Caches/Homebrew 2>/dev/null" ;;
     if negb dryRun then
       stdout <~ exec "brew cleanup --prune=all 2>&1 | grep -E 'freed|Removing' | tail -1" ;;
       done (obj [("name", VStr "Homebrew Cache"); ("size", sizeField brewSize);
                  ("status", VStr "cleaned"); ("detail", VStr (Str.trim stdout))])
     else
       done (obj [("name", VStr "Homebrew Cache"); ("size", sizeField brewSize);
                  ("status", VStr "would clean")]))
    (fun _ => ret (skipped "Homebrew Cache" [])).

(** Steps 5 and 6: a cache directory under the home directory. *)
Definition directoryStep (name dir : string) (dryRun : bool) : Exec value :=
  catch
    (size <~ exec ("du -sh " ++ q dir ++ " 2>/dev/null") ;;
     unlessDry dryRun ("rm -rf " ++ q dir ++ "/* 2>/dev/null") ~;;
     done (obj [("name", VStr name); ("size", sizeField size); ("status", statusOf dryRun)]))
    (fun _ => ret (skipped name [])).

Definition chromeStep : bool -> Exec value := directoryStep "Chrome Cache" chromeCachePath.
Definition spotifyStep : bool -> Exec value := directoryStep "Spotify Cache" spotifyCachePath.

(** Steps 7 and 8: a package cache, cleaned without being measured. *)
Definition packageStep (name cmd : string) (dryRun : bool) : Exec value :=
  catch
    (unlessDry dryRun cmd ~;;
     done (obj [("name", VStr name); ("status", statusOf dryRun)]))
    (fun _ => ret (skipped name [])).

Definition npmStep : bool -> Exec value :=
  packageStep "npm Cache" "npm cache clean --force 2>/dev/null".
Definition pipStep : bool -> Exec value :=
  packageStep "pip Cache" "pip cache purge 2>/dev/null".

(** Step 9. *)
Definition dockerStep (includeDockerVolumes dryRun : bool) : Exec value :=
  catch
    (dockerDf <~ exec "docker system df --format '{{.TotalCount}} {{.Size}}' 2>/dev/null" ;;
     (if negb dryRun then
        exec "docker system prune -af 2>/dev/null" ~;;
        if includeDockerVolumes then (exec "docker volume prune -f 2>/dev/null" ~;; done tt)
        else done tt
      else done tt) ~;;
     done (obj [("name", VStr "Docker"); ("detail", VStr (Str.trim dockerDf));
                ("status", statusOf dryRun);
                ("volumesCleaned", VBool includeDockerVolumes)]))
    (fun _ => ret (skipped "Docker" [("note", VStr "Docker not running")])).

(** [parseFloat(record.available?.replace("G", "") || 0)]: a missing or
    empty text is replaced by the number 0, which [parseFloat] reads back
    from its text. *)
Definition availableGB (record : value) : Num.number :=
  match get "available" record with
  | VStr s =>
      match Str.replace "G" "" s with
      | EmptyString => Num.parseFloat (Num.toString Num.zero)
      | t => Num.parseFloat t
      end
  | _ => Num.parseFloat (Num.toString Num.zero)
  end.

(** The final disk status and the recovered space. *)
Definition captureAfter (w : workflow) : Exec workflow :=
  if negb (wfDryRun w) then
    catch
      (stdout <~ exec diskStatusCommand ;;
       let w := setAfter (diskStatus stdout) w in
       let beforeAvailGB := availableGB (before w) in
       let afterAvailGB := availableGB (after w) in
       done (setTotalRecovered
               (Num.toFixed 1 (Num.sub afterAvailGB beforeAvailGB) ++ "G") w))
      (fun message => ret (setAfter (obj [("error", VStr message)]) w))
  else ret (setAfter (obj [("note", VStr "Dry run - no changes made")]) w).

(** [workflow.steps.push(...)] with the record of a step. *)
Definition record (step : Exec value) (w : workflow) : Exec workflow :=
  s <- step ;; ret (push s w).

(** Steps 2 to 9, in the order of the source. *)
Definition cleanup (includeDocker includeDockerVolumes dryRun : bool) (w : workflow)
  : Exec workflow :=
  w <- record (trashStep dryRun) w ;;
  w <- record (goStep dryRun) w ;;
  w <- record (brewStep dryRun) w ;;
  w <- record (chromeStep dryRun) w ;;
  w <- record (spotifyStep dryRun) w ;;
  w <- record (npmStep dryRun) w ;;
  w <- record (pipStep dryRun) w ;;
  if includeDocker then record (dockerStep includeDockerVolumes dryRun) w
  else ret w.

Definition handleFullCleanupWorkflow (a : Args.t) : Exec value :=
  let includeDocker := Args.orDefault (Args.includeDocker a) false in
  let includeDockerVolumes := Args.orDefault (Args.includeDockerVolumes a) false in
  let dryRun := Args.orDefault (Args.dryRun a) false in
  let w := {| steps := []; totalRecovered := "calculating..."; wfDryRun := dryRun;
              before := VUndefined; after := VUndefined |} in
  b <- captureBefore ;;
  let w := setBefore b w in
  w <- cleanup includeDocker includeDockerVolumes dryRun w ;;
  w <- captureAfter w ;;
  ret (workflowJson w).

(** *** [handleAnalyzeLibrary] *)

Definition libraryDirs : list (string * string) :=
  [("Caches", "~/Library/Caches");
   ("Application Support", "~/Library/Application Support");
   ("Containers", "~/Library/Containers");
   ("Developer", "~/Library/Developer");
   ("Fonts", "~/Library/Fonts");
   ("Mail", "~/Library/Mail");
   ("Messages", "~/Library/Messages")].

(** [name], [path] and [cleanCmd]. *)
Definition knownLargeCaches : list (string * string * string) :=
  [("Go Build", "~/Library/Caches/go-build", "go clean -cache");
   ("Homebrew", "~/Library/Caches/Homebrew", "brew cleanup --prune=all");
   ("Google Chrome", "~/Library/Caches/Google/Chrome", "rm -rf ~/Library/Caches/Google/Chrome/*");
   ("Xcode DerivedData", "~/Library/Developer/Xcode/DerivedData",
    "rm -rf ~/Library/Developer/Xcode/DerivedData/*")].

Definition measureDir (path : string) : Try string :=
  exec ("du -sh " ++ q (Str.replace "~" homeText path) ++ " 2>/dev/null").

Definition categoryOf (cats : list (string * value)) (dir : string * string)
  : Exec (list (string * value)) :=
  let '(name, path) := dir in
  entry <- catch (stdout <~ measureDir path ;; done (obj [("size", sizeField stdout)]))
                 (fun _ => ret (obj [("size", VStr "N/A")])) ;;
  ret (assign name entry cats).

(** [path?.split("/").pop()]. *)
Definition baseName (path : option string) : value :=
  match path with
  | Some p => VStr (last (Str.splitOn "/"%char p) EmptyString)
  | None => VUndefined
  end.

Definition topCache (line : string) : value :=
  let parts := Str.splitWs line in
  obj [("size", at_ 0 parts); ("path", baseName (nth_error parts 1))].

Definition knownCache (acc : list value) (cache : string * string * string)
  : Exec (list value) :=
  let '(name, path, cleanCmd) := cache in
  catch
    (stdout <~ measureDir path ;;
     done (acc ++ [obj [("name", VStr name); ("path", VStr path);
                        ("cleanCmd", VStr cleanCmd); ("size", sizeField stdout)]])%list)
    (fun _ => ret acc).

Definition handleAnalyzeLibrary : Exec value :=
  categories <- foldM categoryOf libraryDirs [] ;;
  topCaches <- catch
                 (stdout <~ exec "du -sh ~/Library/Caches/*/ 2>/dev/null | sort -hr | head -10" ;;
                  done [("topCaches", VArr (map topCache (Str.lines (Str.trim stdout))))])
                 (fun _ => ret []) ;;
  known <- foldM knownCache knownLargeCaches [] ;;
  ret (obj ([("categories", obj categories)] ++ topCaches
            ++ [("knownLargeCaches", VArr known)])%list).

(** *** [handleDeveloperCleanup] *)

(** A computation that cannot throw, inside a [try] block. *)
Definition lift {A : Type} (m : Exec A) : Try A := x <- m ;; ret (inl x).

(** [text.trim().split("\n").filter(Boolean)]. *)
Definition nonEmptyLines (text : string) : list string :=
  List.filter (fun l => negb (String.eqb l EmptyString)) (Str.lines (Str.trim text)).

Definition nodeModulesOf (info : list value) (dir : string) : Exec (list value) :=
  catch
    (size <~ exec ("du -sh " ++ q dir ++ " 2>/dev/null") ;;
     mtime <~ exec ("stat -f " ++ q "%Sm" ++ " -t " ++ q "%Y-%m-%d" ++ " " ++ q dir
                    ++ " 2>/dev/null") ;;
     done (info ++ [obj [("path", VStr dir); ("size", sizeField size);
                         ("lastModified", VStr (Str.trim mtime))]])%list)
    (fun _ => ret info).

Definition pyenvVersionOf (currentVersion : string) (info : list value) (ver : string)
  : Exec (list value) :=
  catch
    (size <~ exec ("du -sh ~/.pyenv/versions/" ++ ver ++ " 2>/dev/null") ;;
     done (info ++ [obj [("version", VStr ver); ("size", sizeField size);
                         ("isCurrent",
                          VBool (String.eqb (Str.trim ver) (Str.trim currentVersion)))]])%list)
    (fun _ => ret info).

Definition handleDeveloperCleanup (a : Args.t) : Exec value :=
  let cleanNodeModules := Args.orDefault (Args.cleanNodeModules a) false in
  let cleanXcode := Args.orDefault (Args.cleanXcode a) false in
  let cleanPyenvOldVersions := Args.orDefault (Args.cleanPyenvOldVersions a) false in
  let dryRun := Args.orDefault (Args.dryRun a) true in
  results <- ret [] ;;
  results <-
    (if cleanNodeModules then
       entry <- catch
                  (stdout <~ exec ("find ~ -name " ++ q "node_modules"
                                   ++ " -type d -prune 2>/dev/null | head -20") ;;
                   let dirs := nonEmptyLines stdout in
                   nodeModulesInfo <~ lift (foldM nodeModulesOf (firstn 10 dirs) []) ;;
                   done (obj [("found", VNum (Num.ofZ (Z.of_nat (List.length dirs))));
                              ("analyzed", VArr nodeModulesInfo);
                              ("dryRun", VBool dryRun)]))
                  errorRecord ;;
       ret (assign "nodeModules" entry results)
     else ret results) ;;
  results <-
    (if cleanXcode then
       let derivedDataPath := homeText ++ "/Library/Developer/Xcode/DerivedData" in
       entry <- catch
                  (size <~ exec ("du -sh " ++ q derivedDataPath ++ " 2>/dev/null") ;;
                   unlessDry dryRun ("rm -rf " ++ q derivedDataPath ++ "/* 2>/dev/null") ~;;
                   done (obj [("size", sizeField size); ("status", statusOf dryRun)]))
                  (fun _ => ret (obj [("status", VStr "skipped");
                                      ("note", VStr "Xcode not installed or empty")])) ;;
       let results := assign "xcodeDerivedData" entry results in
       let archivesPath := homeText ++ "/Library/Developer/Xcode/Archives" in
       catch
         (size <~ exec ("du -sh " ++ q archivesPath ++ " 2>/dev/null") ;;
          done (assign "xcodeArchives"
                  (obj [("size", sizeField size);
                        ("note", VStr "Review before deleting - contains app builds")])
                  results))
         (fun _ => ret results)
     else ret results) ;;
  results <-
    (if cleanPyenvOldVersions then
       entry <- catch
                  (currentVersion <~ exec "pyenv version-name 2>/dev/null" ;;
                   allVersions <~ exec "ls ~/.pyenv/versions/ 2>/dev/null" ;;
                   let versions := nonEmptyLines allVersions in
                   versionInfo <~ lift (foldM (pyenvVersionOf currentVersion) versions []) ;;
                   done (obj [("current", VStr (Str.trim currentVersion));
                              ("versions", VArr versionInfo);
                              ("note", VStr "Run 'pyenv uninstall VERSION' to remove")]))
                  (fun _ => ret (obj [("status", VStr "skipped");
                                      ("note", VStr "pyenv not installed")])) ;;
       ret (assign "pyenvVersions" entry results)
     else ret results) ;;
  ret (obj results).

(** *** [handleCpuUsage] *)

(** [text.trim() !== 'N/A' ? parseInt(text.trim()) : null]. *)
Definition coresOrNull (text : string) : value :=
  if String.eqb (Str.trim text) "N/A" then VNull else VNum (Num.parseInt (Str.trim text)).

Definition handleCpuUsage (a : Args.t) : Exec value :=
  let topN := Args.orDefault (Args.topN a) (Num.ofZ 10) in
  catch
    (loadAvg <~ exec "sysctl -n vm.loadavg" ;;
     cpuInfo <~ exec "top -l 1 -n 0 | grep 'CPU usage'" ;;
     topProcesses <~ exec ("ps aux -r | head -" ++ Num.toString (Num.add topN (Num.ofZ 1))) ;;
     coreCount <~ exec "sysctl -n hw.ncpu" ;;
     perfCores <~ exec "sysctl -n hw.perflevel0.physicalcpu 2>/dev/null || echo 'N/A'" ;;
     effCores <~ exec "sysctl -n hw.perflevel1.physicalcpu 2>/dev/null || echo 'N/A'" ;;
     done (obj [("loadAverages", VStr (Str.trim loadAvg));
                ("cpuUsage", VStr (Str.trim cpuInfo));
                ("totalCores", VNum (Num.parseInt (Str.trim coreCount)));
                ("performanceCores", coresOrNull perfCores);
                ("efficiencyCores", coresOrNull effCores);
                ("topProcesses", VStr (Str.trim topProcesses))]))
    errorRecord.

(** *** [handleThermalStatus] *)

Definition handleThermalStatus : Exec value :=
  catch
    (thermalState <~ exec "pmset -g therm 2>/dev/null || echo 'Thermal info not available'" ;;
     temperature <~ lift (catch
                            (stdout <~ exec "osx-cpu-temp 2>/dev/null" ;;
                             done (Str.trim stdout))
                            (fun _ => ret "Temperature monitoring requires additional tools (e.g., osx-cpu-temp)")) ;;
     let isThrottling := Str.includes "CPU_Speed_Limit" thermalState
                         && negb (Str.includes "100" thermalState) in
     done (obj [("thermalState", VStr (Str.trim thermalState));
                ("temperature", VStr temperature);
                ("isThrottling", VBool isThrottling);
                ("recommendation",
                 VStr (if isThrottling then
                         "System is thermal throttling. Consider improving ventilation or reducing workload."
                       else "Thermal status normal."))]))
    errorRecord.

(** *** [handleBatteryHealth] *)

(** The group of [/label(\d+)/] at the start of [s]. *)
Definition digitsAfter (label s : string) : option string :=
  match Str.stripPrefix label s with
  | Some r =>
      match Str.span Str.isDigit r with
      | (String c ds, _) => Some (String c ds)
      | _ => None
      end
  | None => None
  end.

(** The group of [/Condition: (.+)/] at the start of [s]. *)
Definition conditionAt (s : string) : option string :=
  match Str.stripPrefix "Condition: " s with
  | Some r =>
      match Str.span (fun c => negb (Str.isLineTerminator c)) r with
      | (String c g, _) => Some (String c g)
      | _ => None
      end
  | None => None
  end.

(** The digits of [/label(\d+)%/] at the start of [s]. *)
Definition percentAfter (label s : string) : option string :=
  match Str.stripPrefix label s with
  | Some r =>
      match Str.span Str.isDigit r with
      | (String c ds, String p _) =>
          if Ascii.eqb p "%"%char then Some (String c ds) else None
      | _ => None
      end
  | None => None
  end.

(** [x || "N/A"] for a text [x] that may be missing. *)
Definition orNA (o : option string) : string :=
  match o with
  | Some (String c r) => String c r
  | _ => "N/A"
  end.

Definition healthNote (maxCapacity : string) : string :=
  if Num.lt (Num.parseInt maxCapacity) (Num.ofZ 80) then
    "Battery capacity significantly degraded. Consider replacement."
  else if Num.lt (Num.parseInt maxCapacity) (Num.ofZ 90) then "Battery showing some wear."
  else "Battery health good.".

Definition handleBatteryHealth : Exec value :=
  catch
    (batteryInfo <~ exec "system_profiler SPPowerDataType 2>/dev/null" ;;
     let cycleCount := orNA (Str.firstMatch (digitsAfter "Cycle Count: ") batteryInfo) in
     let condition := orNA (option_map Str.trim (Str.firstMatch conditionAt batteryInfo)) in
     let maxCapacity :=
       orNA (option_map (fun ds => ds ++ "%")
                        (Str.firstMatch (percentAfter "Maximum Capacity: ") batteryInfo)) in
     let charging := Str.includes "Charging: Yes" batteryInfo in
     let fullyCharged := Str.includes "Fully Charged: Yes" batteryInfo in
     let powerSource := if Str.includes "Connected: Yes" batteryInfo then "AC Power"
                        else "Battery" in
     pmsetOutput <~ exec "pmset -g batt" ;;
     let chargeLevel := orNA (Str.firstMatch (percentAfter EmptyString) pmsetOutput) in
     done (obj [("chargeLevel", VStr (chargeLevel ++ "%"));
                ("cycleCount",
                 if Num.truthy (Num.parseInt cycleCount) then VNum (Num.parseInt cycleCount)
                 else VStr cycleCount);
                ("condition", VStr condition);
                ("maxCapacity", VStr maxCapacity);
                ("isCharging", VBool charging);
                ("isFullyCharged", VBool fullyCharged);
                ("powerSource", VStr powerSource);
                ("healthNote", VStr (healthNote maxCapacity))]))
    errorRecord.

(** *** [handleSystemInfo] *)

Definition handleSystemInfo : Exec value :=
  catch
    (osVersion <~ exec "sw_vers" ;;
     model <~ exec "sysctl -n hw.model" ;;
     chip <~ exec "sysctl -n machdep.cpu.brand_string 2>/dev/null || echo 'Apple Silicon'" ;;
     memory <~ exec "sysctl -n hw.memsize" ;;
     uptime <~ exec "uptime" ;;
     disk <~ exec "df -h / | tail -1" ;;
     let diskParts := Str.splitWs (Str.trim disk) in
     user <~ exec "whoami" ;;
     hostname <~ exec "hostname" ;;
     done (obj [("macOS", VStr (Str.replaceNewlines ", " (Str.trim osVersion)));
                ("model", VStr (Str.trim model));
                ("chip", VStr (Str.trim chip));
                ("memoryGB",
                 VStr (Num.toFixed 0
                         (Num.div (Num.div (Num.div (Num.parseInt memory) (Num.ofZ 1024))
                                           (Num.ofZ 1024))
                                  (Num.ofZ 1024))
                       ++ " GB"));
                ("uptime", VStr (Str.trim uptime));
                ("disk", obj [("total", at_ 1 diskParts); ("used", at_ 2 diskParts);
                              ("available", at_ 3 diskParts);
                              ("percentUsed", at_ 4 diskParts)]);
                ("currentUser", VStr (Str.trim user));
                ("hostname", VStr (Str.trim hostname))]))
    errorRecord.

(** *** [handleProcessList] *)

(** [parseInt(parts[i])] and [parseFloat(parts[i])]; a missing part reads
    as the text ["undefined"]. *)
Definition textAt (i : nat) (parts : list string) : string :=
  match nth_error parts i with
  | Some s => s
  | None => "undefined"
  end.

Definition processOf (line : string) : value :=
  let parts := Str.splitWs line in
  obj [("user", at_ 0 parts);
       ("pid", VNum (Num.parseInt (textAt 1 parts)));
       ("cpu", VNum (Num.parseFloat (textAt 2 parts)));
       ("mem", VNum (Num.parseFloat (textAt 3 parts)));
       ("command", VStr (Str.join " " (skipn 10 parts)))].

Definition handleProcessList (a : Args.t) : Exec value :=
  let sortBy := Args.orDefault (Args.sortBy a) "cpu" in
  let limit := Args.orDefault (Args.limit a) (Num.ofZ 20) in
  let filter := Args.orDefault (Args.filter a) EmptyString in
  catch
    (let sortFlag := if String.eqb sortBy "memory" then "-m"
                     else if String.eqb sortBy "name" then EmptyString
                     else "-r" in
     let cmd := match filter with
                | EmptyString =>
                    "ps aux " ++ sortFlag ++ " | head -"
                    ++ Num.toString (Num.add limit (Num.ofZ 1))
                | _ =>
                    "ps aux " ++ sortFlag ++ " | grep -i " ++ q filter ++ " | head -"
                    ++ Num.toString limit
                end in
     stdout <~ exec cmd ;;
     let lines := Str.lines (Str.trim stdout) in
     done (obj [("sortedBy", VStr sortBy);
                ("header", at_ 0 lines);
                ("processes", VArr (map processOf (skipn 1 lines)))]))
    errorRecord.

(** *** [handleKillProcess] *)

Definition failureRecord (message : string) : value :=
  obj [("success", VBool false); ("error", VStr message)].

(** [force ? "SIGKILL" : "SIGTERM"]. *)
Definition signalName (force : bool) : string := if force then "SIGKILL" else "SIGTERM".

(** [if (pid)]: a missing pid, zero and NaN do not count. *)
Definition pidGiven (pid : option Num.number) : option Num.number :=
  match pid with
  | Some x => if Num.truthy x then Some x else None
  | None => None
  end.

(** [if (name)]: a missing name and the empty text do not count. *)
Definition nameGiven (name : option string) : option string :=
  match name with
  | Some (String c r) => Some (String c r)
  | _ => None
  end.

Definition handleKillProcess (a : Args.t) : Exec value :=
  let pid := Args.pid a in
  let name := Args.name a in
  let force := Args.orDefault (Args.force a) false in
  let signal := if force then "-9" else "-15" in
  catch
    (match pidGiven pid with
     | Some p =>
         exec ("kill " ++ signal ++ " " ++ Num.toString p) ~;;
         done (obj [("success", VBool true); ("killed", obj [("pid", VNum p)]);
                    ("signal", VStr (signalName force))])
     | None =>
         match nameGiven name with
         | Some n =>
             stdout <~ exec ("pgrep -f " ++ q n ++ " | head -1") ;;
             let foundPid := Str.trim stdout in
             match foundPid with
             | EmptyString => done (failureRecord ("No process found matching: " ++ n))
             | _ =>
                 exec ("kill " ++ signal ++ " " ++ foundPid) ~;;
                 done (obj [("success", VBool true);
                            ("killed", obj [("pid", VNum (Num.parseInt foundPid));
                                            ("name", VStr n)]);
                            ("signal", VStr (signalName force))])
             end
         | None => done (failureRecord "Must provide either pid or name")
         end
     end)
    (fun message => ret (failureRecord message)).

(** *** [handleStartupItems] *)

Definition launchAgentOf (line : string) : value :=
  let parts := Str.splitWs line in
  obj [("path", VStr (last parts EmptyString)); ("type", VStr "user")].

Definition handleStartupItems (a : Args.t) : Exec value :=
  let showDisabled := Args.orDefault (Args.showDisabled a) false in
  let items := [("loginItems", VArr []); ("launchAgents", VArr []);
                ("launchDaemons", VArr [])] in
  catch
    (userAgents <~ exec "ls -la ~/Library/LaunchAgents/*.plist 2>/dev/null || echo ''" ;;
     let items := match Str.trim userAgents with
                  | EmptyString => items
                  | text => assign "launchAgents"
                              (VArr (map launchAgentOf (Str.lines text))) items
                  end in
     loadedAgents <~ exec "launchctl list 2>/dev/null | head -30" ;;
     let items := assign "loadedAgents" (VStr (Str.trim loadedAgents)) items in
     systemAgents <~ exec "ls /Library/LaunchAgents/*.plist 2>/dev/null | head -10 || echo ''" ;;
     let items := match Str.trim systemAgents with
                  | EmptyString => items
                  | text => assign "systemAgents" (VArr (map VStr (Str.lines text))) items
                  end in
     done (obj items))
    errorRecord.

(** *** [handleNetworkStatus] *)

Definition handleNetworkStatus : Exec value :=
  catch
    (interfaces <~ exec "ifconfig | grep -E '^[a-z]|inet ' | head -20" ;;
     wifi <~ lift (catch
                     (wifi <~ exec "/System/Library/PrivateFrameworks/Apple80211.framework/Versions/Current/Resources/airport -I 2>/dev/null | grep -E 'SSID|BSSID|channel|RSSI'" ;;
                      done (Str.trim wifi))
                     (fun _ => ret "Not connected to WiFi")) ;;
     externalIp <~ lift (catch
                           (externalIp <~ exec "curl -s --max-time 2 ifconfig.me" ;;
                            done (Str.trim externalIp))
                           (fun _ => ret "Unable to determine")) ;;
     dns <~ exec "scutil --dns | grep 'nameserver' | head -5" ;;
     connCount <~ exec "netstat -an | grep ESTABLISHED | wc -l" ;;
     done (obj [("interfaces", VStr (Str.trim interfaces));
                ("wifi", VStr wifi);
                ("externalIp", VStr externalIp);
                ("dnsServers", VStr (Str.trim dns));
                ("activeConnections", VNum (Num.parseInt (Str.trim connCount)))]))
    errorRecord.

End WithEnvironment.

End Handlers.

(** ** The dispatcher ([CallToolRequestSchema]) *)

Module Dispatch.

Import Handlers.

(** How a request ends: with a response, or with an error thrown to the
    protocol layer. *)
Inductive completion : Type :=
| Response (content : value)
| Thrown (message : string).

(** The [switch] on the tool name; [args || {}] is the argument object.
    [None] is the [default] branch. *)
Definition route (HOME : option string) (name : string) (args : option Args.t)
  : option (Exec value) :=
  let a := match args with Some a => a | None => Args.empty end in
  if String.eqb name "mac_disk_usage" then Some (handleDiskUsage HOME a)
  else if String.eqb name "mac_go_cache_status" then Some handleGoCacheStatus
  else if String.eqb name "mac_cleanup_caches" then Some (handleCleanupCaches HOME a)
  else if String.eqb name "mac_cleanup_docker" then Some (handleDockerCleanup a)
  else if String.eqb name "mac_memory_status" then Some handleMemoryStatus
  else if String.eqb name "mac_cleanup_recommendations" then Some handleCleanupRecommendations
  else if String.eqb name "mac_empty_trash" then Some (handleEmptyTrash a)
  else if String.eqb name "mac_full_cleanup_workflow" then Some (handleFullCleanupWorkflow HOME a)
  else if String.eqb name "mac_analyze_library" then Some (handleAnalyzeLibrary HOME)
  else if String.eqb name "mac_developer_cleanup" then Some (handleDeveloperCleanup HOME a)
  else if String.eqb name "mac_cpu_usage" then Some (handleCpuUsage a)
  else if String.eqb name "mac_thermal_status" then Some handleThermalStatus
  else if String.eqb name "mac_battery_health" then Some handleBatteryHealth
  else if String.eqb name "mac_system_info" then Some handleSystemInfo
  else if String.eqb name "mac_process_list" then Some (handleProcessList a)
  else if String.eqb name "mac_kill_process" then Some (handleKillProcess a)
  else if String.eqb name "mac_startup_items" then Some (handleStartupItems a)
  else if String.eqb name "mac_network_status" then Some handleNetworkStatus
  else None.

(** [{ content: [{ type: "text", text: JSON.stringify(result, null, 2) }] }]. *)
Definition content (result : value) : value :=
  VObj [("content", VArr [VObj [("type", VStr "text"); ("text", stringify result)]])].

Definition callTool (HOME : option string) (name : string) (args : option Args.t)
  : Exec completion :=
  match route HOME name args with
  | Some handler => result <- handler ;; ret (Response (content result))
  | None => ret (Thrown ("Unknown tool: " ++ name))
  end.

(** The handler of [ListToolsRequestSchema]. *)
Definition listTools : list Registry.tool := Registry.tools.

End Dispatch.

(** ** Vocabulary of the properties *)

Module Spec.

Import Handlers.

(** The step records of a workflow result, and their names. *)
Definition stepsOf (result : value) : list value :=
  match Json.get "steps" result with
  | VArr items => items
  | _ => []
  end.

Definition stepNames (result : value) : list value :=
  map (Json.get "name") (stepsOf result).

Definition fixedStepNames : list value :=
  [VStr "Empty Trash"; VStr "Go Build Cache"; VStr "Homebrew Cache";
   VStr "Chrome Cache"; VStr "Spotify Cache"; VStr "npm Cache"; VStr "pip Cache"].

(** The usage of Docker, as the workflow asks for it. *)
Definition dockerSummaryCommand : string :=
  "docker system df --format '{{.TotalCount}} {{.Size}}' 2>/dev/null".

(** The commands that only look at the machine: the disk status, the size
    of a directory, the place of the Go cache and the usage of Docker. *)
Definition measuring (cmd : string) : bool :=
  String.eqb cmd diskStatusCommand || String.eqb cmd "go env GOCACHE"
  || String.eqb cmd dockerSummaryCommand || Str.startsWith "du -sh " cmd.

(** The run [trace] has issued exactly the commands [h] at some point. *)
Definition reaches (trace h : list string) : Prop :=
  exists rest, trace = (h ++ rest)%list.

(** The run [trace] issues [cmd] right after the commands [h]. *)
Definition issuedAfter (trace h : list string) (cmd : string) : Prop :=
  exists rest, trace = (h ++ cmd :: rest)%list.

(** The measuring commands answer alike in the two runs: a measuring
    command that the real run issues after the commands [hr], and that the
    dry run issues after the measuring commands among [hr], has the same
    outcome in both. *)
Definition answersAlike (sh : shell) (real dry : list string) : Prop :=
  forall hr cmd,
    measuring cmd = true ->
    issuedAfter real hr cmd ->
    issuedAfter dry (List.filter measuring hr) cmd ->
    sh hr cmd = sh (List.filter measuring hr) cmd.

(** Every command of the real run that is not a measuring command, which
    is to say every cleaning command, succeeds. *)
Definition cleaningSucceeds (sh : shell) (real : list string) : Prop :=
  forall hr cmd,
    measuring cmd = false ->
    issuedAfter real hr cmd ->
    exists out, sh hr cmd = Stdout out.

(** A step record with the status ["would clean"] in place of
    ["cleaned"]. *)
Definition relabel (field : string * value) : string * value :=
  match field with
  | (k, VStr s) =>
      if String.eqb k "status" && String.eqb s "cleaned" then (k, VStr "would clean")
      else field
  | _ => field
  end.

Definition asDryRun (step : value) : value :=
  match step with
  | VObj fields => VObj (map relabel fields)
  | _ => step
  end.

(** A step record without the output of [brew cleanup], which only a real
    run of the Homebrew step has. *)
Definition withoutBrewDetail (step : value) : value :=
  match step with
  | VObj fields =>
      match Json.lookup "name" fields with
      | VStr "Homebrew Cache" =>
          VObj (List.filter (fun kv => negb (String.eqb (fst kv) "detail")) fields)
      | _ => step
      end
  | _ => step
  end.

(** The steps of the workflow between the two disk statuses, in order. *)
Definition workflowSteps (HOME : option string)
           (includeDocker includeDockerVolumes dryRun : bool) : list (Exec value) :=
  ([trashStep dryRun; goStep dryRun; brewStep dryRun; chromeStep HOME dryRun;
    spotifyStep HOME dryRun; npmStep dryRun; pipStep dryRun]
   ++ (if includeDocker then [dockerStep includeDockerVolumes dryRun] else []))%list.

(** The records of a list of steps run one after the other. *)
Fixpoint runSteps (ss : list (Exec value)) (sh : shell) (h : list string)
  : list value * list string :=
  match ss with
  | [] => ([], h)
  | s :: r =>
      let '(v, h1) := s sh h in
      let '(vs, h2) := runSteps r sh h1 in
      (v :: vs, h2)
  end.

Definition pushAll (vs : list value) (w : workflow) : workflow :=
  fold_left (fun w v => push v w) vs w.

(** The [workflow] object at the start, with the first disk status. *)
Definition initialWorkflow (dryRun : bool) (b : value) : workflow :=
  {| steps := []; totalRecovered := "calculating..."; wfDryRun := dryRun;
     before := b; after := VUndefined |}.

(** What the dry run of a step shows of the record of its real run. *)
Definition dryView (step : value) : value := withoutBrewDetail (asDryRun step).

(** The name of the record that a step pushes. *)
Definition names (name : string) (step : Exec value) : Prop :=
  forall sh h, Json.get "name" (fst (step sh h)) = VStr name.

(** A computation only adds commands, all of them satisfying [Q]. *)
Definition issues (Q : string -> Prop) (step : Exec value) : Prop :=
  forall sh h, exists cmds, snd (step sh h) = (h ++ cmds)%list /\ Forall Q cmds.

(** The dry run of a step, started after the measuring commands of the
    real run, issues the measuring commands of the real run and shows its
    record; [real] and [dry] are the commands of the two whole runs, of
    which the step is a part. *)
Definition mirrors (sh : shell) (real dry : list string) (realStep dryStep : Exec value)
  : Prop :=
  forall hr,
    reaches real (snd (realStep sh hr)) ->
    reaches dry (snd (dryStep sh (List.filter measuring hr))) ->
    List.filter measuring (snd (realStep sh hr))
    = snd (dryStep sh (List.filter measuring hr))
    /\ fst (dryStep sh (List.filter measuring hr)) = dryView (fst (realStep sh hr)).

(** *** The commands of the steps *)

(** A [try] block that issues the commands of [plan] one after the other
    stops after the first that fails. *)
Fixpoint attempted (sh : shell) (h : list string) (plan : list string) : list string :=
  match plan with
  | [] => []
  | cmd :: later =>
      cmd :: match sh h cmd with
             | Stdout _ => attempted sh (h ++ [cmd])%list later
             | Failure _ => []
             end
  end.

(** The commands of each step in the order in which it issues them; a dry
    run leaves the cleaning commands out. *)
Definition trashCommands (dryRun : bool) : list string :=
  "du -sh ~/.Trash 2>/dev/null"
  :: (if dryRun then [] else ["rm -rf ~/.Trash/* 2>/dev/null"]).

(** The Go step measures the directory that [go env GOCACHE] printed. *)
Definition goCommands (dryRun : bool) (place : outcome) : list string :=
  "go env GOCACHE"
  :: match place with
     | Stdout cachePath =>
         ("du -sh " ++ q (Str.trim cachePath) ++ " 2>/dev/null")
         :: (if dryRun then [] else ["go clean -cache"])
     | Failure _ => []
     end.

Definition brewCommands (dryRun : bool) : list string :=
  "du -sh ~/Library/Caches/Homebrew 2>/dev/null"
  :: (if dryRun then []
      else ["brew cleanup --prune=all 2>&1 | grep -E 'freed|Removing' | tail -1"]).

Definition directoryCommands (dir : string) (dryRun : bool) : list string :=
  ("du -sh " ++ q dir ++ " 2>/dev/null")
  :: (if dryRun then [] else ["rm -rf " ++ q dir ++ "/* 2>/dev/null"]).

Definition packageCommands (cmd : string) (dryRun : bool) : list string :=
  if dryRun then [] else [cmd].

Definition dockerCommands (includeDockerVolumes dryRun : bool) : list string :=
  dockerSummaryCommand
  :: (if dryRun then []
      else "docker system prune -af 2>/dev/null"
           :: (if includeDockerVolumes then ["docker volume prune -f 2>/dev/null"]
               else [])).

(** The commands of a step may depend on what the machine has answered. *)
Definition plan : Type := shell -> list string -> list string.

(** The plans of the steps of the workflow, in order. *)
Definition workflowPlans (HOME : option string)
           (includeDocker includeDockerVolumes dryRun : bool) : list plan :=
  ([(fun _ _ => trashCommands dryRun);
    (fun sh h => goCommands dryRun (sh h "go env GOCACHE"));
    (fun _ _ => brewCommands dryRun);
    (fun _ _ => directoryCommands (chromeCachePath HOME) dryRun);
    (fun _ _ => directoryCommands (spotifyCachePath HOME) dryRun);
    (fun _ _ => packageCommands "npm cache clean --force 2>/dev/null" dryRun);
    (fun _ _ => packageCommands "pip cache purge 2>/dev/null" dryRun)]
   ++ (if includeDocker then [fun _ _ => dockerCommands includeDockerVolumes dryRun]
       else []))%list.

(** The commands issued when the plans are attempted one after the
    other. *)
Fixpoint planned (plans : list plan) (sh : shell) (h : list string) : list string :=
  match plans with
  | [] => []
  | p :: later =>
      let cmds := attempted sh h (p sh h) in
      (cmds ++ planned later sh (h ++ cmds))%list
  end.

(** The step issues the commands of the plan, up to the first that
    fails. *)
Definition follows (step : Exec value) (p : plan) : Prop :=
  forall sh h, snd (step sh h) = (h ++ attempted sh h (p sh h))%list.

(** What a disk status leaves in the [before] or [after] field. *)
Definition captured (o : outcome) : value :=
  match o with
  | Stdout out => diskStatus out
  | Failure message => obj [("error", VStr message)]
  end.

(** The caches whose blocks precede the block of [c] in
    [handleCleanupCaches]. *)
Definition cachesBefore (c : cache) : list cache :=
  match c with
  | Go => []
  | Brew => [Go]
  | Npm => [Go; Brew]
  | Pip => [Go; Brew; Npm]
  | Chrome => [Go; Brew; Npm; Pip]
  | Spotify => [Go; Brew; Npm; Pip; Chrome]
  end.

Definition allCaches : list cache := [Go; Brew; Npm; Pip; Chrome; Spotify].

(** The command of the block of [c]. *)
Definition commandOf (HOME : option string) (dryRun : bool) (c : cache) : string :=
  if dryRun then measureCommand HOME c else cleanCommand HOME c.

(** The normal result of the block of [c]. *)
Definition normalEntry (dryRun : bool) (c : cache) (stdout : string) : value :=
  if dryRun then measured c stdout else cleaned c stdout.

(** The commands that [handleCleanupCaches] issues before the block of
    [c]: one for each selected cache that precedes. *)
Definition issuedBefore (HOME : option string) (targets : list string) (dryRun : bool)
           (c : cache) : list string :=
  map (commandOf HOME dryRun) (List.filter (selected targets) (cachesBefore c)).

(** A declared value of [targets]. *)
Definition declaredTarget (t : string) : bool :=
  existsb (String.eqb t) Registry.cacheTargets.

(** The commands of [handleKillProcess]. *)
Definition signalFlag (force : bool) : string := if force then "-9" else "-15".

Definition killCommand (force : bool) (target : string) : string :=
  "kill " ++ signalFlag force ++ " " ++ target.

Definition lookupCommand (name : string) : string :=
  "pgrep -f " ++ q name ++ " | head -1".

(** *** Sample machines *)

(** Every command succeeds and prints nothing. *)
Definition quiet : shell := fun _ _ => Stdout EmptyString.

(** Every command succeeds and prints [out]. *)
Definition printing (out : string) : shell := fun _ _ => Stdout out.

(** The command [cmd] fails with [message]; every other command prints
    [out]. *)
Definition failingOn (cmd message out : string) : shell :=
  fun _ c => if String.eqb c cmd then Failure message else Stdout out.

Definition dfLine : string :=
  "/dev/disk3s1s1  460Gi  210Gi  250Gi  46%  /" ++ Str.newline.

(** The first disk status cannot be read; later ones print [dfLine]. *)
Definition firstDfFails : shell :=
  fun h c =>
    if String.eqb c diskStatusCommand then
      match h with
      | [] => Failure "Command failed: df -h / | tail -1"
      | _ => Stdout dfLine
      end
    else Stdout EmptyString.

(** [go env GOCACHE] prints a path and [du] reports [size] for it. *)
Definition goCacheOf (size : string) : shell :=
  fun _ c =>
    if String.eqb c "go env GOCACHE" then
      Stdout ("/Users/dev/Library/Caches/go-build" ++ Str.newline)
    else Stdout (size ++ Str.tab ++ "/Users/dev/Library/Caches/go-build" ++ Str.newline).

(** The recommendation that [handleGoCacheStatus] returns when [du]
    reports [size]. *)
Definition goRecommendation (size : string) : value :=
  Json.get "recommendation" (fst (run handleGoCacheStatus (goCacheOf size))).


(** The registered tool of a name. *)
Definition toolNamed (n : string) : Registry.tool :=
  match Registry.find n Registry.tools with
  | Some t => t
  | None => {| Registry.name := n; Registry.description := EmptyString;
               Registry.properties := [] |}
  end.

(** The result of a block of [handleCleanupCaches] whose command ended
    with [o]. *)
Definition entryOf (dryRun : bool) (c : cache) (o : outcome) : value :=
  match o with
  | Stdout out => normalEntry dryRun c out
  | Failure message => obj [("error", VStr message)]
  end.

(** The tools whose handler is one [try] block that a failing command
    leaves at once.  The blocks inside [handleNetworkStatus] that swallow
    a failure are followed by further commands. *)
Definition singleBlockTools : list string :=
  ["mac_disk_usage"; "mac_go_cache_status"; "mac_cleanup_docker"; "mac_memory_status";
   "mac_empty_trash"; "mac_cpu_usage"; "mac_battery_health"; "mac_system_info";
   "mac_process_list"; "mac_kill_process"; "mac_startup_items"; "mac_network_status"].

(** The last command that the handler issued failed with [message]. *)
Definition endedBy (sh : shell) (h trace : list string) (message : string) : Prop :=
  exists earlier cmd,
    trace = (earlier ++ [cmd])%list
    /\ (List.length h <= List.length earlier)%nat
    /\ sh earlier cmd = Failure message.

(** The Homebrew cache cannot be measured. *)
Definition homebrewMissing : shell :=
  failingOn "du -sh ~/Library/Caches/Homebrew 2>/dev/null"
    "Command failed: du -sh ~/Library/Caches/Homebrew 2>/dev/null"
    ("1.2G" ++ Str.tab ++ "/private/var" ++ Str.newline).

Definition bogusTargets : Args.t := Args.put "targets" (VArr [VStr "bogus"]) Args.empty.




Definition dryRunOf (d : bool) : Args.t := Args.put "dryRun" (VBool d) Args.empty.

(** A machine on which cleaning shows: the trash measures 0B once it has
    been emptied, and a disk status read after a cleaning command shows
    more free space. *)
Definition cleaningShows : shell :=
  fun h c =>
    if String.eqb c diskStatusCommand then
      if existsb (fun x => negb (measuring x)) h
      then Stdout ("/dev/disk3s1s1  460Gi  205Gi  255Gi  45%  /" ++ Str.newline)
      else Stdout dfLine
    else if String.eqb c "du -sh ~/.Trash 2>/dev/null" then
      if existsb (String.eqb "rm -rf ~/.Trash/* 2>/dev/null") h
      then Stdout ("0B" ++ Str.tab ++ "/Users/dev/.Trash" ++ Str.newline)
      else Stdout ("1.2G" ++ Str.tab ++ "/Users/dev/.Trash" ++ Str.newline)
    else if String.eqb c "go env GOCACHE" then
      Stdout ("/Users/dev/Library/Caches/go-build" ++ Str.newline)
    else Stdout ("1.2G" ++ Str.tab ++ "/private/var" ++ Str.newline).

(** A dry run of the workflow that includes Docker. *)
Definition dryRunWithDocker : Args.t := Args.put "includeDocker" (VBool true) (dryRunOf true).

End Spec.


(** ** Vocabulary of the behaviour of the other handlers *)

Module Behaviour.

Import Handlers Dispatch Spec.

(** A computation only adds commands to those issued, all of them
    satisfying [Q]. *)
Definition adds {A : Type} (Q : string -> Prop) (m : Exec A) : Prop :=
  forall sh h, exists cmds, snd (m sh h) = (h ++ cmds)%list /\ Forall Q cmds.

(** The value of a computation always satisfies [P]. *)
Definition returns {A : Type} (P : A -> Prop) (m : Exec A) : Prop :=
  forall sh h, P (fst (m sh h)).

(** What a [try] block promises of the value it ends with, if it is not
    left by an error. *)
Definition onSuccess {A : Type} (P : A -> Prop) (r : A + string) : Prop :=
  match r with
  | inl a => P a
  | inr _ => True
  end.

Definition isObject (v : value) : Prop :=
  match v with
  | VObj _ => True
  | _ => False
  end.

(** The programs that the monitoring tools invoke: each of them reads the
    state of the machine, or asks ifconfig.me for the address.  None of
    them is [rm], [kill], [go clean], [brew], [npm], [pip] or a prune of
    Docker. *)
Definition inspectionPrograms : list string :=
  ["dust -d "; "df -h "; "go env GOCACHE"; "du -s"; "vm_stat"; "memory_pressure ";
   "ps aux "; "docker system df "; "sysctl -n "; "top -l 1 "; "pmset -g ";
   "osx-cpu-temp "; "system_profiler "; "sw_vers"; "uptime"; "whoami"; "hostname";
   "ls "; "launchctl list "; "ifconfig ";
   "/System/Library/PrivateFrameworks/Apple80211.framework/Versions/Current/Resources/airport -I ";
   "curl -s --max-time 2 ifconfig.me"; "scutil --dns "; "netstat -an ";
   "find ~ -name "; "stat -f "; "pyenv version-name "].

(** The command starts with the invocation of an inspection program. *)
Definition inspects (cmd : string) : bool :=
  existsb (fun p => Str.startsWith p cmd) inspectionPrograms.

(** The tools that only look at the machine. *)
Definition monitoringTools : list string :=
  ["mac_disk_usage"; "mac_go_cache_status"; "mac_memory_status";
   "mac_cleanup_recommendations"; "mac_analyze_library"; "mac_cpu_usage";
   "mac_thermal_status"; "mac_battery_health"; "mac_system_info"; "mac_process_list";
   "mac_startup_items"; "mac_network_status"].

(** Every command fails on the machine. *)
Definition nothingWorks (sh : shell) : Prop :=
  forall h cmd, exists message, sh h cmd = Failure message.

(** Every command fails with [message]. *)
Definition broken (message : string) : shell := fun _ _ => Failure message.


Definition findNodeModules : string :=
  "find ~ -name " ++ q "node_modules" ++ " -type d -prune 2>/dev/null | head -20".

Definition dockerUsageCommand : string := "docker system df 2>/dev/null".
Definition dockerPruneCommand : string := "docker system prune -af 2>/dev/null".
Definition volumePruneCommand : string := "docker volume prune -f 2>/dev/null".
Definition trashSizeCommand : string := "du -sh ~/.Trash 2>/dev/null".
Definition trashCleaning : string := "rm -rf ~/.Trash/* 2>/dev/null".

(** The docker daemon answers every command, and the volume prune prints
    nothing. *)
Definition silentVolumePrune : shell :=
  fun _ c => if String.eqb c volumePruneCommand then Stdout EmptyString
             else Stdout ("TYPE TOTAL" ++ Str.newline).

(** The probes of [handleCleanupRecommendations]. *)
Definition goEnvCommand : string := "go env GOCACHE".
Definition trashProbe : string := "du -s ~/.Trash 2>/dev/null".
Definition dockerProbe : string :=
  "docker system df --format '{{.Size}}' 2>/dev/null | head -1".
Definition homebrewProbe : string := "du -s ~/Library/Caches/Homebrew 2>/dev/null".

Definition nothingToClean : value :=
  obj [("recommendations", VArr [obj [("message", VStr "No immediate cleanup needed")]])].





(** A capacity of [n] percent, as [system_profiler] prints it, and the
    note that goes with it. *)
Definition percentText (n : nat) : string := Num.decimal (Z.of_nat n) ++ "%".

Definition healthOf (n : nat) : string :=
  if (n <? 80)%nat then "Battery capacity significantly degraded. Consider replacement."
  else if (n <? 90)%nat then "Battery showing some wear."
  else "Battery health good.".

Definition healthAgrees (n : nat) : bool :=
  String.eqb (healthNote (percentText n)) (healthOf n).

Definition profilerCommand : string := "system_profiler SPPowerDataType 2>/dev/null".
Definition batteryCommand : string := "pmset -g batt".
Definition thermalCommand : string :=
  "pmset -g therm 2>/dev/null || echo 'Thermal info not available'".
Definition sensorCommand : string := "osx-cpu-temp 2>/dev/null".

Definition interfacesCommand : string := "ifconfig | grep -E '^[a-z]|inet ' | head -20".
Definition airportCommand : string :=
  "/System/Library/PrivateFrameworks/Apple80211.framework/Versions/Current/Resources/airport -I 2>/dev/null | grep -E 'SSID|BSSID|channel|RSSI'".
Definition externalIpCommand : string := "curl -s --max-time 2 ifconfig.me".
Definition dnsCommand : string := "scutil --dns | grep 'nameserver' | head -5".
Definition connectionsCommand : string := "netstat -an | grep ESTABLISHED | wc -l".

(** What a probe that may fail contributes: its trimmed output, or the
    fixed text. *)
Definition orElse (fallback : string) (o : outcome) : string :=
  match o with
  | Stdout out => Str.trim out
  | Failure _ => fallback
  end.

(** A machine without WiFi and without a route to the outside. *)
Definition offline : shell :=
  fun _ c =>
    if String.eqb c airportCommand || String.eqb c externalIpCommand
    then Failure "Command failed"
    else Stdout ("12" ++ Str.newline).

(** [system_profiler] reports no battery. *)
Definition noBattery : shell :=
  fun _ c => if String.eqb c profilerCommand then Stdout ("Power:" ++ Str.newline)
             else Stdout ("Now drawing from 'AC Power'" ++ Str.newline).

(** The thermal state with a speed limit of 50 and a scheduler limit of
    100; no temperature sensor. *)
Definition throttled : shell :=
  fun _ c =>
    if String.eqb c thermalCommand then
      Stdout ("CPU_Scheduler_Limit = 100" ++ Str.newline ++ "CPU_Speed_Limit = 50"
              ++ Str.newline)
    else Failure "Command failed: osx-cpu-temp".

Definition directorySizeCommand (dir : string) : string :=
  "du -sh " ++ q dir ++ " 2>/dev/null".

(** The first commands of the steps of the workflow, in a run that is not
    dry. *)
Definition firstCommands (HOME : option string) (includeDocker : bool) : list string :=
  ([trashSizeCommand; goEnvCommand;
    "du -sh ~/Library/Caches/Homebrew 2>/dev/null";
    directorySizeCommand (chromeCachePath HOME);
    directorySizeCommand (spotifyCachePath HOME);
    "npm cache clean --force 2>/dev/null"; "pip cache purge 2>/dev/null"]
   ++ (if includeDocker
       then ["docker system df --format '{{.TotalCount}} {{.Size}}' 2>/dev/null"]
       else []))%list.

Definition isSkipped (step : value) : Prop := Json.get "status" step = VStr "skipped".

Definition isError (v : value) : Prop := exists message, v = obj [("error", VStr message)].

(** On a machine where nothing works, the step gives up after the command
    [cmd] and reports itself as skipped. *)
Definition givesUpAfter (step : Exec value) (cmd : string) : Prop :=
  forall sh h,
    nothingWorks sh ->
    isSkipped (fst (step sh h)) /\ snd (step sh h) = (h ++ [cmd])%list.

(** The three listings of [handleStartupItems]. *)
Definition userAgentsCommand : string :=
  "ls -la ~/Library/LaunchAgents/*.plist 2>/dev/null || echo ''".
Definition loadedAgentsCommand : string := "launchctl list 2>/dev/null | head -30".
Definition systemAgentsCommand : string :=
  "ls /Library/LaunchAgents/*.plist 2>/dev/null | head -10 || echo ''".

(** The keys of an answer of [handleStartupItems] whose listing of the
    system agents is [text]. *)
Definition startupKeys (text : string) : list string :=
  (["loginItems"; "launchAgents"; "launchDaemons"; "loadedAgents"]
   ++ match Str.trim text with
      | EmptyString => []
      | _ => ["systemAgents"]
      end)%list.

(** One launch agent is installed for the user and none for the system. *)
Definition oneAgent : shell :=
  fun _ c =>
    if String.eqb c userAgentsCommand then
      Stdout ("-rw-r--r--  1 dev  staff  512 Jan  1 10:00 /Users/dev/Library/LaunchAgents/com.example.agent.plist"
              ++ Str.newline)
    else if String.eqb c loadedAgentsCommand then
      Stdout ("PID" ++ Str.tab ++ "Status" ++ Str.tab ++ "Label" ++ Str.newline)
    else Stdout Str.newline.

(** The listing of [handleProcessList] without a filter, sorted by CPU. *)
Definition byCpuCommand (limit : Num.number) : string :=
  "ps aux -r | head -" ++ Num.toString (Num.add limit (Num.ofZ 1)).

Definition sortedBy (key : string) : Args.t := Args.put "sortBy" (VStr key) Args.empty.

End Behaviour.

(** ** Properties *)

Import Handlers Dispatch Spec.

(** *** Running commands *)

Lemma exec_run (cmd : string) (sh : shell) (h : list string) :
  exec cmd sh h
  = (match sh h cmd with
     | Stdout out => inl out
     | Failure e => inr e
     end, (h ++ [cmd])%list).
Proof.
  unfold exec, bind, execAsync, ret.
  destruct (sh h cmd); reflexivity.
Qed.

Ltac run_exec := unfold catch, andThen, done, bind; rewrite ?exec_run; unfold ret.

(** Case analysis on the outcome of a command that the goal inspects. *)
Ltac case_outcome :=
  match goal with
  | |- context [match ?sh ?h ?c with Stdout _ => _ | Failure _ => _ end] =>
      let out := fresh "out" in
      let message := fresh "message" in
      destruct (sh h c) as [out|message] eqn:?
  end.

(** *** kill_process *)

Lemma handleKillProcess_by_pid (a : Args.t) (p : Num.number) (sh : shell) (h : list string) :
  pidGiven (Args.pid a) = Some p ->
  let force := Args.orDefault (Args.force a) false in
  let cmd := killCommand force (Num.toString p) in
  handleKillProcess a sh h
  = (match sh h cmd with
     | Stdout _ => obj [("success", VBool true); ("killed", obj [("pid", VNum p)]);
                        ("signal", VStr (signalName force))]
     | Failure message => failureRecord message
     end, (h ++ [cmd])%list).
Proof.
  intros Hp. cbv zeta. unfold handleKillProcess. rewrite Hp. run_exec.
  unfold killCommand, signalFlag.
  destruct (sh h _); reflexivity.
Qed.

Lemma handleKillProcess_by_name (a : Args.t) (n : string) (sh : shell) (h : list string) :
  pidGiven (Args.pid a) = None ->
  nameGiven (Args.name a) = Some n ->
  let force := Args.orDefault (Args.force a) false in
  let look := lookupCommand n in
  handleKillProcess a sh h
  = match sh h look with
    | Stdout out =>
        match Str.trim out with
        | EmptyString =>
            (failureRecord ("No process found matching: " ++ n), (h ++ [look])%list)
        | found =>
            (match sh (h ++ [look])%list (killCommand force found) with
             | Stdout _ =>
                 obj [("success", VBool true);
                      ("killed", obj [("pid", VNum (Num.parseInt found)); ("name", VStr n)]);
                      ("signal", VStr (signalName force))]
             | Failure message => failureRecord message
             end, (h ++ [look; killCommand force found])%list)
        end
    | Failure message => (failureRecord message, (h ++ [look])%list)
    end.
Proof.
  intros Hp Hn. cbv zeta. unfold handleKillProcess. rewrite Hp, Hn. run_exec.
  unfold lookupCommand, killCommand, signalFlag.
  destruct (sh h _) as [out|message]; [|reflexivity].
  destruct (Str.trim out) as [|c0 found]; [reflexivity|].
  rewrite exec_run, <- app_assoc.
  case_outcome; reflexivity.
Qed.

Lemma handleKillProcess_neither (a : Args.t) (sh : shell) (h : list string) :
  pidGiven (Args.pid a) = None ->
  nameGiven (Args.name a) = None ->
  handleKillProcess a sh h = (failureRecord "Must provide either pid or name", h).
Proof.
  intros Hp Hn. unfold handleKillProcess. rewrite Hp, Hn. reflexivity.
Qed.





(** *** go_cache_status *)

(** C7.  The thresholds 20 and 10 are applied to the number in front of
    the size that [du -sh] prints, whatever its unit: 25G is critical, 15G
    a warning and 5G reasonable, but 512M, half a gigabyte, is critical
    too, and 1.5T is reasonable. *)
Theorem go_cache_thresholds_ignore_the_unit :
  goRecommendation "25G"
  = VStr "CRITICAL: Cache is very large. Run 'go clean -cache' to reclaim space."
  /\ goRecommendation "15G"
     = VStr "WARNING: Cache is getting large. Consider cleaning with 'go clean -cache'."
  /\ goRecommendation "5G" = VStr "Cache size is reasonable."
  /\ goRecommendation "512M"
     = VStr "CRITICAL: Cache is very large. Run 'go clean -cache' to reclaim space."
  /\ goRecommendation "1.5T" = VStr "Cache size is reasonable."
  /\ goRecommendation " 25G" = VStr "Cache size is reasonable.".
Proof.
  repeat split; vm_compute; reflexivity.
Qed.

(** *** Defaults *)

(** C9.  For every tool of the registry, a call with the empty argument
    object, or with no argument object, gives the result of the call that
    sets every declared parameter to its declared default, on the same
    machine. *)
Theorem defaults_are_filled (HOME : option string) (t : Registry.tool)
        (sh : shell) (h : list string) :
  In t Registry.tools ->
  callTool HOME (Registry.name t) (Some Args.empty) sh h
  = callTool HOME (Registry.name t) (Some (Args.defaults t)) sh h
  /\ callTool HOME (Registry.name t) None sh h
     = callTool HOME (Registry.name t) (Some (Args.defaults t)) sh h.
Proof.
  intros Hin.
  repeat (destruct Hin as [<-|Hin]; [split; reflexivity|]).
  contradiction.
Qed.

Lemma defaults_are_filled_witness :
  In (toolNamed "mac_cleanup_caches") Registry.tools
  /\ callTool None "mac_cleanup_caches" None quiet []
     = callTool None "mac_cleanup_caches"
         (Some (Args.defaults (toolNamed "mac_cleanup_caches"))) quiet [].
Proof.
  assert (Hin : In (toolNamed "mac_cleanup_caches") Registry.tools).
  { right. right. left. reflexivity. }
  split; [exact Hin|].
  exact (proj2 (defaults_are_filled None (toolNamed "mac_cleanup_caches") quiet [] Hin)).
Defined.

(** *** cleanup_caches *)

Lemma cleanCache_run (HOME : option string) (c : cache) (dryRun : bool)
      (sh : shell) (h : list string) :
  cleanCache HOME c dryRun sh h
  = (entryOf dryRun c (sh h (commandOf HOME dryRun c)),
     (h ++ [commandOf HOME dryRun c])%list).
Proof.
  unfold cleanCache, commandOf, entryOf, normalEntry, errorRecord.
  destruct dryRun; run_exec; case_outcome; reflexivity.
Qed.

Lemma block_run (HOME : option string) (targets : list string) (dryRun : bool)
      (c : cache) (results : list (string * value)) (sh : shell) (h : list string) :
  block HOME targets dryRun c results sh h
  = if selected targets c then
      (assign (key c) (entryOf dryRun c (sh h (commandOf HOME dryRun c))) results,
       (h ++ [commandOf HOME dryRun c])%list)
    else (results, h).
Proof.
  unfold block.
  destruct (selected targets c); [|reflexivity].
  unfold bind. rewrite cleanCache_run. reflexivity.
Qed.

(** C6.  In [handleCleanupCaches] every selected target gets an entry, in
    the order of the blocks, and one command is issued for each.  The entry
    of a target depends on the outcome of its own command only:
    [{error: message}] when that command fails, the normal result when it
    succeeds, whatever the commands of the other targets do. *)
Theorem cleanup_caches_isolates_failures (HOME : option string) (a : Args.t)
        (sh : shell) (h : list string) :
  let targets := Args.orDefault (Args.targets a) ["all"] in
  let dryRun := Args.orDefault (Args.dryRun a) false in
  let results := Json.get "results" (fst (handleCleanupCaches HOME a sh h)) in
  Json.keys results = map key (List.filter (selected targets) allCaches)
  /\ snd (handleCleanupCaches HOME a sh h)
     = (h ++ map (commandOf HOME dryRun) (List.filter (selected targets) allCaches))%list
  /\ forall c, selected targets c = true ->
       match sh (h ++ issuedBefore HOME targets dryRun c)%list (commandOf HOME dryRun c) with
       | Failure message => Json.get (key c) results = obj [("error", VStr message)]
       | Stdout out => Json.get (key c) results = normalEntry dryRun c out
       end.
Proof.
  cbv zeta.
  remember (handleCleanupCaches HOME a sh h) as r eqn:Hr.
  unfold handleCleanupCaches, bind in Hr.
  unfold issuedBefore, allCaches.
  set (targets := Args.orDefault (Args.targets a) ["all"]) in *.
  set (dryRun := Args.orDefault (Args.dryRun a) false) in *.
  unfold ret at 1 in Hr.
  destruct (selected targets Go) eqn:Ego;
    destruct (selected targets Brew) eqn:Ebrew;
    destruct (selected targets Npm) eqn:Enpm;
    destruct (selected targets Pip) eqn:Epip;
    destruct (selected targets Chrome) eqn:Echrome;
    destruct (selected targets Spotify) eqn:Espotify;
    repeat (rewrite block_run in Hr;
            rewrite ?Ego, ?Ebrew, ?Enpm, ?Epip, ?Echrome, ?Espotify in Hr;
            cbv beta iota in Hr);
    unfold ret in Hr; subst r;
    cbn [List.filter];
    rewrite ?Ego, ?Ebrew, ?Enpm, ?Epip, ?Echrome, ?Espotify;
    cbn [fst snd map Json.get Json.keys obj Json.lookup String.eqb
         Ascii.eqb Bool.eqb assign key];
    rewrite <- ?app_assoc; cbn [app map fst];
    (split; [reflexivity|]); (split; [rewrite ?app_nil_r; reflexivity|]);
    intros c Hc; destruct c;
    rewrite ?Ego, ?Ebrew, ?Enpm, ?Epip, ?Echrome, ?Espotify in Hc; try discriminate Hc;
    cbn [cachesBefore List.filter map key Json.lookup String.eqb Ascii.eqb Bool.eqb];
    rewrite ?Ego, ?Ebrew, ?Enpm, ?Epip, ?Echrome, ?Espotify; cbn [map];
    rewrite ?app_nil_r;
    unfold entryOf; case_outcome; reflexivity.
Qed.

Lemma cleanup_caches_isolates_failures_witness :
  let sh := failingOn (cleanCommand None Brew) "brew: command not found" "done" in
  let results := Json.get "results" (fst (handleCleanupCaches None Args.empty sh [])) in
  Json.get "brew" results = obj [("error", VStr "brew: command not found")]
  /\ Json.get "npm" results = obj [("status", VStr "cleaned")].
Proof.
  cbv zeta.
  pose proof (cleanup_caches_isolates_failures None Args.empty
                (failingOn (cleanCommand None Brew) "brew: command not found" "done") [])
    as [_ [_ H]].
  split.
  - exact (H Brew eq_refl).
  - exact (H Npm eq_refl).
Defined.

Lemma includes_declared (t : string) (ts : list string) :
  declaredTarget t = true ->
  includes t (List.filter declaredTarget ts) = includes t ts.
Proof.
  intros Ht. unfold includes.
  induction ts as [|x ts IH]; [reflexivity|].
  cbn [List.filter existsb].
  destruct (declaredTarget x) eqn:Hx.
  - cbn [existsb]. rewrite IH. reflexivity.
  - rewrite IH.
    destruct (String.eqb t x) eqn:Htx; [|reflexivity].
    apply String.eqb_eq in Htx. subst x. congruence.
Qed.

Lemma selected_declared (ts : list string) (c : cache) :
  selected (List.filter declaredTarget ts) c = selected ts c.
Proof.
  unfold selected.
  rewrite (includes_declared "all" ts eq_refl).
  rewrite (includes_declared (key c) ts); [reflexivity|].
  destruct c; reflexivity.
Qed.

Lemma includes_undeclared (t : string) (ts : list string) :
  declaredTarget t = true ->
  List.filter declaredTarget ts = [] ->
  includes t ts = false.
Proof.
  intros Ht Hts.
  rewrite <- (includes_declared t ts Ht), Hts. reflexivity.
Qed.

(** C1.  The dispatcher does not validate [targets].  A call of
    cleanup_caches always reaches the handler and ends with a response; the
    values of [targets] outside the declared enumeration are ignored, so the
    call behaves as the call without them; when no value is declared, as
    for [targets: ["bogus"]], no command is issued and the result is
    [{dryRun, results: {}}]. *)
Theorem undeclared_targets_are_ignored (HOME : option string) (a a' : Args.t)
        (ts : list string) (sh : shell) (h : list string) :
  Args.targets a = Some ts ->
  Args.targets a' = Some (List.filter declaredTarget ts) ->
  Args.dryRun a' = Args.dryRun a ->
  (exists result trace,
      callTool HOME "mac_cleanup_caches" (Some a) sh h = (Response (content result), trace))
  /\ callTool HOME "mac_cleanup_caches" (Some a) sh h
     = callTool HOME "mac_cleanup_caches" (Some a') sh h
  /\ (List.filter declaredTarget ts = [] ->
      callTool HOME "mac_cleanup_caches" (Some a) sh h
      = (Response (content (obj [("dryRun", VBool (Args.orDefault (Args.dryRun a) false));
                                 ("results", obj [])])), h)).
Proof.
  intros Hts Hts' Hdry.
  change (callTool HOME "mac_cleanup_caches" (Some a) sh h)
    with (let '(r, t) := handleCleanupCaches HOME a sh h in (Response (content r), t)).
  change (callTool HOME "mac_cleanup_caches" (Some a') sh h)
    with (let '(r, t) := handleCleanupCaches HOME a' sh h in (Response (content r), t)).
  split; [|split].
  - destruct (handleCleanupCaches HOME a sh h) as [r t]. exists r, t. reflexivity.
  - unfold handleCleanupCaches, block.
    rewrite Hts, Hts', Hdry. cbn [Args.orDefault].
    rewrite !selected_declared. reflexivity.
  - intros Hnone.
    unfold handleCleanupCaches, block, selected.
    rewrite Hts. cbn [Args.orDefault].
    rewrite !(includes_undeclared _ ts) by (reflexivity || exact Hnone).
    reflexivity.
Qed.

Lemma undeclared_targets_are_ignored_witness :
  callTool None "mac_cleanup_caches" (Some bogusTargets) quiet []
  = (Response (content (obj [("dryRun", VBool false); ("results", obj [])])), []).
Proof.
  apply (proj2 (proj2 (undeclared_targets_are_ignored None bogusTargets
                         (Args.put "targets" (VArr []) Args.empty) ["bogus"] quiet []
                         eq_refl eq_refl eq_refl))).
  reflexivity.
Defined.

(** C1, as stated, fails: [targets: ["bogus"]] is not rejected.  The call
    is answered with a response and nothing is thrown. *)
Lemma bogus_target_is_not_rejected :
  fst (run (callTool None "mac_cleanup_caches" (Some bogusTargets)) quiet)
  = Response (content (obj [("dryRun", VBool false); ("results", obj [])]))
  /\ ~ (exists message,
          fst (run (callTool None "mac_cleanup_caches" (Some bogusTargets)) quiet)
          = Thrown message).
Proof.
  split; [reflexivity|].
  intros [message H]. discriminate H.
Qed.

(** *** full_cleanup_workflow *)

Ltac crunch :=
  repeat first [ progress unfold catch, andThen, done, bind, ret, unlessDry, skipped,
                   errorRecord, lift
               | rewrite exec_run | progress cbv beta iota | progress cbn [negb]
               | case_outcome ].

Lemma record_run (step : Exec value) (w : workflow) (sh : shell) (h : list string) :
  record step w sh h = (push (fst (step sh h)) w, snd (step sh h)).
Proof.
  unfold record, bind, ret. destruct (step sh h); reflexivity.
Qed.

Lemma pushAll_steps (vs : list value) (w : workflow) :
  steps (pushAll vs w) = (steps w ++ vs)%list.
Proof.
  revert w. induction vs as [|v vs IH]; intros w; cbn.
  - rewrite app_nil_r. reflexivity.
  - unfold pushAll in IH. rewrite IH. cbn. rewrite <- app_assoc. reflexivity.
Qed.

Lemma pushAll_frame (vs : list value) (w : workflow) :
  before (pushAll vs w) = before w
  /\ after (pushAll vs w) = after w
  /\ totalRecovered (pushAll vs w) = totalRecovered w
  /\ wfDryRun (pushAll vs w) = wfDryRun w.
Proof.
  revert w. induction vs as [|v vs IH]; intros w; cbn; [auto|].
  unfold pushAll in IH. destruct (IH (push v w)) as (-> & -> & -> & ->). auto.
Qed.

Lemma cleanup_run (HOME : option string) (i v d : bool) (w : workflow)
      (sh : shell) (h : list string) :
  cleanup HOME i v d w sh h
  = (pushAll (fst (runSteps (workflowSteps HOME i v d) sh h)) w,
     snd (runSteps (workflowSteps HOME i v d) sh h)).
Proof.
  unfold cleanup, bind, workflowSteps.
  repeat (rewrite record_run; cbv beta iota).
  cbn [app runSteps].
  destruct (trashStep d sh h) as [s1 h1]; cbn [fst snd].
  destruct (goStep d sh h1) as [s2 h2]; cbn [fst snd].
  destruct (brewStep d sh h2) as [s3 h3]; cbn [fst snd].
  destruct (chromeStep HOME d sh h3) as [s4 h4]; cbn [fst snd].
  destruct (spotifyStep HOME d sh h4) as [s5 h5]; cbn [fst snd].
  destruct (npmStep d sh h5) as [s6 h6]; cbn [fst snd].
  destruct (pipStep d sh h6) as [s7 h7]; cbn [fst snd].
  destruct i; cbn [runSteps].
  - rewrite record_run.
    destruct (dockerStep v d sh h7) as [s8 h8]; reflexivity.
  - reflexivity.
Qed.

Lemma workflow_run (HOME : option string) (a : Args.t) (sh : shell) (h : list string) :
  let i := Args.orDefault (Args.includeDocker a) false in
  let v := Args.orDefault (Args.includeDockerVolumes a) false in
  let d := Args.orDefault (Args.dryRun a) false in
  let b := captureBefore sh h in
  let ss := runSteps (workflowSteps HOME i v d) sh (snd b) in
  let w := captureAfter (pushAll (fst ss) (initialWorkflow d (fst b))) sh (snd ss) in
  handleFullCleanupWorkflow HOME a sh h = (workflowJson (fst w), snd w).
Proof.
  cbv zeta. unfold handleFullCleanupWorkflow, bind.
  destruct (captureBefore sh h) as [b h1]; cbn [fst snd].
  rewrite cleanup_run.
  unfold initialWorkflow, setBefore; cbn [steps totalRecovered wfDryRun before after].
  destruct (captureAfter _ sh _) as [w h3]; reflexivity.
Qed.

Lemma captureBefore_run (sh : shell) (h : list string) :
  captureBefore sh h
  = (match sh h diskStatusCommand with
     | Stdout out => diskStatus out
     | Failure message => obj [("error", VStr message)]
     end, (h ++ [diskStatusCommand])%list).
Proof.
  unfold captureBefore. crunch; reflexivity.
Qed.

Lemma captureAfter_run (w : workflow) (sh : shell) (h : list string) :
  captureAfter w sh h
  = if wfDryRun w then (setAfter (obj [("note", VStr "Dry run - no changes made")]) w, h)
    else
      (match sh h diskStatusCommand with
       | Stdout out =>
           setTotalRecovered
             (Num.toFixed 1 (Num.sub (availableGB (diskStatus out)) (availableGB (before w)))
              ++ "G")
             (setAfter (diskStatus out) w)
       | Failure message => setAfter (obj [("error", VStr message)]) w
       end, (h ++ [diskStatusCommand])%list).
Proof.
  unfold captureAfter. destruct (wfDryRun w); cbn [negb]; [reflexivity|].
  crunch; reflexivity.
Qed.

Lemma trashStep_name d : names "Empty Trash" (trashStep d).
Proof. intros sh h. unfold trashStep. destruct d; crunch; reflexivity. Qed.

Lemma goStep_name d : names "Go Build Cache" (goStep d).
Proof. intros sh h. unfold goStep. destruct d; crunch; reflexivity. Qed.

Lemma brewStep_name d : names "Homebrew Cache" (brewStep d).
Proof. intros sh h. unfold brewStep. destruct d; crunch; reflexivity. Qed.

Lemma directoryStep_name n dir d : names n (directoryStep n dir d).
Proof. intros sh h. unfold directoryStep. destruct d; crunch; reflexivity. Qed.

Lemma packageStep_name n cmd d : names n (packageStep n cmd d).
Proof. intros sh h. unfold packageStep. destruct d; crunch; reflexivity. Qed.

Lemma dockerStep_name v d : names "Docker" (dockerStep v d).
Proof. intros sh h. unfold dockerStep. destruct d, v; crunch; reflexivity. Qed.

Lemma runSteps_names (ss : list (Exec value)) (ns : list string) :
  Forall2 (fun s n => names n s) ss ns ->
  forall sh h, map (Json.get "name") (fst (runSteps ss sh h)) = map VStr ns.
Proof.
  induction 1 as [|s n ss ns Hs _ IH]; intros sh h; [reflexivity|].
  cbn [runSteps]. specialize (Hs sh h).
  destruct (s sh h) as [v h1]. specialize (IH sh h1).
  destruct (runSteps ss sh h1) as [vs h2]. cbn in *. congruence.
Qed.

Ltac solve_issues :=
  rewrite <- ?app_assoc; cbn [app snd];
  first [ eexists; split; [reflexivity|]
        | exists []; split; [symmetry; apply app_nil_r|] ];
  repeat constructor.

Lemma runSteps_issues (Q : string -> Prop) (ss : list (Exec value)) :
  Forall (issues Q) ss ->
  forall sh h, exists cmds, snd (runSteps ss sh h) = (h ++ cmds)%list /\ Forall Q cmds.
Proof.
  induction 1 as [|s ss Hs _ IH]; intros sh h.
  - exists []. split; [symmetry; apply app_nil_r|constructor].
  - cbn [runSteps]. destruct (Hs sh h) as (c1 & E1 & Q1).
    destruct (s sh h) as [v h1]. cbn [snd] in E1. subst h1.
    destruct (IH sh (h ++ c1)%list) as (c2 & E2 & Q2).
    destruct (runSteps ss sh (h ++ c1)%list) as [vs h2]. cbn [snd] in *. subst h2.
    exists (c1 ++ c2)%list. split; [symmetry; apply app_assoc|].
    apply Forall_app. split; assumption.
Qed.

Lemma steps_issue_anything HOME i v d :
  Forall (issues (fun _ => True)) (workflowSteps HOME i v d).
Proof.
  unfold workflowSteps.
  apply Forall_app. split.
  - repeat constructor; intros sh h;
      unfold trashStep, goStep, brewStep, chromeStep, spotifyStep, directoryStep,
        npmStep, pipStep, packageStep;
      destruct d; crunch; solve_issues.
  - destruct i; repeat constructor.
    intros sh h. unfold dockerStep. destruct d, v; crunch; solve_issues.
Qed.

Lemma steps_named HOME i v d :
  Forall2 (fun s n => names n s) (workflowSteps HOME i v d)
    (["Empty Trash"; "Go Build Cache"; "Homebrew Cache"; "Chrome Cache"; "Spotify Cache";
      "npm Cache"; "pip Cache"] ++ (if i then ["Docker"] else []))%list.
Proof.
  unfold workflowSteps. apply Forall2_app.
  - constructor; [apply trashStep_name|].
    constructor; [apply goStep_name|].
    constructor; [apply brewStep_name|].
    constructor; [apply directoryStep_name|].
    constructor; [apply directoryStep_name|].
    constructor; [apply packageStep_name|].
    constructor; [apply packageStep_name|constructor].
  - destruct i; constructor; [apply dockerStep_name|constructor].
Qed.

(** The commands of a step are those of its plan; [reduce] evaluates the
    plan. *)
Ltac follow_plan reduce :=
  let sh := fresh "sh" in
  let h := fresh "h" in
  intros sh h;
  repeat first [ progress unfold catch, andThen, done, bind, ret, unlessDry, skipped,
                   errorRecord
               | rewrite exec_run | progress cbv beta iota | progress cbn [negb]
               | progress reduce
               | case_outcome ];
  cbn [snd]; rewrite <- ?app_assoc; rewrite ?app_nil_r; reflexivity.

Lemma trashStep_follows d : follows (trashStep d) (fun _ _ => trashCommands d).
Proof.
  unfold trashStep. destruct d; follow_plan ltac:(cbn [attempted trashCommands]).
Qed.

Lemma goStep_follows d :
  follows (goStep d) (fun sh h => goCommands d (sh h "go env GOCACHE")).
Proof.
  unfold goStep. destruct d; follow_plan ltac:(cbn [attempted goCommands]).
Qed.

Lemma brewStep_follows d : follows (brewStep d) (fun _ _ => brewCommands d).
Proof.
  unfold brewStep. destruct d; follow_plan ltac:(cbn [attempted brewCommands]).
Qed.

Lemma directoryStep_follows n dir d :
  follows (directoryStep n dir d) (fun _ _ => directoryCommands dir d).
Proof.
  unfold directoryStep. destruct d; follow_plan ltac:(cbn [attempted directoryCommands]).
Qed.

Lemma packageStep_follows n cmd d :
  follows (packageStep n cmd d) (fun _ _ => packageCommands cmd d).
Proof.
  unfold packageStep. destruct d; follow_plan ltac:(cbn [attempted packageCommands]).
Qed.

Lemma dockerStep_follows v d : follows (dockerStep v d) (fun _ _ => dockerCommands v d).
Proof.
  unfold dockerStep, dockerCommands, dockerSummaryCommand.
  destruct d, v; follow_plan ltac:(cbn [attempted]).
Qed.

Lemma steps_follow HOME i v d :
  Forall2 follows (workflowSteps HOME i v d) (workflowPlans HOME i v d).
Proof.
  unfold workflowSteps, workflowPlans. apply Forall2_app.
  - constructor; [apply trashStep_follows|].
    constructor; [apply goStep_follows|].
    constructor; [apply brewStep_follows|].
    constructor; [apply directoryStep_follows|].
    constructor; [apply directoryStep_follows|].
    constructor; [apply packageStep_follows|].
    constructor; [apply packageStep_follows|constructor].
  - destruct i; constructor; [apply dockerStep_follows|constructor].
Qed.

Lemma runSteps_follow (ss : list (Exec value)) (ps : list plan) :
  Forall2 follows ss ps ->
  forall sh h, snd (runSteps ss sh h) = (h ++ planned ps sh h)%list.
Proof.
  induction 1 as [|s p ss ps Hs _ IH]; intros sh h; cbn [runSteps planned].
  - symmetry. apply app_nil_r.
  - specialize (Hs sh h). destruct (s sh h) as [v h1]. cbn [snd] in Hs. subst h1.
    specialize (IH sh (h ++ attempted sh h (p sh h))%list).
    destruct (runSteps ss sh _) as [vs h2]. cbn [snd] in *. subst h2.
    symmetry. apply app_assoc.
Qed.

(** C5.  The two disk statuses are not step records: they are the first
    command of the run, kept in the field [before], and, in a run that is
    not dry only, the last command, kept in [after]; a dry run issues no
    second disk status and keeps a note there.  The step records carry, in
    this order, the names Empty Trash, Go Build Cache, Homebrew Cache,
    Chrome Cache, Spotify Cache, npm Cache and pip Cache, followed by
    Docker exactly when [includeDocker] is set.  Between the disk statuses
    the commands are those of the steps in the same order, each step
    issuing the commands of its plan up to the first that fails, so that
    the commands of the Docker step are the last before the second disk
    status.  The result lists [steps], [totalRecovered], [dryRun],
    [before] and [after]. *)
Theorem workflow_steps_in_fixed_order (HOME : option string) (a : Args.t)
        (sh : shell) (h : list string) :
  let includeDocker := Args.orDefault (Args.includeDocker a) false in
  let includeDockerVolumes := Args.orDefault (Args.includeDockerVolumes a) false in
  let dryRun := Args.orDefault (Args.dryRun a) false in
  let result := fst (handleFullCleanupWorkflow HOME a sh h) in
  let trace := snd (handleFullCleanupWorkflow HOME a sh h) in
  let cmds :=
    planned (workflowPlans HOME includeDocker includeDockerVolumes dryRun) sh
      (h ++ [diskStatusCommand])%list in
  stepNames result
  = (fixedStepNames ++ (if includeDocker then [VStr "Docker"] else []))%list
  /\ trace
     = (h ++ diskStatusCommand
          :: cmds ++ (if dryRun then [] else [diskStatusCommand]))%list
  /\ Json.keys result = ["steps"; "totalRecovered"; "dryRun"; "before"; "after"]
  /\ Json.get "before" result = captured (sh h diskStatusCommand)
  /\ Json.get "after" result
     = if dryRun then obj [("note", VStr "Dry run - no changes made")]
       else captured (sh (h ++ diskStatusCommand :: cmds)%list diskStatusCommand).
Proof.
  cbv zeta. rewrite workflow_run. cbv zeta. cbn [fst snd].
  rewrite captureBefore_run. cbn [fst snd].
  set (i := Args.orDefault (Args.includeDocker a) false).
  set (v := Args.orDefault (Args.includeDockerVolumes a) false).
  set (d := Args.orDefault (Args.dryRun a) false).
  remember (match sh h diskStatusCommand with
            | Stdout out => diskStatus out
            | Failure message => obj [("error", VStr message)]
            end) as b eqn:Hbefore.
  pose proof (runSteps_names _ _ (steps_named HOME i v d) sh
                (h ++ [diskStatusCommand])%list) as Hnames.
  pose proof (runSteps_follow _ _ (steps_follow HOME i v d) sh
                (h ++ [diskStatusCommand])%list) as Htrace.
  remember (planned (workflowPlans HOME i v d) sh (h ++ [diskStatusCommand])%list)
    as cmds eqn:Hcmds.
  destruct (runSteps (workflowSteps HOME i v d) sh (h ++ [diskStatusCommand])%list)
    as [vs h2].
  cbn [fst snd] in *. subst h2.
  rewrite captureAfter_run.
  destruct (pushAll_frame vs (initialWorkflow d b)) as (Hb & Ha & Ht & Hd).
  rewrite Hd. cbn [initialWorkflow wfDryRun].
  assert (Hsteps : steps (pushAll vs (initialWorkflow d b)) = vs).
  { rewrite pushAll_steps. reflexivity. }
  replace ((h ++ [diskStatusCommand]) ++ cmds)%list
    with (h ++ diskStatusCommand :: cmds)%list
    by (rewrite <- app_assoc; reflexivity).
  split; [|split; [|split; [|split]]].
  - unfold stepNames, stepsOf.
    destruct d; [|case_outcome]; cbn -[pushAll]; rewrite Hsteps, Hnames;
      destruct i; reflexivity.
  - destruct d; cbn [snd]; rewrite <- ?app_assoc; cbn [app];
      rewrite ?app_nil_r; reflexivity.
  - destruct d; [|case_outcome]; reflexivity.
  - destruct d; [|case_outcome]; cbn -[pushAll]; rewrite Hb; cbn; rewrite Hbefore;
      reflexivity.
  - destruct d; [reflexivity|]. unfold captured. case_outcome; reflexivity.
Qed.

(** C5, as stated, fails: in a dry run that includes Docker the eight
    step records start with Empty Trash and end with Docker, none of them
    is a disk status, the command of the Docker step is the last command
    of the run, so that no disk status follows it, and [after] is a
    note. *)
Lemma disk_statuses_are_not_step_records :
  let sh := printing ("1.2G" ++ Str.tab ++ "/private/var" ++ Str.newline) in
  let result := fst (run (handleFullCleanupWorkflow None dryRunWithDocker) sh) in
  let trace := snd (run (handleFullCleanupWorkflow None dryRunWithDocker) sh) in
  stepNames result
  = [VStr "Empty Trash"; VStr "Go Build Cache"; VStr "Homebrew Cache";
     VStr "Chrome Cache"; VStr "Spotify Cache"; VStr "npm Cache"; VStr "pip Cache";
     VStr "Docker"]
  /\ last trace EmptyString = dockerSummaryCommand
  /\ List.length (List.filter (String.eqb diskStatusCommand) trace) = 1%nat
  /\ Json.get "after" result = obj [("note", VStr "Dry run - no changes made")].
Proof.
  vm_compute. repeat split.
Qed.

(** C2.  In a run that is not dry, the disk status taken after is the last
    command.  When it fails, [after] is [{error: message}] and
    [totalRecovered] keeps the placeholder ["calculating..."].  When it
    succeeds, [totalRecovered] is the difference of the two available
    figures, to one decimal; a disk status taken before that failed leaves
    [before] as [{error: message}], and its missing figure counts as 0. *)
Theorem recovered_space_defaults_to_zero (HOME : option string) (a : Args.t)
        (sh : shell) (h : list string) :
  Args.orDefault (Args.dryRun a) false = false ->
  let result := fst (handleFullCleanupWorkflow HOME a sh h) in
  let trace := snd (handleFullCleanupWorkflow HOME a sh h) in
  exists earlier,
    trace = (earlier ++ [diskStatusCommand])%list
    /\ match sh earlier diskStatusCommand with
       | Failure message =>
           Json.get "after" result = obj [("error", VStr message)]
           /\ Json.get "totalRecovered" result = VStr "calculating..."
       | Stdout out =>
           Json.get "after" result = diskStatus out
           /\ match sh h diskStatusCommand with
              | Failure message =>
                  Json.get "before" result = obj [("error", VStr message)]
                  /\ Json.get "totalRecovered" result
                     = VStr (Num.toFixed 1 (Num.sub (availableGB (diskStatus out)) Num.zero)
                             ++ "G")
              | Stdout out0 =>
                  Json.get "before" result = diskStatus out0
                  /\ Json.get "totalRecovered" result
                     = VStr (Num.toFixed 1 (Num.sub (availableGB (diskStatus out))
                                                    (availableGB (diskStatus out0)))
                             ++ "G")
              end
       end.
Proof.
  intros Hdry. cbv zeta. rewrite workflow_run. cbv zeta. cbn [fst snd].
  rewrite captureBefore_run. cbn [fst snd]. rewrite Hdry.
  set (b := match sh h diskStatusCommand with
            | Stdout out => diskStatus out
            | Failure message => obj [("error", VStr message)]
            end).
  destruct (runSteps _ sh (h ++ [diskStatusCommand])%list) as [vs h2].
  cbn [fst snd].
  rewrite captureAfter_run.
  destruct (pushAll_frame vs (initialWorkflow false b)) as (Hb & Ha & Ht & Hd).
  rewrite Hd. cbn [initialWorkflow wfDryRun snd].
  exists h2. split; [reflexivity|].
  destruct (sh h2 diskStatusCommand) as [out|message].
  - cbn [fst workflowJson setTotalRecovered setAfter before after totalRecovered
         Json.get obj Json.lookup String.eqb Ascii.eqb Bool.eqb].
    rewrite Hb. cbn [initialWorkflow before].
    split; [reflexivity|].
    subst b. destruct (sh h diskStatusCommand) as [out0|message0];
      (split; [reflexivity|]); reflexivity.
  - cbn [fst workflowJson setAfter before after totalRecovered
         Json.get obj Json.lookup String.eqb Ascii.eqb Bool.eqb].
    rewrite Ht. split; reflexivity.
Qed.

Lemma recovered_space_defaults_to_zero_witness :
  Json.get "totalRecovered" (fst (handleFullCleanupWorkflow None Args.empty firstDfFails []))
  = VStr "250.0G".
Proof.
  destruct (recovered_space_defaults_to_zero None Args.empty firstDfFails [] eq_refl)
    as (earlier & Htrace & H).
  assert (Hearlier : earlier <> []).
  { intros ->. vm_compute in Htrace. discriminate Htrace. }
  unfold firstDfFails in H at 1.
  rewrite String.eqb_refl in H.
  destruct earlier as [|c earlier']; [contradiction|].
  destruct H as [_ H].
  exact (proj2 H).
Defined.

(** C2, as stated, fails: when only the disk status taken before cannot be
    read, the recovered space is still reported as a number, the whole
    available space, computed with 0 for the missing figure. *)
Lemma recovered_space_from_missing_capture :
  let result := fst (run (handleFullCleanupWorkflow None Args.empty) firstDfFails) in
  Json.get "before" result = obj [("error", VStr "Command failed: df -h / | tail -1")]
  /\ Json.get "available" (Json.get "after" result) = VStr "250Gi"
  /\ Json.get "totalRecovered" result = VStr "250.0G".
Proof.
  vm_compute. repeat split.
Qed.

(** *** Dry runs *)

Lemma reaches_issued (trace h pre : list string) (cmd : string) (later : list string) :
  reaches trace (h ++ pre ++ cmd :: later) -> issuedAfter trace (h ++ pre) cmd.
Proof.
  intros [rest ->]. exists (later ++ rest)%list.
  rewrite <- !app_assoc. reflexivity.
Qed.

Lemma reaches_earlier (trace h later : list string) :
  reaches trace (h ++ later) -> reaches trace h.
Proof.
  intros [rest ->]. exists (later ++ rest)%list. rewrite app_assoc. reflexivity.
Qed.

(** A measuring command that both runs issue, after the commands [pre] of
    a step in the real run and after the measuring commands [pre'] among
    them in the dry run. *)
Lemma alike_at (sh : shell) (real dry : list string) (hr pre pre' : list string)
      (cmd : string) (laterR laterD : list string) :
  answersAlike sh real dry ->
  List.filter measuring pre = pre' ->
  measuring cmd = true ->
  reaches real (hr ++ pre ++ cmd :: laterR) ->
  reaches dry (List.filter measuring hr ++ pre' ++ cmd :: laterD) ->
  sh (hr ++ pre)%list cmd = sh (List.filter measuring hr ++ pre')%list cmd.
Proof.
  intros Halike <- Hm Hr Hd.
  rewrite <- filter_app in *.
  apply Halike; [exact Hm|exact (reaches_issued _ _ _ _ _ Hr)|].
  destruct Hd as [rest ->]. exists (laterD ++ rest)%list.
  rewrite filter_app, <- !app_assoc. reflexivity.
Qed.

Lemma alike_first (sh : shell) (real dry : list string) (hr : list string)
      (cmd : string) (laterR laterD : list string) :
  answersAlike sh real dry ->
  measuring cmd = true ->
  reaches real (hr ++ cmd :: laterR) ->
  reaches dry (List.filter measuring hr ++ cmd :: laterD) ->
  sh hr cmd = sh (List.filter measuring hr) cmd.
Proof.
  intros Halike Hm Hr Hd.
  pose proof (alike_at sh real dry hr [] [] cmd laterR laterD Halike eq_refl Hm Hr Hd)
    as H.
  rewrite !app_nil_r in H. exact H.
Qed.

Lemma succeeds_at (sh : shell) (real : list string) (hr pre : list string)
      (cmd : string) (later : list string) :
  cleaningSucceeds sh real ->
  measuring cmd = false ->
  reaches real (hr ++ pre ++ cmd :: later) ->
  exists out, sh (hr ++ pre)%list cmd = Stdout out.
Proof.
  intros Hsucceeds Hm Hr.
  apply Hsucceeds; [exact Hm|exact (reaches_issued _ _ _ _ _ Hr)].
Qed.

Lemma succeeds_first (sh : shell) (real : list string) (hr : list string)
      (cmd : string) (later : list string) :
  cleaningSucceeds sh real ->
  measuring cmd = false ->
  reaches real (hr ++ cmd :: later) ->
  exists out, sh hr cmd = Stdout out.
Proof.
  intros Hsucceeds Hm Hr.
  destruct (succeeds_at sh real hr [] cmd later Hsucceeds Hm Hr) as [out H].
  rewrite app_nil_r in H. exists out. exact H.
Qed.

(** The outcome [E] of a measuring command of the real run is that of the
    same command in the dry run, by [Ha]. *)
Ltac compare_outcome E Ha :=
  match goal with
  | Ed : _ = _ |- _ =>
      let Hc := fresh "Hc" in
      pose proof (eq_trans (eq_sym E) (eq_trans Ha Ed)) as Hc;
      first [ discriminate Hc | injection Hc as Hc; subst ]
  end.

(** The cleaning command with the outcome [E] has succeeded, by [Hs]. *)
Ltac succeeded E Hs :=
  let out := fresh "out" in
  destruct Hs as [out Hs]; rewrite E in Hs;
  first [ discriminate Hs | clear Hs ].

(** The next command of the real run, issued after [hr] and the commands
    of the step before it: [alikeAt] and [alikeFirst] compare a measuring
    command with the dry run, [succeedsAt] and [succeedsFirst] make a
    cleaning command succeed. *)
Ltac real_command hr Hreal Hdry alikeAt alikeFirst succeedsAt succeedsFirst :=
  match goal with
  | E : _ (hr ++ ?pre)%list ?c = _ |- _ =>
      first [ let Ha := fresh "Ha" in
              pose proof (alikeAt hr pre _ c _ _ eq_refl eq_refl Hreal Hdry) as Ha;
              compare_outcome E Ha
            | let Hs := fresh "Hs" in
              pose proof (succeedsAt hr pre c _ eq_refl Hreal) as Hs;
              succeeded E Hs ];
      try clear E
  | E : _ hr ?c = _ |- _ =>
      first [ let Ha := fresh "Ha" in
              pose proof (alikeFirst hr c _ _ eq_refl Hreal Hdry) as Ha;
              compare_outcome E Ha
            | let Hs := fresh "Hs" in
              pose proof (succeedsFirst hr c _ eq_refl Hreal) as Hs;
              succeeded E Hs ];
      try clear E
  end.

Ltac mirror alikeAt alikeFirst succeedsAt succeedsFirst :=
  let hr := fresh "hr" in
  intros hr;
  repeat first [ progress unfold catch, andThen, done, bind, ret, unlessDry, skipped,
                   errorRecord
               | rewrite exec_run | progress cbv beta iota | progress cbn [negb]
               | case_outcome ];
  cbn [fst snd]; rewrite <- ?app_assoc in *; cbn [app] in *;
  let Hreal := fresh "Hreal" in
  let Hdry := fresh "Hdry" in
  intros Hreal Hdry;
  repeat real_command hr Hreal Hdry alikeAt alikeFirst succeedsAt succeedsFirst;
  (split; [rewrite ?filter_app; first [apply app_nil_r|reflexivity]|reflexivity]).

Lemma step_mirrors (sh : shell) (real dry : list string) (HOME : option string)
      (v : bool) :
  answersAlike sh real dry ->
  cleaningSucceeds sh real ->
  mirrors sh real dry (trashStep false) (trashStep true)
  /\ mirrors sh real dry (goStep false) (goStep true)
  /\ mirrors sh real dry (brewStep false) (brewStep true)
  /\ mirrors sh real dry (chromeStep HOME false) (chromeStep HOME true)
  /\ mirrors sh real dry (spotifyStep HOME false) (spotifyStep HOME true)
  /\ mirrors sh real dry (npmStep false) (npmStep true)
  /\ mirrors sh real dry (pipStep false) (pipStep true)
  /\ mirrors sh real dry (dockerStep v false) (dockerStep v true).
Proof.
  intros Halike Hsucceeds.
  pose proof (fun hr pre pre' c lr ld Hp =>
                alike_at sh real dry hr pre pre' c lr ld Halike Hp) as alikeAt.
  pose proof (fun hr c lr ld => alike_first sh real dry hr c lr ld Halike) as alikeFirst.
  pose proof (fun hr pre c l => succeeds_at sh real hr pre c l Hsucceeds) as succeedsAt.
  pose proof (fun hr c l => succeeds_first sh real hr c l Hsucceeds) as succeedsFirst.
  split; [|split; [|split; [|split; [|split; [|split; [|split]]]]]].
  - unfold trashStep. mirror alikeAt alikeFirst succeedsAt succeedsFirst.
  - unfold goStep. mirror alikeAt alikeFirst succeedsAt succeedsFirst.
  - unfold brewStep. mirror alikeAt alikeFirst succeedsAt succeedsFirst.
  - unfold chromeStep, directoryStep. mirror alikeAt alikeFirst succeedsAt succeedsFirst.
  - unfold spotifyStep, directoryStep. mirror alikeAt alikeFirst succeedsAt succeedsFirst.
  - unfold npmStep, packageStep. mirror alikeAt alikeFirst succeedsAt succeedsFirst.
  - unfold pipStep, packageStep. mirror alikeAt alikeFirst succeedsAt succeedsFirst.
  - unfold dockerStep. destruct v; mirror alikeAt alikeFirst succeedsAt succeedsFirst.
Qed.

Lemma steps_mirror (sh : shell) (real dry : list string) HOME i v :
  answersAlike sh real dry ->
  cleaningSucceeds sh real ->
  Forall2 (mirrors sh real dry) (workflowSteps HOME i v false) (workflowSteps HOME i v true).
Proof.
  intros Halike Hsucceeds.
  destruct (step_mirrors sh real dry HOME v Halike Hsucceeds)
    as (Htrash & Hgo & Hbrew & Hchrome & Hspotify & Hnpm & Hpip & Hdocker).
  unfold workflowSteps. apply Forall2_app.
  - repeat (constructor; [assumption|]). constructor.
  - destruct i; constructor; [assumption|constructor].
Qed.

Lemma runSteps_mirror (sh : shell) (real dry : list string)
      (realSteps drySteps : list (Exec value)) :
  Forall2 (mirrors sh real dry) realSteps drySteps ->
  Forall (issues (fun _ => True)) realSteps ->
  Forall (issues (fun _ => True)) drySteps ->
  forall hr,
    reaches real (snd (runSteps realSteps sh hr)) ->
    reaches dry (snd (runSteps drySteps sh (List.filter measuring hr))) ->
    List.filter measuring (snd (runSteps realSteps sh hr))
    = snd (runSteps drySteps sh (List.filter measuring hr))
    /\ fst (runSteps drySteps sh (List.filter measuring hr))
       = map dryView (fst (runSteps realSteps sh hr)).
Proof.
  induction 1 as [|r d realSteps drySteps Hrd _ IH]; intros Hr Hd hr;
    [split; reflexivity|].
  inversion Hr as [|? ? _ Hr']; subst. inversion Hd as [|? ? _ Hd']; subst.
  cbn [runSteps]. specialize (Hrd hr).
  destruct (r sh hr) as [vr hr1].
  destruct (d sh (List.filter measuring hr)) as [vd hd1].
  destruct (runSteps_issues _ _ Hr' sh hr1) as (laterR & Er & _).
  destruct (runSteps_issues _ _ Hd' sh hd1) as (laterD & Ed & _).
  specialize (IH Hr' Hd' hr1).
  destruct (runSteps realSteps sh hr1) as [vsr hr2].
  cbn [fst snd] in *. subst hr2.
  intros Hreal Hdry.
  assert (Hdry1 : reaches dry hd1).
  { destruct (runSteps drySteps sh hd1) as [vsd hd2]. cbn [snd] in *. subst hd2.
    exact (reaches_earlier _ _ _ Hdry). }
  destruct (Hrd (reaches_earlier _ _ _ Hreal) Hdry1) as [Ht Hv]. subst hd1 vd.
  destruct (runSteps drySteps sh _) as [vsd hd2].
  cbn [fst snd] in *.
  destruct (IH Hreal Hdry) as [Ht' Hv'].
  subst. split; [exact Ht'|reflexivity].
Qed.

Lemma steps_issue_measuring HOME i v :
  Forall (issues (fun c => measuring c = true)) (workflowSteps HOME i v true).
Proof.
  unfold workflowSteps.
  apply Forall_app. split.
  - repeat constructor; intros sh h;
      unfold trashStep, goStep, brewStep, chromeStep, spotifyStep, directoryStep,
        npmStep, pipStep, packageStep;
      crunch; solve_issues.
  - destruct i; repeat constructor.
    intros sh h. unfold dockerStep. destruct v; crunch; solve_issues.
Qed.

(** C3.  A dry run of the workflow issues measuring commands only: the
    disk status, [du -sh] of a directory, [go env GOCACHE] and the usage
    of Docker; they are the disk status followed by the commands of the
    plans of a dry run, which hold no cleaning command.  Its step records
    carry the names of the real run in the same order.  When the measuring
    commands answer alike in the two runs and every cleaning command of the
    real run succeeds, the dry run issues the measuring commands of the
    real run up to its second disk status, and its step records are those
    of the real run with ["would clean"] for ["cleaned"] and without the
    [detail] that the real Homebrew step takes from the output of
    [brew cleanup]. *)
Theorem dry_run_mirrors_real_run (HOME : option string) (dry real : Args.t) (sh : shell) :
  Args.dryRun dry = Some true ->
  Args.orDefault (Args.dryRun real) false = false ->
  Args.includeDocker dry = Args.includeDocker real ->
  Args.includeDockerVolumes dry = Args.includeDockerVolumes real ->
  let d := run (handleFullCleanupWorkflow HOME dry) sh in
  let r := run (handleFullCleanupWorkflow HOME real) sh in
  Forall (fun c => measuring c = true) (snd d)
  /\ snd d
     = diskStatusCommand
         :: planned (workflowPlans HOME (Args.orDefault (Args.includeDocker real) false)
                       (Args.orDefault (Args.includeDockerVolumes real) false) true)
              sh [diskStatusCommand]
  /\ stepNames (fst d) = stepNames (fst r)
  /\ (answersAlike sh (snd r) (snd d) -> cleaningSucceeds sh (snd r) ->
      List.filter measuring (snd r) = (snd d ++ [diskStatusCommand])%list
      /\ stepsOf (fst d) = map dryView (stepsOf (fst r))).
Proof.
  intros Hdry Hreal Hdocker Hvolumes. cbv zeta. unfold run.
  rewrite !workflow_run. cbv zeta. cbn [fst snd].
  rewrite captureBefore_run. cbn [fst snd app].
  rewrite Hdry, Hreal, Hdocker, Hvolumes. cbn [Args.orDefault].
  set (i := Args.orDefault (Args.includeDocker real) false).
  set (v := Args.orDefault (Args.includeDockerVolumes real) false).
  remember (match sh [] diskStatusCommand with
            | Stdout out => diskStatus out
            | Failure message => obj [("error", VStr message)]
            end) as b eqn:Hbefore.
  pose proof (runSteps_names _ _ (steps_named HOME i v true) sh [diskStatusCommand])
    as Hnd.
  pose proof (runSteps_names _ _ (steps_named HOME i v false) sh [diskStatusCommand])
    as Hnr.
  destruct (runSteps_issues _ _ (steps_issue_measuring HOME i v) sh [diskStatusCommand])
    as (cmds & Htrace & Hmeasure).
  pose proof (runSteps_follow _ _ (steps_follow HOME i v true) sh [diskStatusCommand])
    as Hplanned.
  rewrite Htrace in Hplanned. apply app_inv_head in Hplanned.
  pose proof (fun R D (Ha : answersAlike sh R D) (Hs : cleaningSucceeds sh R) =>
                runSteps_mirror sh R D _ _
                  (steps_mirror sh R D HOME i v Ha Hs)
                  (steps_issue_anything HOME i v false)
                  (steps_issue_anything HOME i v true) [diskStatusCommand])
    as Hmirror.
  change (List.filter measuring [diskStatusCommand]) with [diskStatusCommand] in Hmirror.
  destruct (runSteps (workflowSteps HOME i v true) sh [diskStatusCommand]) as [vd hd].
  destruct (runSteps (workflowSteps HOME i v false) sh [diskStatusCommand]) as [vr hr].
  cbn [fst snd] in *. subst hd.
  rewrite !captureAfter_run.
  destruct (pushAll_frame vd (initialWorkflow true b)) as (_ & _ & _ & Hd).
  destruct (pushAll_frame vr (initialWorkflow false b)) as (_ & _ & _ & Hr).
  rewrite Hd, Hr. cbn [initialWorkflow wfDryRun fst snd].
  assert (Hsd : steps (pushAll vd (initialWorkflow true b)) = vd)
    by (rewrite pushAll_steps; reflexivity).
  assert (Hsr : steps (pushAll vr (initialWorkflow false b)) = vr)
    by (rewrite pushAll_steps; reflexivity).
  assert (Hrsteps : stepsOf
                      (workflowJson
                         match sh hr diskStatusCommand with
                         | Stdout out =>
                             setTotalRecovered
                               (Num.toFixed 1
                                  (Num.sub (availableGB (diskStatus out))
                                     (availableGB
                                        (before (pushAll vr (initialWorkflow false b)))))
                                ++ "G")
                               (setAfter (diskStatus out)
                                  (pushAll vr (initialWorkflow false b)))
                         | Failure message =>
                             setAfter (obj [("error", VStr message)])
                               (pushAll vr (initialWorkflow false b))
                         end) = vr).
  { destruct (sh hr diskStatusCommand); unfold stepsOf; cbn -[pushAll]; exact Hsr. }
  assert (Hdsteps : stepsOf
                      (workflowJson
                         (setAfter (obj [("note", VStr "Dry run - no changes made")])
                            (pushAll vd (initialWorkflow true b)))) = vd).
  { unfold stepsOf; cbn -[pushAll]; exact Hsd. }
  split; [|split; [|split]].
  - constructor; [reflexivity|exact Hmeasure].
  - rewrite Hplanned. reflexivity.
  - unfold stepNames. rewrite Hrsteps, Hdsteps. congruence.
  - intros Halike Hsucceeds. rewrite Hrsteps, Hdsteps.
    destruct (Hmirror _ _ Halike Hsucceeds) as [Ht Hv].
    + exists [diskStatusCommand]. reflexivity.
    + exists []. symmetry. apply app_nil_r.
    + split; [|exact Hv].
      rewrite filter_app, Ht. reflexivity.
Qed.

Lemma dry_run_mirrors_real_run_witness :
  stepsOf (fst (run (handleFullCleanupWorkflow None (dryRunOf true)) cleaningShows))
  = map dryView
      (stepsOf (fst (run (handleFullCleanupWorkflow None (dryRunOf false)) cleaningShows))).
Proof.
  refine (proj2 (proj2 (proj2 (proj2 (dry_run_mirrors_real_run None (dryRunOf true)
                                        (dryRunOf false) cleaningShows
                                        eq_refl eq_refl eq_refl eq_refl))) _ _)).
  - intros hr cmd _ [laterR Hr] [laterD Hd].
    let t := eval vm_compute in
               (snd (run (handleFullCleanupWorkflow None (dryRunOf false)) cleaningShows))
    in change (snd (run (handleFullCleanupWorkflow None (dryRunOf false)) cleaningShows))
         with t in Hr.
    let t := eval vm_compute in
               (snd (run (handleFullCleanupWorkflow None (dryRunOf true)) cleaningShows))
    in change (snd (run (handleFullCleanupWorkflow None (dryRunOf true)) cleaningShows))
         with t in Hd.
    repeat (destruct hr as [|? hr]; cbn [app] in Hr;
            [ injection Hr as <- _;
              first [ vm_compute; reflexivity
                    | exfalso; vm_compute in Hd; discriminate Hd ]
            | injection Hr as <- Hr ]).
    destruct hr; discriminate Hr.
  - intros hr cmd _ _. unfold cleaningShows.
    repeat match goal with
           | |- context [if ?b then _ else _] => destruct b
           end; eexists; reflexivity.
Defined.

(** C3, as stated, fails: on a machine where every command succeeds, the
    record of the Homebrew step of the real run has a [detail] that the dry
    run does not have, so putting ["would clean"] for ["cleaned"] does not
    turn the one into the other. *)
Lemma homebrew_detail_breaks_the_mirror :
  let sh := printing ("1.2G" ++ Str.tab ++ "/private/var" ++ Str.newline) in
  let dry := stepsOf (fst (run (handleFullCleanupWorkflow None (dryRunOf true)) sh)) in
  let real := stepsOf (fst (run (handleFullCleanupWorkflow None (dryRunOf false)) sh)) in
  nth 2 dry VNull
  = obj [("name", VStr "Homebrew Cache"); ("size", VStr "1.2G");
         ("status", VStr "would clean")]
  /\ nth 2 (map asDryRun real) VNull
     = obj [("name", VStr "Homebrew Cache"); ("size", VStr "1.2G");
            ("status", VStr "would clean"); ("detail", VStr ("1.2G" ++ Str.tab ++ "/private/var"))]
  /\ dry <> map asDryRun real.
Proof.
  cbv zeta. split; [reflexivity|]. split; [reflexivity|].
  intros H. apply (f_equal (fun l => nth 2 l VNull)) in H.
  vm_compute in H. discriminate H.
Qed.

(** *** Failures *)

Lemma registered_names (n : string) :
  (forall t, In t Registry.tools -> Registry.name t <> n) ->
  forall HOME args, route HOME n args = None.
Proof.
  intros Hn HOME args. unfold route.
  repeat match goal with
         | |- context [String.eqb n ?s] =>
             destruct (String.eqb_spec n s) as [E|_];
             [exfalso; symmetry in E; revert E; apply (Hn (toolNamed s));
              repeat first [left; reflexivity | right]|]
         end.
  reflexivity.
Qed.

Ltac in_band :=
  cbn [fst snd];
  repeat match goal with
         | |- context [(?h ++ [?a; ?b])%list] =>
             replace (h ++ [a; b])%list with ((h ++ [a]) ++ [b])%list
               by (rewrite <- app_assoc; reflexivity)
         end;
  intros (earlier & cmd & Htrace & Hlen & Hfail);
  first [ exfalso; apply (f_equal (@List.length string)) in Htrace;
          rewrite ?length_app in Htrace; cbn in Htrace; lia
        | apply app_inj_tail in Htrace; destruct Htrace as [<- <-];
          cbn; congruence ].

Lemma single_block_in_band (HOME : option string) (n : string) (args : option Args.t)
      (handler : Exec value) (sh : shell) (h : list string) (message : string) :
  In n singleBlockTools ->
  route HOME n args = Some handler ->
  endedBy sh h (snd (handler sh h)) message ->
  Json.get "error" (fst (handler sh h)) = VStr message.
Proof.
  intros Hn Hroute.
  set (a := match args with Some a => a | None => Args.empty end).
  repeat (destruct Hn as [<-|Hn];
          [cbn in Hroute; injection Hroute as <-; fold a|]);
    [ | | | | | | | | | | | |contradiction].
  - unfold handleDiskUsage. crunch; in_band.
  - unfold handleGoCacheStatus. crunch; in_band.
  - unfold handleDockerCleanup.
    destruct (Args.orDefault (Args.dryRun a) false),
      (Args.orDefault (Args.includeVolumes a) false); crunch; in_band.
  - unfold handleMemoryStatus. crunch; in_band.
  - unfold handleEmptyTrash.
    destruct (Args.orDefault (Args.dryRun a) false); crunch; in_band.
  - unfold handleCpuUsage. crunch; in_band.
  - unfold handleBatteryHealth. crunch; in_band.
  - unfold handleSystemInfo. crunch; in_band.
  - unfold handleProcessList. crunch; in_band.
  - destruct (pidGiven (Args.pid a)) as [p|] eqn:Hp.
    + rewrite (handleKillProcess_by_pid a p sh h Hp). cbv zeta. case_outcome; in_band.
    + destruct (nameGiven (Args.name a)) as [nm|] eqn:Hnm.
      * rewrite (handleKillProcess_by_name a nm sh h Hp Hnm). cbv zeta.
        case_outcome; [destruct (Str.trim out); [|case_outcome]|]; in_band.
      * rewrite (handleKillProcess_neither a sh h Hp Hnm). in_band.
  - unfold handleStartupItems. crunch; in_band.
  - unfold handleNetworkStatus. crunch; in_band.
Qed.

(** C4.  A call of a registered tool always ends with a response, whatever
    the commands do: no failure of a command is thrown past the dispatcher,
    and the call is thrown only for a name that is not registered, before
    any command.  A failure that ends the handler of a single-block tool is
    returned in band, as the [error] of the result.  The other handlers
    record a failure per entry or per step, or drop it. *)
Theorem failures_stay_in_band (HOME : option string) (n : string)
        (args : option Args.t) (sh : shell) (h : list string) :
  ((exists t, In t Registry.tools /\ Registry.name t = n) ->
   exists handler,
     route HOME n args = Some handler
     /\ callTool HOME n args sh h
        = (Response (content (fst (handler sh h))), snd (handler sh h))
     /\ (In n singleBlockTools ->
         forall message,
           endedBy sh h (snd (handler sh h)) message ->
           Json.get "error" (fst (handler sh h)) = VStr message))
  /\ ((forall t, In t Registry.tools -> Registry.name t <> n) ->
      callTool HOME n args sh h = (Thrown ("Unknown tool: " ++ n), h)).
Proof.
  split.
  - intros (t & Hin & <-).
    assert (Hroute : exists handler, route HOME (Registry.name t) args = Some handler).
    { repeat (destruct Hin as [<-|Hin]; [eexists; reflexivity|]). contradiction. }
    destruct Hroute as [handler Hroute]. exists handler.
    split; [exact Hroute|]. split.
    + unfold callTool. rewrite Hroute. unfold bind, ret.
      destruct (handler sh h); reflexivity.
    + intros Hsingle message.
      exact (single_block_in_band HOME _ args handler sh h message Hsingle Hroute).
  - intros Hn. unfold callTool.
    rewrite (registered_names n Hn). reflexivity.
Qed.

Lemma failures_stay_in_band_witness :
  callTool None "mac_go_cache_status" None
    (failingOn "go env GOCACHE" "Command failed: go env GOCACHE" EmptyString) []
  = (Response (content (obj [("error", VStr "Command failed: go env GOCACHE");
                             ("note", VStr "Go may not be installed")])),
     ["go env GOCACHE"])
  /\ callTool None "mac_unknown" None quiet [] = (Thrown "Unknown tool: mac_unknown", []).
Proof.
  split.
  - destruct (proj1 (failures_stay_in_band None "mac_go_cache_status" None
                       (failingOn "go env GOCACHE" "Command failed: go env GOCACHE"
                          EmptyString) []))
      as (handler & Hroute & Hcall & _).
    + exists (toolNamed "mac_go_cache_status"). split; [|reflexivity].
      right. left. reflexivity.
    + injection Hroute as <-. exact Hcall.
  - apply (proj2 (failures_stay_in_band None "mac_unknown" None quiet [])).
    intros t Hin.
    repeat (destruct Hin as [<-|Hin]; [discriminate|]). contradiction.
Defined.

(** C4, as stated, fails: when the Homebrew cache cannot be measured, the
    workflow answers without an [error]; the step is recorded as skipped
    and the message of the failure appears nowhere in the response. *)
Lemma skipped_step_drops_the_message :
  let result := fst (run (handleFullCleanupWorkflow None Args.empty) homebrewMissing) in
  fst (run (callTool None "mac_full_cleanup_workflow" None) homebrewMissing)
  = Response (content result)
  /\ Json.get "error" result = VUndefined
  /\ nth 2 (stepsOf result) VNull
     = obj [("name", VStr "Homebrew Cache"); ("status", VStr "skipped")]
  /\ match stringify result with
     | VStr text => Str.includes "Command failed" text
     | _ => true
     end = false.
Proof.
  cbv zeta. repeat split; vm_compute; reflexivity.
Qed.


(** ** Behaviour of the other handlers *)

Import Behaviour.

(** *** The commands a computation adds *)

Lemma adds_ret {A : Type} (Q : string -> Prop) (a : A) : adds Q (ret a).
Proof.
  intros sh h. exists []. split; [symmetry; apply app_nil_r|constructor].
Qed.

Lemma adds_bind {A B : Type} (Q : string -> Prop) (m : Exec A) (k : A -> Exec B) :
  adds Q m -> (forall a, adds Q (k a)) -> adds Q (bind m k).
Proof.
  intros Hm Hk sh h. unfold bind.
  destruct (Hm sh h) as (c1 & E1 & Q1).
  destruct (m sh h) as [a h1]. cbn [snd] in E1. subst h1.
  destruct (Hk a sh (h ++ c1)%list) as (c2 & E2 & Q2).
  exists (c1 ++ c2)%list. rewrite E2. split; [symmetry; apply app_assoc|].
  apply Forall_app. split; assumption.
Qed.

Lemma adds_exec (Q : string -> Prop) (cmd : string) : Q cmd -> adds Q (exec cmd).
Proof.
  intros Hq sh h. rewrite exec_run. exists [cmd]. split; [reflexivity|].
  constructor; [exact Hq|constructor].
Qed.

Lemma adds_done {A : Type} (Q : string -> Prop) (a : A) : adds Q (done a).
Proof. apply adds_ret. Qed.

Lemma adds_andThen {A B : Type} (Q : string -> Prop) (m : Try A) (k : A -> Try B) :
  adds Q m -> (forall a, adds Q (k a)) -> adds Q (andThen m k).
Proof.
  intros Hm Hk. apply adds_bind; [exact Hm|].
  intros [a|e]; [apply Hk|apply adds_ret].
Qed.

Lemma adds_catch {A : Type} (Q : string -> Prop) (body : Try A) (handler : string -> Exec A) :
  adds Q body -> (forall e, adds Q (handler e)) -> adds Q (catch body handler).
Proof.
  intros Hb Hh. apply adds_bind; [exact Hb|].
  intros [a|e]; [apply adds_ret|apply Hh].
Qed.

Lemma adds_lift {A : Type} (Q : string -> Prop) (m : Exec A) : adds Q m -> adds Q (lift m).
Proof.
  intros Hm. apply adds_bind; [exact Hm|]. intros a. apply adds_ret.
Qed.

Lemma adds_foldM {A B : Type} (Q : string -> Prop) (f : B -> A -> Exec B) (xs : list A) :
  (forall b x, adds Q (f b x)) -> forall b, adds Q (foldM f xs b).
Proof.
  intros Hf. induction xs as [|x xs IH]; intros b; cbn [foldM].
  - apply adds_ret.
  - apply adds_bind; [apply Hf|exact IH].
Qed.

(** The structure of a handler is followed down to its commands, which are
    left as goals.  The rules are those of [ret], [done], [exec], [bind],
    [andThen], [catch], [lift] and [foldM]. *)
Ltac follow ret_ done_ exec_ bind_ andThen_ catch_ lift_ foldM_ :=
  repeat first
    [ apply ret_ | apply done_
    | apply exec_
    | apply bind_; [|intros ?]
    | apply andThen_; [|intros ?]
    | apply catch_; [|intros ?]
    | apply lift_
    | apply foldM_; intros ? ?
    | progress unfold errorRecord, unlessDry, record
    | progress cbn [negb]
    | match goal with
      | |- ?f (if ?b then _ else _) => destruct b eqn:?
      | |- ?f (match ?x with _ => _ end) => destruct x eqn:?
      | |- ?f (let '(_, _) := ?p in _) => destruct p
      end ].

(** X1.  Every command of the twelve monitoring tools starts with the
    invocation of an inspection program: none of them issues a command
    that starts with [rm], [kill], [go clean], [brew], [npm], [pip] or a
    prune of Docker, whatever the arguments and whatever the machine
    answers. *)
Theorem monitoring_tools_only_inspect (HOME : option string) (n : string)
        (args : option Args.t) (handler : Exec value) :
  In n monitoringTools ->
  route HOME n args = Some handler ->
  adds (fun cmd => inspects cmd = true) handler.
Proof.
  intros Hn Hroute.
  set (a := match args with Some a => a | None => Args.empty end).
  repeat (destruct Hn as [<-|Hn];
          [cbn in Hroute; injection Hroute as <-; fold a|]);
    [ | | | | | | | | | | | |contradiction].
  all: unfold handleDiskUsage, handleGoCacheStatus, handleMemoryStatus,
         handleCleanupRecommendations, checkDisk, checkGoCache, checkTrash, checkDocker,
         checkHomebrew, handleAnalyzeLibrary, categoryOf, knownCache, measureDir,
         handleCpuUsage, handleThermalStatus, handleBatteryHealth, handleSystemInfo,
         handleProcessList, handleStartupItems, handleNetworkStatus.
  all: try destruct (Args.orDefault (Args.filter a) EmptyString).
  all: follow (@adds_ret) (@adds_done) (@adds_exec) (@adds_bind) (@adds_andThen)
      (@adds_catch) (@adds_lift) (@adds_foldM);
    reflexivity.
Qed.

Lemma monitoring_tools_only_inspect_witness :
  adds (fun cmd => inspects cmd = true) handleSystemInfo.
Proof.
  apply (monitoring_tools_only_inspect None "mac_system_info" None).
  - do 8 right. left. reflexivity.
  - reflexivity.
Defined.

(** *** Dry runs of the single cleaners *)

(** X2.  cleanup_docker first reads the usage.  A dry run issues nothing
    else, whatever [includeVolumes] says; nothing is pruned when the usage
    cannot be read; volumes are pruned only in a real run with
    [includeVolumes]. *)
Theorem docker_cleanup_prunes_on_request (a : Args.t) (sh : shell) (h : list string) :
  let dryRun := Args.orDefault (Args.dryRun a) false in
  let includeVolumes := Args.orDefault (Args.includeVolumes a) false in
  exists cmds,
    snd (handleDockerCleanup a sh h) = (h ++ dockerUsageCommand :: cmds)%list
    /\ (dryRun = true -> cmds = [])
    /\ ((forall out, sh h dockerUsageCommand <> Stdout out) -> cmds = [])
    /\ (In volumePruneCommand cmds -> includeVolumes = true /\ dryRun = false).
Proof.
  cbv zeta. unfold handleDockerCleanup, dockerUsageCommand, volumePruneCommand.
  destruct (Args.orDefault (Args.dryRun a) false),
    (Args.orDefault (Args.includeVolumes a) false);
    crunch; cbn [snd]; rewrite <- ?app_assoc; cbn [app];
    eexists; (split; [reflexivity|]);
    (split; [intros E; first [reflexivity|discriminate E]|]);
    (split; [intros E;
             first [ reflexivity
                   | exfalso; exact (E _ eq_refl) ]|]);
    cbn [In]; intros E;
    repeat match type of E with
           | _ \/ _ => destruct E as [E|E]
           end;
    first [contradiction | discriminate E | split; reflexivity].
Qed.

(** X3.  A volume prune that ran and printed nothing is reported as
    ["skipped"], as if it had not been asked for. *)
Theorem silent_volume_prune_reads_as_skipped (a : Args.t) (sh : shell)
        (usage pruned usage' : string) :
  Args.orDefault (Args.dryRun a) false = false ->
  Args.orDefault (Args.includeVolumes a) false = true ->
  sh [] dockerUsageCommand = Stdout usage ->
  sh [dockerUsageCommand] dockerPruneCommand = Stdout pruned ->
  sh [dockerUsageCommand; dockerPruneCommand] volumePruneCommand = Stdout EmptyString ->
  sh [dockerUsageCommand; dockerPruneCommand; volumePruneCommand] dockerUsageCommand
  = Stdout usage' ->
  run (handleDockerCleanup a) sh
  = (obj [("before", VStr usage); ("after", VStr usage'); ("pruneResult", VStr pruned);
          ("volumeResult", VStr "skipped")],
     [dockerUsageCommand; dockerPruneCommand; volumePruneCommand; dockerUsageCommand]).
Proof.
  intros Hdry Hvol H1 H2 H3 H4.
  unfold run, handleDockerCleanup. rewrite Hdry, Hvol.
  unfold dockerUsageCommand, dockerPruneCommand, volumePruneCommand in *.
  unfold catch, andThen, done, bind, ret.
  rewrite exec_run. cbn [app]. rewrite H1.
  rewrite exec_run. cbn [app]. rewrite H2.
  rewrite exec_run. cbn [app]. rewrite H3.
  rewrite exec_run. cbn [app]. rewrite H4.
  reflexivity.
Qed.

Lemma silent_volume_prune_reads_as_skipped_witness :
  Json.get "volumeResult"
    (fst (run (handleDockerCleanup (Args.put "includeVolumes" (VBool true) Args.empty))
              silentVolumePrune))
  = VStr "skipped".
Proof.
  rewrite (silent_volume_prune_reads_as_skipped
             (Args.put "includeVolumes" (VBool true) Args.empty) silentVolumePrune
             ("TYPE TOTAL" ++ Str.newline) ("TYPE TOTAL" ++ Str.newline)
             ("TYPE TOTAL" ++ Str.newline)
             eq_refl eq_refl eq_refl eq_refl eq_refl eq_refl).
  reflexivity.
Defined.

(** X4.  empty_trash measures the trash first and empties it only in a
    real run whose measurement succeeded. *)
Theorem trash_is_emptied_only_after_measuring (a : Args.t) (sh : shell) (h : list string) :
  let dryRun := Args.orDefault (Args.dryRun a) false in
  exists cmds,
    snd (handleEmptyTrash a sh h) = (h ++ trashSizeCommand :: cmds)%list
    /\ (In trashCleaning cmds <->
        dryRun = false /\ exists size, sh h trashSizeCommand = Stdout size)
    /\ (forall c, In c cmds -> c = trashCleaning).
Proof.
  cbv zeta. unfold handleEmptyTrash, trashSizeCommand, trashCleaning.
  destruct (Args.orDefault (Args.dryRun a) false);
    crunch; cbn [snd]; rewrite <- ?app_assoc; cbn [app];
    eexists; (split; [reflexivity|]); cbn [In];
    (split; [split|]);
    try solve [ intros [E|[]]; split; [reflexivity|eexists; reflexivity]
              | intros []
              | intros [E1 [size E2]]; first [discriminate E1 | discriminate E2]
              | intros _; left; reflexivity
              | intros c [<-|[]]; reflexivity
              | intros c [] ].
Qed.

(** *** developer_cleanup *)


(** X6.  Without any of its three flags developer_cleanup does nothing: the
    result is the empty object and no command is issued. *)
Theorem developer_cleanup_without_flags (HOME : option string) (a : Args.t)
        (sh : shell) (h : list string) :
  Args.orDefault (Args.cleanNodeModules a) false = false ->
  Args.orDefault (Args.cleanXcode a) false = false ->
  Args.orDefault (Args.cleanPyenvOldVersions a) false = false ->
  handleDeveloperCleanup HOME a sh h = (obj [], h).
Proof.
  intros Hn Hx Hp. unfold handleDeveloperCleanup. rewrite Hn, Hx, Hp. reflexivity.
Qed.

Lemma developer_cleanup_without_flags_witness :
  handleDeveloperCleanup None Args.empty quiet [] = (obj [], []).
Proof.
  apply (developer_cleanup_without_flags None Args.empty quiet []); reflexivity.
Defined.

Lemma nodeModules_bounded (dirs : list string) (info : list value)
      (sh : shell) (h : list string) :
  (List.length (fst (foldM nodeModulesOf dirs info sh h))
   <= List.length info + List.length dirs)%nat.
Proof.
  revert info h. induction dirs as [|dir dirs IH]; intros info h; cbn [foldM].
  - unfold ret. cbn. lia.
  - unfold bind.
    assert (Hone : (List.length (fst (nodeModulesOf info dir sh h))
                    <= S (List.length info))%nat).
    { unfold nodeModulesOf. crunch; cbn [fst]; rewrite ?length_app; cbn; lia. }
    destruct (nodeModulesOf info dir sh h) as [info1 h1]. cbn [fst] in Hone.
    specialize (IH info1 h1). cbn [List.length]. lia.
Qed.

Lemma nodeModules_entry (HOME : option string) (a : Args.t)
      (sh : shell) (h : list string) (stdout : string) :
  Args.orDefault (Args.cleanNodeModules a) false = true ->
  sh h findNodeModules = Stdout stdout ->
  exists analyzed,
    Json.get "nodeModules" (fst (handleDeveloperCleanup HOME a sh h))
    = obj [("found", VNum (Num.ofZ (Z.of_nat (List.length (nonEmptyLines stdout)))));
           ("analyzed", VArr analyzed);
           ("dryRun", VBool (Args.orDefault (Args.dryRun a) true))]
    /\ (List.length analyzed <= Nat.min 10 (List.length (nonEmptyLines stdout)))%nat.
Proof.
  intros Hn Hfind. unfold handleDeveloperCleanup, findNodeModules in *.
  rewrite Hn.
  assert (Hlen : forall h',
             (List.length
                (fst (foldM nodeModulesOf (firstn 10 (nonEmptyLines stdout)) [] sh h'))
              <= Nat.min 10 (List.length (nonEmptyLines stdout)))%nat).
  { intros h'.
    pose proof (nodeModules_bounded (firstn 10 (nonEmptyLines stdout)) [] sh h') as H.
    rewrite length_firstn in H. exact H. }
  unfold bind at 1. unfold ret at 1. cbv beta iota.
  unfold bind at 1. unfold bind at 1. unfold catch at 1. unfold bind at 1.
  unfold andThen at 1. unfold bind at 1.
  rewrite exec_run, Hfind. cbv beta iota.
  unfold andThen at 1. unfold bind at 1. unfold lift at 1. unfold bind at 1.
  match goal with
  | |- context [foldM nodeModulesOf ?xs ?b sh ?h'] =>
      specialize (Hlen h'); destruct (foldM nodeModulesOf xs b sh h') as [analyzed h1]
  end.
  cbn [fst] in Hlen. exists analyzed. split; [|exact Hlen].
  destruct (Args.orDefault (Args.cleanXcode a) false),
    (Args.orDefault (Args.cleanPyenvOldVersions a) false),
    (Args.orDefault (Args.dryRun a) true);
    repeat first [ progress crunch
                 | match goal with
                   | |- context [foldM ?f ?xs ?b ?s ?h'] =>
                       destruct (foldM f xs b s h')
                   end ];
    reflexivity.
Qed.

(** X7.  However many node_modules directories [find] reports, at most
    ten of them are analysed, while [found] counts them all. *)
Theorem node_modules_analysis_is_capped (HOME : option string) (a : Args.t)
        (sh : shell) (h : list string) (stdout : string) :
  Args.orDefault (Args.cleanNodeModules a) false = true ->
  sh h findNodeModules = Stdout stdout ->
  let entry := Json.get "nodeModules" (fst (handleDeveloperCleanup HOME a sh h)) in
  Json.get "found" entry = VNum (Num.ofZ (Z.of_nat (List.length (nonEmptyLines stdout))))
  /\ exists analyzed,
       Json.get "analyzed" entry = VArr analyzed
       /\ (List.length analyzed <= 10)%nat
       /\ (List.length analyzed <= List.length (nonEmptyLines stdout))%nat.
Proof.
  intros Hn Hfind. cbv zeta.
  destruct (nodeModules_entry HOME a sh h stdout Hn Hfind) as (analyzed & -> & Hlen).
  split; [reflexivity|].
  exists analyzed. split; [reflexivity|]. lia.
Qed.

Lemma node_modules_analysis_is_capped_witness :
  let sh := printing ("/a/node_modules" ++ Str.newline ++ "/b/node_modules"
                      ++ Str.newline) in
  Json.get "found"
    (Json.get "nodeModules"
       (fst (handleDeveloperCleanup None
               (Args.put "cleanNodeModules" (VBool true) Args.empty) sh [])))
  = VNum (Num.ofZ 2).
Proof.
  cbv zeta.
  exact (proj1 (node_modules_analysis_is_capped None
                  (Args.put "cleanNodeModules" (VBool true) Args.empty)
                  (printing ("/a/node_modules" ++ Str.newline ++ "/b/node_modules"
                             ++ Str.newline)) []
                  ("/a/node_modules" ++ Str.newline ++ "/b/node_modules" ++ Str.newline)
                  eq_refl eq_refl)).
Defined.

(** *** cleanup_recommendations *)

Ltac case_condition :=
  match goal with
  | |- context [if ?b then _ else _] => destruct b
  end.

Ltac appended :=
  cbn [fst snd]; rewrite <- ?app_assoc; cbn [app];
  first [ eexists; reflexivity
        | exists []; rewrite app_nil_r; reflexivity ].

Lemma checkDisk_run (recs : list value) (sh : shell) (h : list string) :
  exists extra,
    checkDisk recs sh h = ((recs ++ extra)%list, (h ++ [diskStatusCommand])%list).
Proof.
  unfold checkDisk, diskStatusCommand.
  repeat first [progress crunch | case_condition]; appended.
Qed.

Lemma checkGoCache_run (recs : list value) (sh : shell) (h : list string) :
  exists extra measured,
    checkGoCache recs sh h
    = ((recs ++ extra)%list, (h ++ goEnvCommand :: measured)%list)
    /\ (List.length measured <= 1)%nat.
Proof.
  unfold checkGoCache, goEnvCommand.
  repeat first [progress crunch | case_condition];
    cbn [fst snd]; rewrite <- ?app_assoc; cbn [app];
    first [ eexists; eexists; split; [reflexivity|cbn; lia]
          | exists []; eexists; rewrite app_nil_r; split; [reflexivity|cbn; lia] ].
Qed.

Lemma checkTrash_run (recs : list value) (sh : shell) (h : list string) :
  exists extra, checkTrash recs sh h = ((recs ++ extra)%list, (h ++ [trashProbe])%list).
Proof.
  unfold checkTrash, trashProbe.
  repeat first [progress crunch | case_condition]; appended.
Qed.

Lemma checkDocker_run (recs : list value) (sh : shell) (h : list string) :
  exists extra, checkDocker recs sh h = ((recs ++ extra)%list, (h ++ [dockerProbe])%list).
Proof.
  unfold checkDocker, dockerProbe.
  repeat first [progress crunch | case_condition]; appended.
Qed.

Lemma checkHomebrew_run (recs : list value) (sh : shell) (h : list string) :
  exists extra,
    checkHomebrew recs sh h = ((recs ++ extra)%list, (h ++ [homebrewProbe])%list).
Proof.
  unfold checkHomebrew, homebrewProbe.
  repeat first [progress crunch | case_condition]; appended.
Qed.

(** X8.  cleanup_recommendations never answers with an empty list, and a
    probe that fails never stops the later ones: the disk status, the Go
    environment, the trash, Docker and the Homebrew cache are always probed,
    in this order. *)
Theorem recommendations_probe_everything (sh : shell) (h : list string) :
  exists recs measured,
    handleCleanupRecommendations sh h
    = (obj [("recommendations", VArr recs)],
       (h ++ diskStatusCommand :: goEnvCommand
             :: measured ++ [trashProbe; dockerProbe; homebrewProbe])%list)
    /\ recs <> []
    /\ (List.length measured <= 1)%nat.
Proof.
  unfold handleCleanupRecommendations, bind.
  destruct (checkDisk_run [] sh h) as (e1 & ->).
  match goal with
  | |- context [checkGoCache ?r sh ?h'] =>
      destruct (checkGoCache_run r sh h') as (e2 & measured & -> & Hlen)
  end.
  match goal with
  | |- context [checkTrash ?r sh ?h'] => destruct (checkTrash_run r sh h') as (e3 & ->)
  end.
  match goal with
  | |- context [checkDocker ?r sh ?h'] => destruct (checkDocker_run r sh h') as (e4 & ->)
  end.
  match goal with
  | |- context [checkHomebrew ?r sh ?h'] =>
      destruct (checkHomebrew_run r sh h') as (e5 & ->)
  end.
  unfold ret.
  eexists. exists measured. split; [|split; [|exact Hlen]].
  - f_equal. rewrite <- !app_assoc. cbn [app]. reflexivity.
  - match goal with
    | |- match ?l with _ => _ end <> [] => destruct l; discriminate
    end.
Qed.

(** X9.  When no probe can be run at all, cleanup_recommendations
    answers that no cleanup is needed. *)
Theorem recommendations_on_a_dead_machine (sh : shell) (h : list string) :
  nothingWorks sh ->
  handleCleanupRecommendations sh h
  = (nothingToClean,
     (h ++ [diskStatusCommand; goEnvCommand; trashProbe; dockerProbe; homebrewProbe])%list).
Proof.
  intros Hdead.
  unfold handleCleanupRecommendations, checkDisk, checkGoCache, checkTrash, checkDocker,
    checkHomebrew, nothingToClean, diskStatusCommand, goEnvCommand, trashProbe, dockerProbe,
    homebrewProbe.
  unfold catch, andThen, done, bind, ret.
  repeat (rewrite exec_run; cbv beta iota;
          match goal with
          | |- context [sh ?h' ?c] =>
              let m := fresh "m" in
              let E := fresh "E" in
              destruct (Hdead h' c) as [m E]; rewrite E
          end).
  rewrite <- !app_assoc. reflexivity.
Qed.

Lemma recommendations_on_a_dead_machine_witness :
  fst (run handleCleanupRecommendations (broken "sh: command not found")) = nothingToClean.
Proof.
  unfold run.
  rewrite (recommendations_on_a_dead_machine (broken "sh: command not found") []).
  - reflexivity.
  - intros h cmd. eexists. reflexivity.
Defined.

(** *** analyze_library *)



(** *** battery_health *)

(** X11.  For every capacity from 0 to 200 percent the health note is
    "degraded" below 80, "some wear" from 80 to 89 and "good" from 90 on. *)
Theorem battery_health_thresholds (n : nat) :
  (n <= 200)%nat -> healthNote (percentText n) = healthOf n.
Proof.
  intros Hn.
  assert (Hall : forallb healthAgrees (seq 0 201) = true) by (vm_compute; reflexivity).
  rewrite forallb_forall in Hall.
  apply String.eqb_eq. apply Hall. apply in_seq. lia.
Qed.

Lemma battery_health_thresholds_witness :
  healthNote "75%" = "Battery capacity significantly degraded. Consider replacement."
  /\ healthNote "95%" = "Battery health good.".
Proof.
  split.
  - apply (battery_health_thresholds 75). lia.
  - apply (battery_health_thresholds 95). lia.
Defined.

(** X12.  When [system_profiler] shows no maximum capacity, the capacity
    is reported as N/A and the health note says that the battery health is
    good. *)
Theorem unknown_capacity_reads_as_good (sh : shell) (info batt : string) :
  sh [] profilerCommand = Stdout info ->
  sh [profilerCommand] batteryCommand = Stdout batt ->
  Str.firstMatch (percentAfter "Maximum Capacity: ") info = None ->
  let result := fst (run handleBatteryHealth sh) in
  Json.get "maxCapacity" result = VStr "N/A"
  /\ Json.get "healthNote" result = VStr "Battery health good.".
Proof.
  intros Hinfo Hbatt Hnone. cbv zeta.
  unfold run, handleBatteryHealth, profilerCommand, batteryCommand in *.
  unfold catch, andThen, done, bind, ret.
  rewrite exec_run, Hinfo. cbv beta iota. cbn [app].
  rewrite exec_run, Hbatt. cbv beta iota.
  rewrite Hnone. split; reflexivity.
Qed.

Lemma unknown_capacity_reads_as_good_witness :
  Json.get "healthNote" (fst (run handleBatteryHealth noBattery))
  = VStr "Battery health good.".
Proof.
  apply (unknown_capacity_reads_as_good noBattery ("Power:" ++ Str.newline)
           ("Now drawing from 'AC Power'" ++ Str.newline) eq_refl eq_refl eq_refl).
Defined.

(** *** thermal_status *)

(** X13.  When the thermal state can be read, thermal_status answers
    without an error whatever the temperature sensor does: a failing sensor
    leaves the fixed explanation as the temperature.  The state counts as
    not throttling as soon as the text 100 occurs anywhere in it. *)
Theorem thermal_status_without_sensor (sh : shell) (state : string) :
  sh [] thermalCommand = Stdout state ->
  let result := fst (run handleThermalStatus sh) in
  Json.get "error" result = VUndefined
  /\ snd (run handleThermalStatus sh) = [thermalCommand; sensorCommand]
  /\ Json.get "temperature" result
     = VStr (orElse "Temperature monitoring requires additional tools (e.g., osx-cpu-temp)"
                    (sh [thermalCommand] sensorCommand))
  /\ (Str.includes "100" state = true ->
      Json.get "isThrottling" result = VBool false
      /\ Json.get "recommendation" result = VStr "Thermal status normal.").
Proof.
  intros Hstate. cbv zeta.
  unfold run, handleThermalStatus, thermalCommand, sensorCommand, orElse in *.
  unfold catch, andThen, done, bind, ret, lift.
  rewrite exec_run, Hstate. cbv beta iota. cbn [app].
  unfold bind, ret. rewrite exec_run. cbn [app].
  destruct (sh _ "osx-cpu-temp 2>/dev/null") as [out|message]; cbv beta iota;
    cbn [fst snd];
    (split; [reflexivity|]); (split; [reflexivity|]); (split; [reflexivity|]);
    intros H100; cbn [Json.get obj Json.lookup String.eqb Ascii.eqb Bool.eqb];
    rewrite H100, andb_false_r; split; reflexivity.
Qed.

Lemma thermal_status_without_sensor_witness :
  Json.get "isThrottling" (fst (run handleThermalStatus throttled)) = VBool false.
Proof.
  apply (thermal_status_without_sensor throttled
           ("CPU_Scheduler_Limit = 100" ++ Str.newline ++ "CPU_Speed_Limit = 50"
            ++ Str.newline) eq_refl).
  reflexivity.
Defined.

(** *** network_status *)

(** X14.  When the interfaces can be listed, network_status runs all five
    probes in order: a failing WiFi or external address probe is replaced
    by a fixed text and does not stop the DNS and connection probes. *)
Theorem network_status_probes_past_failures (sh : shell) (interfaces dns count : string) :
  sh [] interfacesCommand = Stdout interfaces ->
  sh [interfacesCommand; airportCommand; externalIpCommand] dnsCommand = Stdout dns ->
  sh [interfacesCommand; airportCommand; externalIpCommand; dnsCommand] connectionsCommand
  = Stdout count ->
  run handleNetworkStatus sh
  = (obj [("interfaces", VStr (Str.trim interfaces));
          ("wifi", VStr (orElse "Not connected to WiFi"
                                (sh [interfacesCommand] airportCommand)));
          ("externalIp",
           VStr (orElse "Unable to determine"
                        (sh [interfacesCommand; airportCommand] externalIpCommand)));
          ("dnsServers", VStr (Str.trim dns));
          ("activeConnections", VNum (Num.parseInt (Str.trim count)))],
     [interfacesCommand; airportCommand; externalIpCommand; dnsCommand;
      connectionsCommand]).
Proof.
  intros Hif Hdns Hcount.
  unfold run, handleNetworkStatus, interfacesCommand, airportCommand, externalIpCommand,
    dnsCommand, connectionsCommand, orElse in *.
  unfold catch, andThen, done, bind, ret, lift.
  rewrite exec_run, Hif. cbv beta iota. cbn [app].
  unfold bind, ret. rewrite exec_run. cbn [app].
  match goal with
  | |- context [match sh ?h ?c with _ => _ end] => destruct (sh h c)
  end; cbv beta iota;
    (rewrite exec_run; cbn [app];
     match goal with
     | |- context [match sh ?h ?c with _ => _ end] => destruct (sh h c)
     end; cbv beta iota;
     rewrite exec_run; cbn [app]; rewrite Hdns; cbv beta iota;
     rewrite exec_run; cbn [app]; rewrite Hcount; reflexivity).
Qed.

Lemma network_status_probes_past_failures_witness :
  Json.get "wifi" (fst (run handleNetworkStatus offline)) = VStr "Not connected to WiFi"
  /\ Json.get "dnsServers" (fst (run handleNetworkStatus offline)) = VStr "12".
Proof.
  rewrite (network_status_probes_past_failures offline ("12" ++ Str.newline)
             ("12" ++ Str.newline) ("12" ++ Str.newline) eq_refl eq_refl eq_refl).
  split; reflexivity.
Defined.

(** *** full_cleanup_workflow *)

Lemma packageStep_dry (name cmd : string) (sh : shell) (h : list string) :
  packageStep name cmd true sh h
  = (obj [("name", VStr name); ("status", VStr "would clean")], h).
Proof. reflexivity. Qed.

(** X15.  A dry run of the workflow never computes the recovered space:
    [totalRecovered] keeps its placeholder and [after] is the fixed note.
    Its npm and pip steps run nothing, so they are reported as
    ["would clean"] whatever the machine does. *)
Theorem dry_run_leaves_the_placeholder (HOME : option string) (a : Args.t)
        (sh : shell) (h : list string) :
  Args.dryRun a = Some true ->
  let result := fst (handleFullCleanupWorkflow HOME a sh h) in
  Json.get "dryRun" result = VBool true
  /\ Json.get "totalRecovered" result = VStr "calculating..."
  /\ Json.get "after" result = obj [("note", VStr "Dry run - no changes made")]
  /\ nth 5 (stepsOf result) VUndefined
     = obj [("name", VStr "npm Cache"); ("status", VStr "would clean")]
  /\ nth 6 (stepsOf result) VUndefined
     = obj [("name", VStr "pip Cache"); ("status", VStr "would clean")].
Proof.
  intros Hdry. cbv zeta. rewrite workflow_run. cbv zeta. cbn [fst snd].
  rewrite Hdry. cbn [Args.orDefault].
  rewrite captureAfter_run.
  remember (runSteps _ sh _) as ss eqn:Hss.
  remember (fst (captureBefore sh h)) as b eqn:Hbefore.
  destruct (pushAll_frame (fst ss) (initialWorkflow true b)) as (Hb & Ha & Ht & Hd).
  rewrite Hd. cbn [initialWorkflow wfDryRun fst].
  split; [cbn -[pushAll]; rewrite Hd; reflexivity|].
  split; [cbn -[pushAll]; rewrite Ht; reflexivity|].
  split; [reflexivity|].
  assert (Hsteps : stepsOf (workflowJson
                              (setAfter (obj [("note", VStr "Dry run - no changes made")])
                                 (pushAll (fst ss) (initialWorkflow true b))))
                   = fst ss).
  { unfold stepsOf. cbn -[pushAll]. rewrite pushAll_steps. reflexivity. }
  rewrite Hsteps, Hss. unfold workflowSteps. cbn [app runSteps].
  destruct (trashStep true sh _) as [s1 h1].
  destruct (goStep true sh h1) as [s2 h2].
  destruct (brewStep true sh h2) as [s3 h3].
  destruct (chromeStep HOME true sh h3) as [s4 h4].
  destruct (spotifyStep HOME true sh h4) as [s5 h5].
  unfold npmStep, pipStep. rewrite !packageStep_dry.
  destruct (runSteps _ sh h5) as [rest h6].
  split; reflexivity.
Qed.

Lemma dry_run_leaves_the_placeholder_witness :
  Json.get "totalRecovered"
    (fst (handleFullCleanupWorkflow None (dryRunOf true) (broken "sh: not found") []))
  = VStr "calculating...".
Proof.
  exact (proj1 (proj2 (dry_run_leaves_the_placeholder None (dryRunOf true)
                         (broken "sh: not found") [] eq_refl))).
Defined.

(** The first command of the step fails and the step gives up. *)
Ltac gives_up Hdead :=
  let sh := fresh "sh" in
  let h := fresh "h" in
  intros sh h Hdead;
  unfold trashStep, goStep, brewStep, directoryStep, packageStep, dockerStep,
    unlessDry, catch, andThen, done, bind, ret;
  cbn [negb];
  rewrite exec_run;
  match goal with
  | |- context [sh ?h' ?c] =>
      let m := fresh "m" in
      let E := fresh "E" in
      destruct (Hdead h' c) as [m E]; rewrite E
  end;
  split; reflexivity.

Lemma steps_give_up (HOME : option string) (i v : bool) :
  Forall2 givesUpAfter (workflowSteps HOME i v false) (firstCommands HOME i).
Proof.
  unfold workflowSteps, firstCommands, chromeStep, spotifyStep, npmStep, pipStep,
    directorySizeCommand, trashSizeCommand, goEnvCommand.
  apply Forall2_app.
  - repeat (constructor; [gives_up Hdead|]). constructor.
  - destruct i; [constructor; [gives_up Hdead|]|]; constructor.
Qed.

Lemma runSteps_give_up (ss : list (Exec value)) (cmds : list string)
      (sh : shell) :
  nothingWorks sh ->
  Forall2 givesUpAfter ss cmds ->
  forall h,
    Forall isSkipped (fst (runSteps ss sh h))
    /\ snd (runSteps ss sh h) = (h ++ cmds)%list.
Proof.
  intros Hdead Hall.
  induction Hall as [|s c ss cmds Hs _ IH]; intros h; cbn [runSteps].
  - split; [constructor|]. cbn. rewrite app_nil_r. reflexivity.
  - destruct (Hs sh h Hdead) as [Hskipped Htrace].
    destruct (s sh h) as [v h1]. cbn [fst snd] in *. subst h1.
    destruct (IH (h ++ [c])%list) as [Hrest Hlater].
    destruct (runSteps ss sh (h ++ [c])%list) as [vs h2]. cbn [fst snd] in *.
    split; [constructor; assumption|].
    rewrite Hlater, <- app_assoc. reflexivity.
Qed.

(** X16.  On a machine where every command fails, a run of the workflow
    that is not dry still answers: it tries the first command of every step
    once, between the two disk statuses, reports every step as skipped and
    both disk statuses as errors, and leaves the placeholder as the
    recovered space. *)
Theorem workflow_on_a_dead_machine (HOME : option string) (a : Args.t)
        (sh : shell) (h : list string) :
  nothingWorks sh ->
  Args.orDefault (Args.dryRun a) false = false ->
  let result := fst (handleFullCleanupWorkflow HOME a sh h) in
  snd (handleFullCleanupWorkflow HOME a sh h)
  = (h ++ diskStatusCommand
       :: firstCommands HOME (Args.orDefault (Args.includeDocker a) false)
       ++ [diskStatusCommand])%list
  /\ Forall isSkipped (stepsOf result)
  /\ isError (Json.get "before" result)
  /\ isError (Json.get "after" result)
  /\ Json.get "totalRecovered" result = VStr "calculating...".
Proof.
  intros Hdead Hreal. cbv zeta. rewrite workflow_run. cbv zeta. cbn [fst snd].
  rewrite Hreal, captureBefore_run. cbn [fst snd].
  destruct (Hdead h diskStatusCommand) as [m1 E1]. rewrite E1.
  set (i := Args.orDefault (Args.includeDocker a) false).
  set (v := Args.orDefault (Args.includeDockerVolumes a) false).
  destruct (runSteps_give_up _ _ sh Hdead (steps_give_up HOME i v)
              (h ++ [diskStatusCommand])%list) as [Hskipped Htrace].
  destruct (runSteps (workflowSteps HOME i v false) sh (h ++ [diskStatusCommand])%list)
    as [vs h2].
  cbn [fst snd] in *. subst h2.
  rewrite captureAfter_run.
  remember (obj [("error", VStr m1)]) as b eqn:Hbefore.
  destruct (pushAll_frame vs (initialWorkflow false b)) as (Hb & Ha & Ht & Hd).
  rewrite Hd. cbn [initialWorkflow wfDryRun].
  match goal with
  | |- context [sh ?h' diskStatusCommand] =>
      destruct (Hdead h' diskStatusCommand) as [m2 E2]; rewrite E2
  end.
  cbn [fst snd].
  split; [rewrite <- !app_assoc; reflexivity|].
  split.
  { unfold stepsOf. cbn -[pushAll]. rewrite pushAll_steps. exact Hskipped. }
  split; [exists m1; cbn -[pushAll]; rewrite Hb, Hbefore; reflexivity|].
  split; [exists m2; reflexivity|].
  cbn -[pushAll]. rewrite Ht. reflexivity.
Qed.

Lemma workflow_on_a_dead_machine_witness :
  Forall isSkipped
    (stepsOf (fst (handleFullCleanupWorkflow None Args.empty (broken "sh: not found") []))).
Proof.
  apply (workflow_on_a_dead_machine None Args.empty (broken "sh: not found") []).
  - intros h cmd. eexists. reflexivity.
  - reflexivity.
Defined.

(** *** startup_items *)

(** X17.  startup_items does not look at [showDisabled], or at any other
    argument.  When its three listings succeed, the login items and the
    launch daemons of the answer are empty lists whatever the machine
    holds: only the launch agents are ever filled in, and [systemAgents]
    is present only when that listing is not blank. *)
Theorem startup_items_lists_agents_only (a : Args.t) (sh : shell)
        (user loaded system : string) :
  sh [] userAgentsCommand = Stdout user ->
  sh [userAgentsCommand] loadedAgentsCommand = Stdout loaded ->
  sh [userAgentsCommand; loadedAgentsCommand] systemAgentsCommand = Stdout system ->
  let result := fst (run (handleStartupItems a) sh) in
  run (handleStartupItems a) sh = run (handleStartupItems Args.empty) sh
  /\ Json.get "loginItems" result = VArr []
  /\ Json.get "launchDaemons" result = VArr []
  /\ Json.get "loadedAgents" result = VStr (Str.trim loaded)
  /\ Json.keys result = startupKeys system.
Proof.
  intros Huser Hloaded Hsystem. cbv zeta.
  split; [reflexivity|].
  unfold run, handleStartupItems, userAgentsCommand, loadedAgentsCommand,
    systemAgentsCommand, startupKeys in *.
  cbv zeta. unfold catch, andThen, done, bind, ret.
  rewrite exec_run, Huser. cbv beta iota. cbn [app].
  rewrite exec_run, Hloaded. cbv beta iota. cbn [app].
  rewrite exec_run, Hsystem. cbv beta iota. cbn [fst].
  destruct (Str.trim user), (Str.trim system); repeat split; reflexivity.
Qed.

Lemma startup_items_lists_agents_only_witness :
  Json.keys (fst (run (handleStartupItems Args.empty) oneAgent))
  = ["loginItems"; "launchAgents"; "launchDaemons"; "loadedAgents"].
Proof.
  exact (proj2 (proj2 (proj2 (proj2
           (startup_items_lists_agents_only Args.empty oneAgent _ _ _
              eq_refl eq_refl eq_refl))))).
Defined.

(** *** process_list *)

(** X18.  A sort key other than memory and name sorts by CPU, and the
    answer still names the key that was asked for: without a filter the
    one command is [ps aux -r], cut after the header and [limit]
    processes, and [sortedBy] repeats the argument. *)
Theorem unknown_sort_key_sorts_by_cpu (a : Args.t) (sh : shell) (h : list string)
        (out : string) :
  let key := Args.orDefault (Args.sortBy a) "cpu" in
  let limit := Args.orDefault (Args.limit a) (Num.ofZ 20) in
  key <> "memory" -> key <> "name" ->
  Args.orDefault (Args.filter a) EmptyString = EmptyString ->
  sh h (byCpuCommand limit) = Stdout out ->
  snd (handleProcessList a sh h) = (h ++ [byCpuCommand limit])%list
  /\ Json.get "sortedBy" (fst (handleProcessList a sh h)) = VStr key.
Proof.
  cbv zeta. intros Hmemory Hname Hfilter Hout.
  unfold handleProcessList, byCpuCommand in *. cbv zeta.
  rewrite Hfilter.
  destruct (String.eqb_spec (Args.orDefault (Args.sortBy a) "cpu") "memory") as [E|_];
    [contradiction|].
  destruct (String.eqb_spec (Args.orDefault (Args.sortBy a) "cpu") "name") as [E|_];
    [contradiction|].
  unfold catch, andThen, done, bind, ret.
  rewrite exec_run. cbn [append] in *. rewrite Hout. cbv beta iota.
  split; reflexivity.
Qed.

Lemma unknown_sort_key_sorts_by_cpu_witness :
  Json.get "sortedBy" (fst (handleProcessList (sortedBy "pid") quiet [])) = VStr "pid".
Proof.
  refine (proj2 (unknown_sort_key_sorts_by_cpu (sortedBy "pid") quiet [] EmptyString
                   _ _ eq_refl eq_refl)); discriminate.
Defined.

(** *** What every tool answers *)

Lemma returns_ret {A : Type} (P : A -> Prop) (a : A) : P a -> returns P (ret a).
Proof. intros Ha sh h. exact Ha. Qed.

Lemma returns_bind {A B : Type} (P : B -> Prop) (m : Exec A) (k : A -> Exec B) :
  (forall a, returns P (k a)) -> returns P (bind m k).
Proof.
  intros Hk sh h. unfold bind. destruct (m sh h) as [a h1]. apply Hk.
Qed.

Lemma returns_done {A : Type} (P : A -> Prop) (a : A) :
  P a -> returns (onSuccess P) (done a).
Proof. intros Ha sh h. exact Ha. Qed.

Lemma returns_andThen {A B : Type} (P : B -> Prop) (m : Try A) (k : A -> Try B) :
  (forall a, returns (onSuccess P) (k a)) -> returns (onSuccess P) (andThen m k).
Proof.
  intros Hk. apply returns_bind. intros [a|e]; [apply Hk|].
  intros sh h. exact I.
Qed.

Lemma returns_catch {A : Type} (P : A -> Prop) (body : Try A) (handler : string -> Exec A) :
  returns (onSuccess P) body -> (forall e, returns P (handler e)) ->
  returns P (catch body handler).
Proof.
  intros Hb Hh sh h. unfold catch, bind.
  pose proof (Hb sh h) as Hbody.
  destruct (body sh h) as [[a|e] h1]; cbn [fst onSuccess] in Hbody.
  - exact Hbody.
  - apply Hh.
Qed.

Lemma objects_are_printed (fields : list (string * value)) :
  exists text,
    stringify (VObj fields) = VStr text /\ Str.startsWith "{" text = true.
Proof.
  unfold stringify. cbn [stringifyAt]. unfold bracket.
  match goal with
  | |- context [match ?items with [] => _ | _ => _ end] => destruct items
  end; eexists; (split; [reflexivity|reflexivity]).
Qed.

(** X19.  Whatever the commands do, the handler of a tool ends with an
    object, so that the text of the response is always there and is the
    JSON text of an object. *)
Theorem every_tool_answers_with_an_object (HOME : option string) (n : string)
        (args : option Args.t) (handler : Exec value) (sh : shell) (h : list string) :
  route HOME n args = Some handler ->
  isObject (fst (handler sh h))
  /\ exists text,
       fst (callTool HOME n args sh h)
       = Response (VObj [("content", VArr [VObj [("type", VStr "text");
                                                 ("text", VStr text)]])])
       /\ Str.startsWith "{" text = true.
Proof.
  intros Hroute.
  assert (Hobject : returns isObject handler).
  { unfold route in Hroute.
    set (a := match args with Some a => a | None => Args.empty end) in Hroute.
    repeat match type of Hroute with
           | (if ?b then _ else _) = _ => destruct b
           end;
      try discriminate Hroute; injection Hroute as <-.
    all: unfold handleDiskUsage, handleGoCacheStatus, handleCleanupCaches,
           handleDockerCleanup, handleMemoryStatus, handleCleanupRecommendations,
           handleEmptyTrash, handleFullCleanupWorkflow, handleAnalyzeLibrary,
           handleDeveloperCleanup, handleCpuUsage, handleThermalStatus,
           handleBatteryHealth, handleSystemInfo, handleProcessList, handleKillProcess,
           handleStartupItems, handleNetworkStatus; cbv zeta.
    all: repeat match goal with
                | |- returns _ (catch _ _) => apply returns_catch; [|intros ?]
                | |- returns _ (andThen _ _) => apply returns_andThen; intros ?
                | |- returns _ (done _) => apply returns_done
                | |- returns _ (ret _) => apply returns_ret
                | |- returns _ (errorRecord _) => apply returns_ret
                | |- returns _ (bind _ _) => apply returns_bind; intros ?
                | |- returns _ (if ?b then _ else _) => destruct b
                | |- returns _ (match ?x with _ => _ end) => destruct x
                end.
    all: exact I. }
  split; [apply Hobject|].
  unfold callTool. rewrite Hroute. unfold bind, ret.
  pose proof (Hobject sh h) as Hresult.
  destruct (handler sh h) as [result h1]. cbn [fst] in *.
  destruct result as [| | | | | |fields]; try contradiction.
  destruct (objects_are_printed fields) as (text & Htext & Hbrace).
  exists text. unfold content. rewrite Htext. split; [reflexivity|exact Hbrace].
Qed.

Lemma every_tool_answers_with_an_object_witness :
  isObject (fst (handleSystemInfo (broken "sh: not found") [])).
Proof.
  exact (proj1 (every_tool_answers_with_an_object None "mac_system_info" None
                  handleSystemInfo (broken "sh: not found") [] eq_refl)).
Defined.
